(** * BlackJackAdvisor: a shallow embedding of the decision core

    The Python sources are embedded as Rocq functions, module by module:

    - [src/core/types.py], [src/core/primitives.py]  (ranks, cards, hands)
    - [src/state/manager.py]                         (Hi-Lo state manager)
    - [src/strategy/lookup.py], [deviations.py], [engine.py]
    - [src/betting/estimator.py], [kelly.py], [engine.py]
    - [interfaces/simulator.py]                      (shoe, agent, driver)

    Conventions.
    - Python [int] is [Z]; Python [float] is an exact rational [Q], so
      the development speaks about the real-number reading of the float
      code ([round(x, 2)] is rounding of the rational to cents, ties to
      even).  Numeric results are compared with [==] ([Qeq]) unless the
      code returns the very same object.
    - A Python exception is the [Raise] case of [result].
    - A [dict] with string keys is a [gmap string _].
    - The pseudo-random generators of the simulator are oracles, bound as
      section variables. *)

From Stdlib Require Import ZArith QArith Qround Qminmax Lia Lqa Ascii.
From stdpp Require Import gmap strings list pretty.

Local Open Scope Z_scope.

(** ** Exceptions *)

Inductive PyError : Type :=
  | ValueError
  | IndexError
  | RuntimeError
  | ZeroDivisionError.

Inductive result (A : Type) : Type :=
  | Ok (a : A)
  | Raise (e : PyError).

Arguments Ok {A} a.
Arguments Raise {A} e.

#[global] Instance result_ret : MRet result := fun A a => Ok a.

#[global] Instance result_bind : MBind result := fun A B f m =>
  match m with
  | Ok a => f a
  | Raise e => Raise e
  end.

(** ** Float helpers (rational reading) *)

(** [int(x)]: truncation toward zero. *)
Definition py_int (x : Q) : Z :=
  if Qle_bool 0 x then Qfloor x else Qceiling x.

(** [round(x)]: nearest integer, ties to the even one. *)
Definition py_round (x : Q) : Z :=
  let f := Qfloor x in
  match Qcompare (x - inject_Z f) (1 # 2) with
  | Lt => f
  | Gt => f + 1
  | Eq => if Z.even f then f else f + 1
  end.

(** [round(x, 2)]. *)
Definition py_round2 (x : Q) : Q :=
  Qmake (py_round (x * 100)) 100.

Definition Qlt_bool (x y : Q) : bool := negb (Qle_bool y x).

(** ** src/core/types.py *)

Inductive Rank : Type :=
  | TWO | THREE | FOUR | FIVE | SIX | SEVEN | EIGHT | NINE | TEN
  | JACK | QUEEN | KING | ACE.

Inductive Suit : Type := HEARTS | DIAMONDS | CLUBS | SPADES.

Inductive Action : Type := STAND | HIT | DOUBLE | SPLIT | SURRENDER.

Inductive HandType : Type := HARD | SOFT | PAIR.

Inductive DeviationDirection : Type := ABOVE_OR_EQUAL | BELOW.

#[global] Instance Rank_eq_dec : EqDecision Rank.
Proof. solve_decision. Defined.
#[global] Instance Suit_eq_dec : EqDecision Suit.
Proof. solve_decision. Defined.
#[global] Instance Action_eq_dec : EqDecision Action.
Proof. solve_decision. Defined.
#[global] Instance HandType_eq_dec : EqDecision HandType.
Proof. solve_decision. Defined.
#[global] Instance DeviationDirection_eq_dec : EqDecision DeviationDirection.
Proof. solve_decision. Defined.

Module Rank_.
(** The enum's ordinal ([Rank.X.value]). *)
Definition value (r : Rank) : Z :=
  match r with
  | TWO => 2 | THREE => 3 | FOUR => 4 | FIVE => 5 | SIX => 6
  | SEVEN => 7 | EIGHT => 8 | NINE => 9 | TEN => 10
  | JACK => 11 | QUEEN => 12 | KING => 13 | ACE => 14
  end.

Definition blackjack_value (r : Rank) : Z :=
  if value r <=? 10 then value r
  else if bool_decide (value r ∈ [11; 12; 13]) then 10
  else 11.

Definition hilo_tag (r : Rank) : Z :=
  if bool_decide (value r ∈ [2; 3; 4; 5; 6]) then 1
  else if value r >=? 10 then -1
  else 0.

Definition symbol (r : Rank) : string :=
  match r with
  | TWO => "2" | THREE => "3" | FOUR => "4" | FIVE => "5" | SIX => "6"
  | SEVEN => "7" | EIGHT => "8" | NINE => "9" | TEN => "T"
  | JACK => "J" | QUEEN => "Q" | KING => "K" | ACE => "A"
  end.

Definition all : list Rank :=
  [TWO; THREE; FOUR; FIVE; SIX; SEVEN; EIGHT; NINE; TEN; JACK; QUEEN; KING; ACE].
End Rank_.

Module Suit_.
Definition all : list Suit := [HEARTS; DIAMONDS; CLUBS; SPADES].
End Suit_.

Module HandType_.
Definition value (t : HandType) : string :=
  match t with HARD => "H" | SOFT => "S" | PAIR => "P" end.
End HandType_.

(** [GameState]: the immutable count snapshot. *)
Module GameState.
Record t : Type := Build {
  true_count : Q;
  cards_remaining : Z;
  running_count : Z;
  decks_remaining : Q;
  penetration : Q
}.
End GameState.

(** ** src/core/primitives.py *)

Module Card.
Record t : Type := Build { rank : Rank; suit : Suit }.

Definition value (c : t) : Z := Rank_.blackjack_value (rank c).
Definition hilo_tag (c : t) : Z := Rank_.hilo_tag (rank c).
Definition is_ace (c : t) : bool := bool_decide (rank c = ACE).
Definition is_ten (c : t) : bool := bool_decide (value c = 10).
End Card.

#[global] Instance Card_eq_dec : EqDecision Card.t.
Proof. solve_decision. Defined.

Module Hand.
Record t : Type := Build {
  cards : list Card.t;
  is_pair : bool;
  is_soft : bool;
  total : Z
}.

(** The dataclass constructor with its [__post_init__] check. *)
Definition make (cs : list Card.t) (pair soft : bool) (tot : Z) : result t :=
  if (tot <? 2) || (31 <? tot) then Raise ValueError
  else Ok (Build cs pair soft tot).

(** [while total > 21 and aces_as_eleven > 0: total -= 10; aces_as_eleven -= 1] *)
Fixpoint reduce_aces (tot : Z) (aces_as_eleven : nat) : Z * nat :=
  match aces_as_eleven with
  | O => (tot, O)
  | S n => if 21 <? tot then reduce_aces (tot - 10) n else (tot, aces_as_eleven)
  end.

Definition from_cards (cs : list Card.t) : result t :=
  match cs with
  | [] => Raise ValueError
  | _ =>
      let tot0 := foldr Z.add 0 (Card.value <$> cs) in
      let num_aces := length (filter (fun c => Card.is_ace c = true) cs) in
      let '(tot, aces_as_eleven) := reduce_aces tot0 num_aces in
      let soft := bool_decide (0 < aces_as_eleven)%nat && (tot <=? 21) in
      let pair :=
        match cs with
        | [c0; c1] => bool_decide (Card.rank c0 = Card.rank c1)
        | _ => false
        end in
      make cs pair soft tot
  end.

Definition hand_type (h : t) : HandType :=
  if is_pair h then PAIR else if is_soft h then SOFT else HARD.

Definition pair_value (h : t) : result Z :=
  if negb (is_pair h) then Raise ValueError
  else match cards h with
       | [] => Raise IndexError
       | c :: _ =>
           if bool_decide (Card.rank c = ACE) then Ok 11
           else Ok (Rank_.blackjack_value (Card.rank c))
       end.

Definition is_blackjack (h : t) : bool :=
  bool_decide (length (cards h) = 2%nat) && (total h =? 21).

Definition is_busted (h : t) : bool := 21 <? total h.

Definition add_card (h : t) (c : Card.t) : result t :=
  from_cards (cards h ++ [c]).
End Hand.

(** ** src/config/loader.py: the rules record *)

Module GameRules.
Record t : Type := Build {
  num_decks : Z;
  cards_per_deck : Z;
  penetration : Q;
  dealer_stands_soft_17 : bool;
  dealer_peeks_for_blackjack : bool;
  double_after_split : bool;
  resplit_aces : bool;
  hit_split_aces : bool;
  max_splits : Z;
  surrender_allowed : bool;
  early_surrender : bool;
  double_any_two : bool;
  double_9_10_11_only : bool;
  double_10_11_only : bool;
  blackjack_pays : Q;
  table_min : Q;
  table_max : Q
}.

Definition default : t :=
  Build 6 52 (3 # 4) true true true false false 3 true false
        true false false (3 # 2) 10 1000.

Definition total_cards (r : t) : Z := num_decks r * cards_per_deck r.
End GameRules.

(** ** src/state/manager.py *)

Module StateManager.
Record t : Type := Build {
  _rules : GameRules.t;
  _running_count : Z;
  _cards_seen : Z;
  _observed_cards : list Card.t
}.

Definition init (rules : GameRules.t) : t := Build rules 0 0 [].

Definition observe_card (s : t) (card : Card.t) : t :=
  Build (_rules s)
        (_running_count s + Card.hilo_tag card)
        (_cards_seen s + 1)
        (_observed_cards s ++ [card]).

Definition observe (s : t) (cs : list Card.t) : t :=
  foldl observe_card s cs.

Definition reset (s : t) (rules : option GameRules.t) (burn_count : Z) : t :=
  Build (default (_rules s) rules) 0 burn_count [].

(** [cards_remaining / cards_per_deck] is a true division: it raises on a
    zero divisor. *)
Definition _calculate_decks_remaining (s : t) : result Q :=
  let cards_remaining := GameRules.total_cards (_rules s) - _cards_seen s in
  if GameRules.cards_per_deck (_rules s) =? 0 then Raise ZeroDivisionError
  else
    let decks := (inject_Z cards_remaining
                  / inject_Z (GameRules.cards_per_deck (_rules s)))%Q in
    Ok (Qmax (1 # 2) decks).

Definition _calculate_true_count (s : t) (decks_remaining : Q) : result Q :=
  if Qeq_bool decks_remaining 0 then Raise ZeroDivisionError
  else Ok (inject_Z (_running_count s) / decks_remaining)%Q.

Definition get_metrics (s : t) : result GameState.t :=
  let cards_remaining := GameRules.total_cards (_rules s) - _cards_seen s in
  decks_remaining ← _calculate_decks_remaining s;
  true_count ← _calculate_true_count s decks_remaining;
  let penetration :=
    if 0 <? GameRules.total_cards (_rules s)
    then (inject_Z (_cards_seen s)
          / inject_Z (GameRules.total_cards (_rules s)))%Q
    else 0%Q in
  Ok (GameState.Build true_count cards_remaining (_running_count s)
                      decks_remaining penetration).
End StateManager.

(** ** src/strategy/lookup.py *)

(** [str.upper()] on the ASCII letters. *)
Definition upper_ascii (c : Ascii.ascii) : Ascii.ascii :=
  let n := Ascii.nat_of_ascii c in
  if (97 <=? n)%nat && (n <=? 122)%nat then Ascii.ascii_of_nat (n - 32) else c.

Fixpoint upper (s : string) : string :=
  match s with
  | EmptyString => EmptyString
  | String c s' => String (upper_ascii c) (upper s')
  end.

(** The format spec [{v:02d}]: only a single non-negative digit is padded. *)
Definition pad2 (v : Z) : string :=
  let s := pretty v in
  if (String.length s <? 2)%nat then "0" +:+ s else s.

(** [dealer_up.value if not dealer_up.is_ace else 11] *)
Definition dealer_value_of (dealer_up : Card.t) : Z :=
  if negb (Card.is_ace dealer_up) then Card.value dealer_up else 11.

Module StrategyLookup.
Record t : Type := Build { _table : gmap string string }.

Definition _action_map : gmap string Action :=
  list_to_map
    [ ("STAND", STAND); ("HIT", HIT); ("DOUBLE", DOUBLE); ("SPLIT", SPLIT);
      ("SURRENDER", SURRENDER);
      ("Ds", DOUBLE); ("Dh", DOUBLE);
      ("Rh", SURRENDER); ("Rs", SURRENDER); ("Rp", SURRENDER);
      ("Ph", SPLIT); ("Pd", SPLIT) ].

Definition _generate_key (hand : Hand.t) (dealer_up : Card.t) : result string :=
  let hand_type := HandType_.value (Hand.hand_type hand) in
  let dealer_value := dealer_value_of dealer_up in
  if Hand.is_pair hand then
    value ← Hand.pair_value hand;
    Ok (hand_type +:+ "_" +:+ pad2 value +:+ ":" +:+ pad2 dealer_value)
  else
    let value := Hand.total hand in
    Ok (hand_type +:+ "_" +:+ pretty value +:+ ":" +:+ pad2 dealer_value).

Definition _generate_alt_key (hand : Hand.t) (dealer_up : Card.t) : result string :=
  let hand_type := HandType_.value (Hand.hand_type hand) in
  let dealer_value := dealer_value_of dealer_up in
  value ← (if Hand.is_pair hand then Hand.pair_value hand
           else Ok (Hand.total hand));
  Ok (hand_type +:+ "_" +:+ pretty value +:+ ":" +:+ pretty dealer_value).

(** The result is [None] when no entry (or no known token) is found. *)
Definition lookup (l : t) (hand : Hand.t) (dealer_up : Card.t)
  : result (option Action) :=
  key ← _generate_key hand dealer_up;
  action_str ←
    match _table l !! key with
    | Some s => Ok (Some s)
    | None =>
        alt_key ← _generate_alt_key hand dealer_up;
        Ok (_table l !! alt_key)
    end;
  match action_str with
  | None => Ok None
  | Some s => Ok (_action_map !! upper s)
  end.
End StrategyLookup.

(** ** src/strategy/deviations.py *)

Module DeviationTrigger.
Record t : Type := Build { hand_type : HandType; value : Z; dealer_up : Z }.
End DeviationTrigger.

Module DeviationRule.
Record t : Type := Build {
  threshold : Q;
  direction : DeviationDirection;
  action : Action
}.
End DeviationRule.

Module Deviation.
Record t : Type := Build {
  id : string;
  trigger : DeviationTrigger.t;
  rule : DeviationRule.t;
  priority : Z
}.

Definition matches_hand (d : t) (hand : Hand.t) (dealer_up : Card.t) : result bool :=
  let dealer_value := dealer_value_of dealer_up in
  if negb (dealer_value =? DeviationTrigger.dealer_up (trigger d)) then Ok false
  else
    match DeviationTrigger.hand_type (trigger d) with
    | HARD =>
        Ok (negb (Hand.is_soft hand) && negb (Hand.is_pair hand)
            && (Hand.total hand =? DeviationTrigger.value (trigger d)))
    | SOFT =>
        Ok (Hand.is_soft hand
            && (Hand.total hand =? DeviationTrigger.value (trigger d)))
    | PAIR =>
        if Hand.is_pair hand then
          v ← Hand.pair_value hand;
          Ok (v =? DeviationTrigger.value (trigger d))
        else Ok false
    end.

Definition is_triggered (d : t) (true_count : Q) : bool :=
  match DeviationRule.direction (rule d) with
  | ABOVE_OR_EQUAL => Qle_bool (DeviationRule.threshold (rule d)) true_count
  | BELOW => Qlt_bool true_count (DeviationRule.threshold (rule d))
  end.

Definition get_action (d : t) : Action := DeviationRule.action (rule d).
End Deviation.

Module DeviationEngine.
Record t : Type := Build {
  _deviations : list Deviation.t;
  _index : gmap string (list Deviation.t)
}.

(** The f-string [{hand_type}_{value}_{dealer}] of the index. *)
Definition index_key (hand_type : HandType) (value dealer : Z) : string :=
  HandType_.value hand_type +:+ "_" +:+ pretty value +:+ "_" +:+ pretty dealer.

Definition key_of (dev : Deviation.t) : string :=
  index_key (DeviationTrigger.hand_type (Deviation.trigger dev))
            (DeviationTrigger.value (Deviation.trigger dev))
            (DeviationTrigger.dealer_up (Deviation.trigger dev)).

(** [index[key].append(dev)], creating the list when the key is new. *)
Definition index_append (idx : gmap string (list Deviation.t)) (dev : Deviation.t)
  : gmap string (list Deviation.t) :=
  <[key_of dev := default [] (idx !! key_of dev) ++ [dev]]> idx.

(** [list.sort(key=priority, reverse=True)]: stable, highest first. *)
Fixpoint insert_desc (x : Deviation.t) (l : list Deviation.t) : list Deviation.t :=
  match l with
  | [] => [x]
  | y :: l' =>
      if Deviation.priority y <? Deviation.priority x then x :: l
      else y :: insert_desc x l'
  end.

Definition sort_desc (l : list Deviation.t) : list Deviation.t :=
  foldl (fun acc x => insert_desc x acc) [] l.

Definition _rebuild_index (devs : list Deviation.t) : gmap string (list Deviation.t) :=
  sort_desc <$> foldl index_append ∅ devs.

Definition make (deviations : list Deviation.t) : t :=
  Build deviations (_rebuild_index deviations).

Fixpoint first_triggered (candidates : list Deviation.t) (true_count : Q)
  : option Action :=
  match candidates with
  | [] => None
  | deviation :: rest =>
      if Deviation.is_triggered deviation true_count
      then Some (Deviation.get_action deviation)
      else first_triggered rest true_count
  end.

(** The classification used to build the lookup key. *)
Definition classify (hand : Hand.t) : result (HandType * Z) :=
  if Hand.is_pair hand then
    v ← Hand.pair_value hand; Ok (PAIR, v)
  else if Hand.is_soft hand then Ok (SOFT, Hand.total hand)
  else Ok (HARD, Hand.total hand).

Definition check_deviation (e : t) (hand : Hand.t) (dealer_up : Card.t)
    (metrics : GameState.t) : result (option Action) :=
  '(hand_type, value) ← classify hand;
  let dealer_value := dealer_value_of dealer_up in
  let key := index_key hand_type value dealer_value in
  let candidates := default [] (_index e !! key) in
  Ok (first_triggered candidates (GameState.true_count metrics)).

Definition check_surrender_deviation (e : t) (hand : Hand.t) (dealer_up : Card.t)
    (metrics : GameState.t) : result (option Action) :=
  action ← check_deviation e hand dealer_up metrics;
  if bool_decide (action = Some SURRENDER) then Ok action else Ok None.
End DeviationEngine.

Definition mk_dev (id : string) (ht : HandType) (v d : Z)
    (th : Q) (dir : DeviationDirection) (a : Action) (prio : Z) : Deviation.t :=
  Deviation.Build id (DeviationTrigger.Build ht v d) (DeviationRule.Build th dir a) prio.

Definition ILLUSTRIOUS_18 : list Deviation.t :=
  [ mk_dev "ILL_16v10" HARD 16 10 0 ABOVE_OR_EQUAL STAND 1;
    mk_dev "ILL_15v10" HARD 15 10 4 ABOVE_OR_EQUAL STAND 2;
    mk_dev "ILL_20vA" PAIR 10 11 6 ABOVE_OR_EQUAL SPLIT 3;
    mk_dev "ILL_10v10" HARD 10 10 4 ABOVE_OR_EQUAL DOUBLE 4;
    mk_dev "ILL_12v3" HARD 12 3 2 ABOVE_OR_EQUAL STAND 5;
    mk_dev "ILL_12v2" HARD 12 2 3 ABOVE_OR_EQUAL STAND 6;
    mk_dev "ILL_11vA" HARD 11 11 1 ABOVE_OR_EQUAL DOUBLE 7;
    mk_dev "ILL_9v2" HARD 9 2 1 ABOVE_OR_EQUAL DOUBLE 8;
    mk_dev "ILL_10vA" HARD 10 11 4 ABOVE_OR_EQUAL DOUBLE 9;
    mk_dev "ILL_9v7" HARD 9 7 3 ABOVE_OR_EQUAL DOUBLE 10;
    mk_dev "ILL_16v9" HARD 16 9 5 ABOVE_OR_EQUAL STAND 11;
    mk_dev "ILL_13v2" HARD 13 2 (-1) BELOW HIT 12;
    mk_dev "ILL_12v4" HARD 12 4 0 BELOW HIT 13;
    mk_dev "ILL_12v5" HARD 12 5 (-2) BELOW HIT 14;
    mk_dev "ILL_12v6" HARD 12 6 (-1) BELOW HIT 15;
    mk_dev "ILL_13v3" HARD 13 3 (-2) BELOW HIT 16 ].

Definition FAB_4 : list Deviation.t :=
  [ mk_dev "FAB_15v10" HARD 15 10 0 ABOVE_OR_EQUAL SURRENDER 100;
    mk_dev "FAB_15vA" HARD 15 11 1 ABOVE_OR_EQUAL SURRENDER 101;
    mk_dev "FAB_14v10" HARD 14 10 3 ABOVE_OR_EQUAL SURRENDER 102;
    mk_dev "FAB_15v9" HARD 15 9 2 ABOVE_OR_EQUAL SURRENDER 103 ].

Definition create_standard_deviation_engine : DeviationEngine.t :=
  DeviationEngine.make (ILLUSTRIOUS_18 ++ FAB_4).

(** ** src/strategy/engine.py *)

Module DecisionResult.
Record t : Type := Build {
  action : Action;
  baseline_action : Action;
  deviation_id : option string;
  true_count : Q
}.

Definition deviated (r : t) : bool :=
  bool_decide (action r ≠ baseline_action r).
End DecisionResult.

Module RuleConfig.
Record t : Type := Build {
  dealer_stands_soft_17 : bool;
  double_after_split : bool;
  surrender_allowed : bool;
  num_decks : Z;
  rule_set_name : string;
  deviation_threshold_margin : Q
}.

Definition default : t := Build true true true 6 "s17_das" 0.
End RuleConfig.

Module StrategyEngine.
Record t : Type := Build {
  _config : RuleConfig.t;
  _lookup : StrategyLookup.t;
  _deviation_engine : DeviationEngine.t
}.

(** The in-memory table used when the strategy file is missing. *)
Definition _get_fallback_strategy : gmap string string :=
  list_to_map
    [ ("H_17:02", "STAND"); ("H_17:07", "STAND"); ("H_17:10", "STAND");
      ("H_16:02", "STAND"); ("H_16:07", "HIT"); ("H_16:10", "HIT");
      ("H_15:02", "STAND"); ("H_15:07", "HIT"); ("H_15:10", "HIT");
      ("H_14:02", "STAND"); ("H_14:07", "HIT"); ("H_14:10", "HIT");
      ("H_13:02", "STAND"); ("H_13:07", "HIT"); ("H_13:10", "HIT");
      ("H_12:02", "HIT"); ("H_12:04", "STAND"); ("H_12:07", "HIT");
      ("H_11:02", "DOUBLE"); ("H_11:10", "DOUBLE"); ("H_11:11", "HIT");
      ("H_10:02", "DOUBLE"); ("H_10:10", "HIT"); ("H_10:11", "HIT");
      ("H_9:02", "HIT"); ("H_9:03", "DOUBLE"); ("H_9:07", "HIT");
      ("S_20:02", "STAND"); ("S_20:10", "STAND");
      ("S_19:02", "STAND"); ("S_19:06", "DOUBLE"); ("S_19:10", "STAND");
      ("S_18:02", "STAND"); ("S_18:09", "HIT"); ("S_18:10", "HIT");
      ("S_17:02", "HIT"); ("S_17:03", "DOUBLE"); ("S_17:07", "HIT");
      ("P_11:02", "SPLIT"); ("P_11:10", "SPLIT");
      ("P_10:02", "STAND"); ("P_10:10", "STAND");
      ("P_08:02", "SPLIT"); ("P_08:10", "SPLIT") ].

(** [__init__]: [strategy_table] is what [DataLoader.load_strategy]
    returned, or [None] when the file was not found. *)
Definition make (rule_config : RuleConfig.t)
    (strategy_table : option (gmap string string))
    (deviation_engine : option DeviationEngine.t) : t :=
  Build rule_config
        (StrategyLookup.Build (default _get_fallback_strategy strategy_table))
        (default create_standard_deviation_engine deviation_engine).

Definition _validate_action (action : Action) (hand : Hand.t) : Action :=
  if bool_decide (action = DOUBLE) && (2 <? length (Hand.cards hand))%nat then HIT
  else if bool_decide (action = SPLIT) && negb (Hand.is_pair hand) then HIT
  else if bool_decide (action = SURRENDER) && (2 <? length (Hand.cards hand))%nat then HIT
  else action.

Definition _calculate_fallback_action (hand : Hand.t) (dealer_up : Card.t) : Action :=
  let total := Hand.total hand in
  let dealer_value := dealer_value_of dealer_up in
  let two_cards := bool_decide (length (Hand.cards hand) = 2%nat) in
  if negb (Hand.is_soft hand) then
    if total >=? 17 then STAND
    else if (total >=? 13) && (dealer_value <=? 6) then STAND
    else if (total =? 12) && ((4 <=? dealer_value) && (dealer_value <=? 6)) then STAND
    else if total =? 11 then (if two_cards then DOUBLE else HIT)
    else if (total =? 10) && (dealer_value <=? 9) then (if two_cards then DOUBLE else HIT)
    else if (total =? 9) && ((3 <=? dealer_value) && (dealer_value <=? 6))
         then (if two_cards then DOUBLE else HIT)
    else HIT
  else
    if total >=? 19 then STAND
    else if total =? 18 then (if dealer_value >=? 9 then HIT else STAND)
    else HIT.

Definition _get_baseline_action (e : t) (hand : Hand.t) (dealer_up : Card.t)
  : result Action :=
  baseline_action ← StrategyLookup.lookup (_lookup e) hand dealer_up;
  match baseline_action with
  | Some a => Ok (_validate_action a hand)
  | None => Ok (_calculate_fallback_action hand dealer_up)
  end.

Definition _get_triggered_deviation_id (hand : Hand.t) (dealer_up : Card.t)
    (metrics : GameState.t) : result string :=
  hand_desc ←
    (if Hand.is_pair hand then
       v ← Hand.pair_value hand; Ok ("P" +:+ pretty v)
     else if Hand.is_soft hand then Ok ("S" +:+ pretty (Hand.total hand))
     else Ok ("H" +:+ pretty (Hand.total hand)));
  let dealer_val := dealer_value_of dealer_up in
  Ok ("DEV_" +:+ hand_desc +:+ "v" +:+ pretty dealer_val).

Definition _check_deviation_with_margin (e : t) (hand : Hand.t) (dealer_up : Card.t)
    (metrics : GameState.t) (margin : Q) (surrender_only : bool)
  : result (option (string * Action)) :=
  let adjusted_metrics :=
    GameState.Build (GameState.true_count metrics - margin)%Q
                    (GameState.cards_remaining metrics)
                    (GameState.running_count metrics)
                    (GameState.decks_remaining metrics)
                    0%Q in
  if surrender_only then
    action ← DeviationEngine.check_surrender_deviation
               (_deviation_engine e) hand dealer_up adjusted_metrics;
    match action with
    | Some a =>
        deviation_id ← _get_triggered_deviation_id hand dealer_up metrics;
        Ok (Some (deviation_id, a))
    | None => Ok None
    end
  else
    action ← DeviationEngine.check_deviation
               (_deviation_engine e) hand dealer_up adjusted_metrics;
    match action with
    | Some a =>
        if bool_decide (a ≠ SURRENDER) then
          deviation_id ← _get_triggered_deviation_id hand dealer_up metrics;
          Ok (Some (deviation_id, a))
        else Ok None
    | None => Ok None
    end.

Definition _decide_split_with_context (e : t) (hand : Hand.t) (dealer_up : Card.t)
    (metrics : GameState.t) (margin : Q) : result (option (string * Action)) :=
  res ← _check_deviation_with_margin e hand dealer_up metrics margin false;
  match res with
  | Some (dev_id, a) => if bool_decide (a = SPLIT) then Ok res else Ok None
  | None => Ok None
  end.

Definition decide_with_context (e : t) (hand : Hand.t) (dealer_up : Card.t)
    (metrics : GameState.t) (use_deviations : bool) : result DecisionResult.t :=
  let true_count := GameState.true_count metrics in
  let margin := RuleConfig.deviation_threshold_margin (_config e) in
  baseline_action ← _get_baseline_action e hand dealer_up;
  let baseline := DecisionResult.Build baseline_action baseline_action None true_count in
  if negb use_deviations then Ok baseline
  else
    (* Step 1: surrender deviations *)
    surrender_result ←
      (if RuleConfig.surrender_allowed (_config e)
          && bool_decide (length (Hand.cards hand) = 2%nat)
       then _check_deviation_with_margin e hand dealer_up metrics margin true
       else Ok None);
    match surrender_result with
    | Some (deviation_id, chosen_action) =>
        Ok (DecisionResult.Build chosen_action baseline_action
                                 (Some deviation_id) true_count)
    | None =>
        (* Step 2: split *)
        split_return ←
          (if Hand.is_pair hand then
             split_result ← _decide_split_with_context e hand dealer_up metrics margin;
             match split_result with
             | Some (deviation_id, chosen_action) =>
                 if bool_decide (chosen_action = SPLIT) then
                   Ok (Some (DecisionResult.Build chosen_action baseline_action
                                                  (Some deviation_id) true_count))
                 else if bool_decide (baseline_action = SPLIT) then
                   Ok (Some (DecisionResult.Build SPLIT baseline_action None true_count))
                 else Ok None
             | None =>
                 if bool_decide (baseline_action = SPLIT) then
                   Ok (Some (DecisionResult.Build SPLIT baseline_action None true_count))
                 else Ok None
             end
           else Ok None);
        match split_return with
        | Some r => Ok r
        | None =>
            (* Step 3: playing deviations *)
            deviation_result ←
              _check_deviation_with_margin e hand dealer_up metrics margin false;
            match deviation_result with
            | Some (deviation_id, chosen_action) =>
                if bool_decide (chosen_action ≠ SURRENDER) then
                  Ok (DecisionResult.Build chosen_action baseline_action
                                           (Some deviation_id) true_count)
                else Ok baseline
            | None => Ok baseline
            end
        end
    end.

Definition decide (e : t) (hand : Hand.t) (dealer_up : Card.t)
    (metrics : GameState.t) (use_deviations : bool) : result Action :=
  r ← decide_with_context e hand dealer_up metrics use_deviations;
  Ok (DecisionResult.action r).
End StrategyEngine.

(** ** src/betting/estimator.py *)

(** True division of floats. *)
Definition py_div (x y : Q) : result Q :=
  if Qeq_bool y 0 then Raise ZeroDivisionError else Ok (x / y)%Q.

Module AdvantageModel.
Record t : Type := Build { slope : Q; baseline_edge : Q }.

Definition default : t := Build (5 # 1000) (5 # 1000).

Definition calculate_advantage (m : t) (true_count : Q) : Q :=
  ((true_count * slope m) - baseline_edge m)%Q.

Definition from_rules (rules : GameRules.t) : t :=
  let baseline := (4 # 1000)%Q in
  let baseline :=
    if negb (GameRules.dealer_stands_soft_17 rules)
    then (baseline + (22 # 10000))%Q else baseline in
  let baseline :=
    if Qlt_bool (GameRules.blackjack_pays rules) (14 # 10)
    then (baseline + (139 # 10000))%Q else baseline in
  let baseline :=
    if negb (GameRules.double_after_split rules)
    then (baseline + (14 # 10000))%Q else baseline in
  let baseline :=
    if negb (GameRules.surrender_allowed rules)
    then (baseline + (8 # 10000))%Q else baseline in
  let baseline :=
    if GameRules.double_10_11_only rules then (baseline + (18 # 10000))%Q
    else if GameRules.double_9_10_11_only rules then (baseline + (9 # 10000))%Q
    else baseline in
  Build (5 # 1000) baseline.
End AdvantageModel.

Module EVEstimator.
Record t : Type := Build {
  _model : AdvantageModel.t;
  _rules : option GameRules.t;
  _deck_adjustment : bool
}.

Definition make (model : option AdvantageModel.t) (rules : option GameRules.t)
    (deck_adjustment : bool) : t :=
  let m :=
    match model with
    | Some m => m
    | None =>
        match rules with
        | Some r => AdvantageModel.from_rules r
        | None => AdvantageModel.default
        end
    end in
  Build m rules deck_adjustment.

Definition estimate_advantage (e : t) (true_count : Q) (num_decks : Z) : result Q :=
  let base_advantage := AdvantageModel.calculate_advantage (_model e) true_count in
  if _deck_adjustment e then
    deck_factor ← py_div 6 (inject_Z num_decks);
    let adjustment := (1 + (deck_factor - 1) * (1 # 10))%Q in
    Ok (base_advantage * adjustment)%Q
  else Ok base_advantage.

Definition breakeven_count (e : t) : result Q :=
  py_div (AdvantageModel.baseline_edge (_model e)) (AdvantageModel.slope (_model e)).
End EVEstimator.

(** ** src/betting/kelly.py *)

Module BetLimits.
Record t : Type := Build {
  table_min : Q;
  table_max : Q;
  max_bet_spread : Q
}.

Definition clamp (l : t) (bet : Q) : Q :=
  Qmax (table_min l) (Qmin (table_max l) bet).
End BetLimits.

Module KellyCalculator.
Definition BLACKJACK_VARIANCE : Q := 126 # 100.

Record t : Type := Build { _kelly_fraction : Q; _variance : Q }.

Definition make (kelly_fraction variance : Q) : result t :=
  if negb (Qlt_bool 0 kelly_fraction && Qle_bool kelly_fraction 1)
  then Raise ValueError
  else Ok (Build kelly_fraction variance).

Definition calculate_bet_fraction (k : t) (advantage : Q) : result Q :=
  if Qle_bool advantage 0 then Ok 0%Q
  else
    full_kelly ← py_div advantage (_variance k);
    Ok (full_kelly * _kelly_fraction k)%Q.

Definition calculate_bet_amount (k : t) (advantage bankroll : Q)
    (limits : BetLimits.t) : result Q :=
  if Qle_bool bankroll 0 then Ok 0%Q
  else
    fraction ← calculate_bet_fraction k advantage;
    let bet := (bankroll * fraction)%Q in
    let bet := BetLimits.clamp limits bet in
    let bet := Qmin bet bankroll in
    Ok bet.
End KellyCalculator.

(** ** src/betting/engine.py *)

Module BettingConfig.
Record t : Type := Build {
  kelly_fraction : Q;
  table_min : Q;
  table_max : Q;
  max_spread : Q;
  num_decks : Z;
  flat_betting : bool;
  max_betting_penetration : Q
}.

Definition default : t := Build (1 # 2) 10 1000 12 6 false (85 # 100).
End BettingConfig.

Module BettingEngine.
Record t : Type := Build {
  _config : BettingConfig.t;
  _rules : option GameRules.t;
  _limits : BetLimits.t;
  _kelly : KellyCalculator.t;
  _estimator : EVEstimator.t
}.

Definition make (config : BettingConfig.t) (rules : option GameRules.t) : result t :=
  let limits := BetLimits.Build (BettingConfig.table_min config)
                                (BettingConfig.table_max config)
                                (BettingConfig.max_spread config) in
  kelly ← KellyCalculator.make (BettingConfig.kelly_fraction config)
                               KellyCalculator.BLACKJACK_VARIANCE;
  Ok (Build config rules limits kelly (EVEstimator.make None rules true)).

(** Steps 1-5 of [compute_bet]: the count-driven (Kelly) sizing. *)
Definition kelly_sized_bet (e : t) (true_count bankroll : Q) : result Q :=
  advantage ← EVEstimator.estimate_advantage
                (_estimator e) true_count (BettingConfig.num_decks (_config e));
  bet ← KellyCalculator.calculate_bet_amount (_kelly e) advantage bankroll (_limits e);
  let max_bet := (BetLimits.table_min (_limits e)
                  * BettingConfig.max_spread (_config e))%Q in
  let bet := Qmin bet max_bet in
  let bet := Qmin bet bankroll in
  if Qlt_bool bet (BetLimits.table_min (_limits e)) then
    if Qlt_bool 0 advantage && Qle_bool (BetLimits.table_min (_limits e)) bankroll
    then Ok (BetLimits.table_min (_limits e))
    else if Qle_bool (BetLimits.table_min (_limits e)) bankroll
         then Ok (BetLimits.table_min (_limits e))
         else Ok 0%Q
  else Ok (py_round2 bet).

Definition compute_bet (e : t) (true_count bankroll penetration : Q) : result Q :=
  if Qlt_bool bankroll (BetLimits.table_min (_limits e)) then Ok 0%Q
  else if BettingConfig.flat_betting (_config e)
  then Ok (BetLimits.table_min (_limits e))
  else if Qlt_bool (BettingConfig.max_betting_penetration (_config e)) penetration
  then Ok (BetLimits.table_min (_limits e))
  else kelly_sized_bet e true_count bankroll.

Definition should_bet (e : t) (true_count : Q) : result bool :=
  advantage ← EVEstimator.estimate_advantage
                (_estimator e) true_count (BettingConfig.num_decks (_config e));
  Ok (Qlt_bool 0 advantage).

Definition should_wong_out (true_count threshold : Q) : bool :=
  Qlt_bool true_count threshold.
End BettingEngine.

(** ** interfaces/simulator.py: data classes *)

#[global] Instance Action_countable : Countable Action.
Proof.
  refine (inj_countable'
            (fun a => match a with
                      | STAND => 0%nat | HIT => 1%nat | DOUBLE => 2%nat
                      | SPLIT => 3%nat | SURRENDER => 4%nat
                      end)
            (fun n => match n with
                      | 0%nat => STAND | 1%nat => HIT | 2%nat => DOUBLE
                      | 3%nat => SPLIT | _ => SURRENDER
                      end) _).
  by intros [].
Defined.

Module SimulationResult.
(** [standard_error] (a square root) is left out of the embedding. *)
Record t : Type := Build {
  hands_played : Z;
  total_wagered : Q;
  total_won : Q;
  net_profit : Q;
  ev_percent : Q;
  win_rate : Q;
  average_bet : Q;
  max_drawdown : Q;
  final_bankroll : Q;
  hands_skipped : Z;
  hands_by_action : gmap Action Z;
  true_count_distribution : gmap Z Z;
  ev_by_true_count : gmap Z (Q * Z);
  wins : Z;
  losses : Z;
  pushes : Z;
  blackjacks : Z;
  surrenders : Z;
  busts : Z
}.

Definition init (final_bankroll : Q) : t :=
  Build 0 0 0 0 0 0 0 0 final_bankroll 0 ∅ ∅ ∅ 0 0 0 0 0 0.
End SimulationResult.

Module HandResult.
Record t : Type := Build {
  player_hand : Hand.t;
  dealer_hand : Hand.t;
  final_player_total : Z;
  final_dealer_total : Z;
  actions_taken : list Action;
  bet_size : Q;
  payout : Q;
  net_result : Q;
  true_count : Q;
  outcome : string
}.
End HandResult.

Module SimulatorConfig.
Record t : Type := Build {
  config_id : string;
  use_counting : bool;
  use_deviations : bool;
  betting_strategy : string;
  log_json : bool;
  wong_out_threshold : option Q;
  min_hands_per_shoe : Z;
  simulate_late_entry : bool;
  late_entry_max_pen : Q
}.

Definition default : t :=
  Build "FULL" true true "KELLY" false None 0 false (1 # 2).
Definition control : t :=
  Build "B0_S0" false false "FLAT" false None 0 false (1 # 2).
Definition full_engine : t :=
  Build "B1_S2" true true "KELLY" false None 0 false (1 # 2).
End SimulatorConfig.

(** ** interfaces/simulator.py: shoe, agent and driver *)

Section Simulator.

(** [rng_shuffle n l]: the list [l] after the [n]-th call of the shoe's
    private generator ([self._rng.shuffle]). *)
Variable rng_shuffle : nat → list Card.t → list Card.t.

(** [rng_randint n a b]: the value of the [n]-th call of the module-level
    [random.randint(a, b)]. *)
Variable rng_randint : nat → Z → Z → Z.

(** The strategy files on disk: rule-set name to table, if the file exists. *)
Variable strategy_files : string → option (gmap string string).

Record Shoe : Type := BuildShoe {
  shoe_num_decks : Z;
  shoe_shuffles : nat;
  shoe_cards : list Card.t;
  shoe_dealt_index : Z
}.

Definition fresh_cards (num_decks : Z) : list Card.t :=
  mjoin (replicate (Z.to_nat num_decks)
           (suit ← Suit_.all; rank ← Rank_.all; [Card.Build rank suit])).

Definition shoe_shuffle (s : Shoe) : Shoe :=
  BuildShoe (shoe_num_decks s) (S (shoe_shuffles s))
            (rng_shuffle (shoe_shuffles s) (fresh_cards (shoe_num_decks s)))
            0.

Definition shoe_init (num_decks : Z) : Shoe :=
  shoe_shuffle (BuildShoe num_decks 0 [] 0).

Definition shoe_total_cards (s : Shoe) : Z := Z.of_nat (length (shoe_cards s)).

(** [deal]: a negative index would wrap around as Python indexing does. *)
Definition shoe_deal (s : Shoe) : result (Card.t * Shoe) :=
  let len := shoe_total_cards s in
  if len <=? shoe_dealt_index s then Raise RuntimeError
  else
    let i := if shoe_dealt_index s <? 0 then len + shoe_dealt_index s
             else shoe_dealt_index s in
    if i <? 0 then Raise IndexError
    else match shoe_cards s !! Z.to_nat i with
         | Some card =>
             Ok (card, BuildShoe (shoe_num_decks s) (shoe_shuffles s)
                                 (shoe_cards s) (shoe_dealt_index s + 1))
         | None => Raise IndexError
         end.

Definition shoe_cards_remaining (s : Shoe) : Z :=
  shoe_total_cards s - shoe_dealt_index s.

Definition shoe_penetration (s : Shoe) : Q :=
  if shoe_total_cards s =? 0 then 0%Q
  else (inject_Z (shoe_dealt_index s) / inject_Z (shoe_total_cards s))%Q.

Definition shoe_needs_shuffle (s : Shoe) (cut_penetration : Q) : bool :=
  Qle_bool cut_penetration (shoe_penetration s).

Definition shoe_burn_cards (s : Shoe) (count : Z) : Shoe :=
  BuildShoe (shoe_num_decks s) (shoe_shuffles s) (shoe_cards s)
            (Z.min (shoe_dealt_index s + count) (shoe_total_cards s)).

Record BlackjackAgent : Type := BuildAgent {
  agent_rules : GameRules.t;
  state_manager : StateManager.t;
  strategy_engine : StrategyEngine.t;
  betting_engine : BettingEngine.t
}.

Definition agent_init (rules : GameRules.t) (betting_config : option BettingConfig.t)
  : result BlackjackAgent :=
  let rule_set_name :=
    if GameRules.dealer_stands_soft_17 rules then "s17_das" else "h17_das" in
  let rule_config :=
    RuleConfig.Build (GameRules.dealer_stands_soft_17 rules)
                     (GameRules.double_after_split rules)
                     (GameRules.surrender_allowed rules)
                     (GameRules.num_decks rules)
                     rule_set_name 0 in
  betting ← BettingEngine.make (default BettingConfig.default betting_config)
                               (Some rules);
  Ok (BuildAgent rules (StateManager.init rules)
                 (StrategyEngine.make rule_config (strategy_files rule_set_name) None)
                 betting).

Definition agent_with_state (a : BlackjackAgent) (sm : StateManager.t) : BlackjackAgent :=
  BuildAgent (agent_rules a) sm (strategy_engine a) (betting_engine a).

Definition agent_observe_card (a : BlackjackAgent) (card : Card.t) : BlackjackAgent :=
  agent_with_state a (StateManager.observe (state_manager a) [card]).

Definition agent_observe_cards (a : BlackjackAgent) (cs : list Card.t) : BlackjackAgent :=
  foldl agent_observe_card a cs.

Definition agent_get_metrics (a : BlackjackAgent) : result GameState.t :=
  StateManager.get_metrics (state_manager a).

Definition agent_get_decision_with_context (a : BlackjackAgent)
    (hand : Hand.t) (dealer_up : Card.t) (use_deviations : bool)
  : result DecisionResult.t :=
  metrics ← StateManager.get_metrics (state_manager a);
  StrategyEngine.decide_with_context (strategy_engine a) hand dealer_up metrics
                                     use_deviations.

Definition agent_get_bet (a : BlackjackAgent) (bankroll : Q) : result Q :=
  metrics ← StateManager.get_metrics (state_manager a);
  BettingEngine.compute_bet (betting_engine a)
    (GameState.true_count metrics) bankroll (GameState.penetration metrics).

Definition agent_reset (a : BlackjackAgent) : BlackjackAgent :=
  agent_with_state a (StateManager.reset (state_manager a) None 0).

Definition agent_reset_with_burn (a : BlackjackAgent) (burn_count : Z) : BlackjackAgent :=
  agent_with_state a (StateManager.reset (state_manager a) None burn_count).

(** The simulator object: configuration and the mutable shoe and agent. *)
Record BlackjackSimulator : Type := BuildSim {
  sim_rules : GameRules.t;
  sim_config : SimulatorConfig.t;
  sim_betting_config : BettingConfig.t;
  sim_agent : BlackjackAgent;
  sim_shoe : Shoe;
  sim_randint_calls : nat;
  sim_hand_results : list HandResult.t;
  sim_ev_samples : list Q
}.

Definition sim_init (rules : option GameRules.t)
    (betting_config : option BettingConfig.t)
    (config : option SimulatorConfig.t) : result BlackjackSimulator :=
  let rules := default GameRules.default rules in
  let config := default SimulatorConfig.default config in
  let betting_config :=
    match betting_config with
    | Some bc => bc
    | None =>
        let d := BettingConfig.default in
        BettingConfig.Build
          (BettingConfig.kelly_fraction d) (BettingConfig.table_min d)
          (BettingConfig.table_max d) (BettingConfig.max_spread d)
          (BettingConfig.num_decks d)
          (bool_decide (SimulatorConfig.betting_strategy config = "FLAT"))
          (BettingConfig.max_betting_penetration d)
    end in
  agent ← agent_init rules (Some betting_config);
  Ok (BuildSim rules config betting_config agent
               (shoe_init (GameRules.num_decks rules)) 0 [] []).

Definition sim_with (sim : BlackjackSimulator) (a : BlackjackAgent) (s : Shoe)
  : BlackjackSimulator :=
  BuildSim (sim_rules sim) (sim_config sim) (sim_betting_config sim) a s
           (sim_randint_calls sim) (sim_hand_results sim) (sim_ev_samples sim).

(** [card = self.shoe.deal()] *)
Definition sim_deal (sim : BlackjackSimulator) : result (Card.t * BlackjackSimulator) :=
  '(card, shoe) ← shoe_deal (sim_shoe sim);
  Ok (card, sim_with sim (sim_agent sim) shoe).

(** [self.agent.observe_card(card)] *)
Definition sim_observe (sim : BlackjackSimulator) (card : Card.t) : BlackjackSimulator :=
  sim_with sim (agent_observe_card (sim_agent sim) card) (sim_shoe sim).

(** [new_card = self.shoe.deal(); self.agent.observe_card(new_card)] *)
Definition sim_deal_observed (sim : BlackjackSimulator)
  : result (Card.t * BlackjackSimulator) :=
  '(card, sim) ← sim_deal sim;
  Ok (card, sim_observe sim card).

(** *** [_play_hand]

    The flight-recorder write (file output, [uuid4]) is not part of the
    embedding; it does not feed back into the simulation. *)

(** The player's [while True] loop.  Every iteration that goes round
    again has dealt a card, so the cards left in the shoe bound it;
    [fuel] is that bound.  The left case is the early [return] of a
    surrender; the right case carries
    [(player_hand, current_bet, player_busted, actions_taken)]. *)
Fixpoint player_loop (fuel : nat) (sim : BlackjackSimulator)
    (bet true_count : Q) (dealer_up dealer_hole : Card.t)
    (player_hand : Hand.t) (current_bet : Q) (actions_taken : list Action)
  : result ((HandResult.t + (Hand.t * Q * bool * list Action)) * BlackjackSimulator) :=
  match fuel with
  | O => Raise RuntimeError
  | S fuel' =>
      decision_result ←
        agent_get_decision_with_context (sim_agent sim) player_hand dealer_up
          (SimulatorConfig.use_deviations (sim_config sim));
      let action := DecisionResult.action decision_result in
      let actions_taken := actions_taken ++ [action] in
      match action with
      | SURRENDER =>
          let sim := sim_observe sim dealer_hole in
          dealer_hand ← Hand.from_cards [dealer_up; dealer_hole];
          Ok (inl (HandResult.Build player_hand dealer_hand
                     (Hand.total player_hand) (Hand.total dealer_hand)
                     actions_taken bet (bet / 2)%Q (- bet / 2)%Q
                     true_count "surrender"), sim)
      | STAND => Ok (inr (player_hand, current_bet, false, actions_taken), sim)
      | HIT | SPLIT =>
          '(new_card, sim) ← sim_deal_observed sim;
          player_hand ← Hand.add_card player_hand new_card;
          if 21 <? Hand.total player_hand
          then Ok (inr (player_hand, current_bet, true, actions_taken), sim)
          else player_loop fuel' sim bet true_count dealer_up dealer_hole
                           player_hand current_bet actions_taken
      | DOUBLE =>
          let current_bet := (bet * 2)%Q in
          '(new_card, sim) ← sim_deal_observed sim;
          player_hand ← Hand.add_card player_hand new_card;
          Ok (inr (player_hand, current_bet, 21 <? Hand.total player_hand,
                   actions_taken), sim)
      end
  end.

(** The dealer's [while True] loop, bounded the same way. *)
Fixpoint dealer_loop (fuel : nat) (sim : BlackjackSimulator) (dealer_hand : Hand.t)
  : result (Hand.t * BlackjackSimulator) :=
  match fuel with
  | O => Raise RuntimeError
  | S fuel' =>
      if 21 <? Hand.total dealer_hand then Ok (dealer_hand, sim)
      else if (17 <=? Hand.total dealer_hand)
              && negb ((Hand.total dealer_hand =? 17) && Hand.is_soft dealer_hand
                       && negb (GameRules.dealer_stands_soft_17 (sim_rules sim)))
      then Ok (dealer_hand, sim)
      else
        '(new_card, sim) ← sim_deal_observed sim;
        dealer_hand ← Hand.add_card dealer_hand new_card;
        dealer_loop fuel' sim dealer_hand
  end.

Definition loop_fuel (sim : BlackjackSimulator) : nat :=
  S (Z.to_nat (shoe_cards_remaining (sim_shoe sim))).

Definition _play_hand (sim : BlackjackSimulator) (bet true_count : Q)
  : result (HandResult.t * BlackjackSimulator) :=
  (* deal *)
  '(p1, sim) ← sim_deal sim;
  '(p2, sim) ← sim_deal sim;
  '(dealer_up, sim) ← sim_deal sim;
  '(dealer_hole, sim) ← sim_deal sim;
  let player_cards := [p1; p2] in
  let sim := sim_with sim (agent_observe_cards (sim_agent sim) player_cards)
                      (sim_shoe sim) in
  let sim := sim_observe sim dealer_up in
  player_hand ← Hand.from_cards player_cards;
  let dealer_hand_cards := [dealer_up; dealer_hole] in
  if Hand.is_blackjack player_hand then
    let sim := sim_observe sim dealer_hole in
    dealer_hand ← Hand.from_cards dealer_hand_cards;
    if Hand.is_blackjack dealer_hand then
      Ok (HandResult.Build player_hand dealer_hand 21 21 [STAND]
                           bet bet 0 true_count "push", sim)
    else
      let payout := (bet + bet * GameRules.blackjack_pays (sim_rules sim))%Q in
      Ok (HandResult.Build player_hand dealer_hand 21 (Hand.total dealer_hand) [STAND]
                           bet payout (payout - bet)%Q true_count "blackjack", sim)
  else
    (* player turn *)
    '(turn, sim) ← player_loop (loop_fuel sim) sim bet true_count
                               dealer_up dealer_hole player_hand bet [];
    match turn return result (HandResult.t * BlackjackSimulator) with
    | inl surrendered => Ok (surrendered, sim)
    | inr (player_hand, current_bet, player_busted, actions_taken) =>
        if (player_busted : bool) then
          let sim := sim_observe sim dealer_hole in
          dealer_hand ← Hand.from_cards dealer_hand_cards;
          Ok (HandResult.Build player_hand dealer_hand
                (Hand.total player_hand) (Hand.total dealer_hand)
                actions_taken current_bet 0 (- current_bet)%Q true_count "bust", sim)
        else
          (* dealer turn *)
          let sim := sim_observe sim dealer_hole in
          dealer_hand ← Hand.from_cards dealer_hand_cards;
          '(dealer_hand, sim) ← dealer_loop (loop_fuel sim) sim dealer_hand;
          (* settlement *)
          let player_total := Hand.total player_hand in
          let dealer_total := Hand.total dealer_hand in
          let '(payout, outcome) :=
            if 21 <? dealer_total then ((current_bet * 2)%Q, "win")
            else if dealer_total <? player_total then ((current_bet * 2)%Q, "win")
            else if player_total =? dealer_total then (current_bet, "push")
            else (0%Q, "loss") in
          Ok (HandResult.Build player_hand dealer_hand player_total dealer_total
                actions_taken current_bet payout (payout - current_bet)%Q
                true_count outcome, sim)
    end.

(** *** [run] *)

(** The local variables of [run] ([max_bankroll] is written but never
    read, and is left out). *)
Record RunState : Type := BuildRun {
  run_result : SimulationResult.t;
  run_bankroll : Q;
  run_peak_bankroll : Q;
  run_hands_this_shoe : Z;
  run_hands_skipped : Z
}.

(** [self.shoe.shuffle()] followed by the late-entry burn or a plain
    reset of the agent; the driver has this block twice (cut card and
    table hop). *)
Definition enter_fresh_shoe (sim : BlackjackSimulator) : result BlackjackSimulator :=
  let shoe := shoe_shuffle (sim_shoe sim) in
  if SimulatorConfig.simulate_late_entry (sim_config sim) then
    let max_burn :=
      py_int (inject_Z (shoe_total_cards shoe)
              * SimulatorConfig.late_entry_max_pen (sim_config sim))%Q in
    if max_burn <? 0 then Raise ValueError
    else
      let burn_count := rng_randint (sim_randint_calls sim) 0 max_burn in
      let shoe := shoe_burn_cards shoe burn_count in
      Ok (BuildSim (sim_rules sim) (sim_config sim) (sim_betting_config sim)
                   (agent_reset_with_burn (sim_agent sim) burn_count) shoe
                   (S (sim_randint_calls sim))
                   (sim_hand_results sim) (sim_ev_samples sim))
  else Ok (sim_with sim (agent_reset (sim_agent sim)) shoe).

(** "Determine bet size": the engine's bet, raised to the table minimum
    when it is zero or below it, then capped by the bankroll. *)
Definition determine_bet (sim : BlackjackSimulator) (bankroll : Q) : result Q :=
  bet ← agent_get_bet (sim_agent sim) bankroll;
  let bet :=
    if Qle_bool bet 0 || Qlt_bool bet (BettingConfig.table_min (sim_betting_config sim))
    then BettingConfig.table_min (sim_betting_config sim) else bet in
  Ok (Qmin bet bankroll).

Definition count_outcome (outcome : string) (r : SimulationResult.t)
  : Z * Z * Z * Z * Z * Z :=
  let '(w, l, p, b, s, u) :=
    (SimulationResult.wins r, SimulationResult.losses r, SimulationResult.pushes r,
     SimulationResult.blackjacks r, SimulationResult.surrenders r,
     SimulationResult.busts r) in
  if bool_decide (outcome = "win") then (w + 1, l, p, b, s, u)
  else if bool_decide (outcome = "loss") then (w, l + 1, p, b, s, u)
  else if bool_decide (outcome = "push") then (w, l, p + 1, b, s, u)
  else if bool_decide (outcome = "blackjack") then (w, l, p, b + 1, s, u)
  else if bool_decide (outcome = "surrender") then (w, l, p, b, s + 1, u)
  else if bool_decide (outcome = "bust") then (w, l, p, b, s, u + 1)
  else (w, l, p, b, s, u).

(** The bookkeeping after a played hand. *)
Definition record_hand (r : SimulationResult.t) (hand_result : HandResult.t)
    (tc_bucket : Z) (ev_pct max_drawdown : Q) : SimulationResult.t :=
  let '(current_ev, count) :=
    default (0%Q, 0) (SimulationResult.ev_by_true_count r !! tc_bucket) in
  let '(w, l, p, b, s, u) := count_outcome (HandResult.outcome hand_result) r in
  SimulationResult.Build
    (SimulationResult.hands_played r + 1)
    (SimulationResult.total_wagered r + HandResult.bet_size hand_result)%Q
    (SimulationResult.total_won r + HandResult.payout hand_result)%Q
    (SimulationResult.net_profit r)
    (SimulationResult.ev_percent r)
    (SimulationResult.win_rate r)
    (SimulationResult.average_bet r)
    max_drawdown
    (SimulationResult.final_bankroll r)
    (SimulationResult.hands_skipped r)
    (foldl (fun m action => <[action := default 0 (m !! action) + 1]> m)
           (SimulationResult.hands_by_action r)
           (HandResult.actions_taken hand_result))
    (SimulationResult.true_count_distribution r)
    (<[tc_bucket := ((current_ev + ev_pct)%Q, count + 1)]>
       (SimulationResult.ev_by_true_count r))
    w l p b s u.

Definition track_true_count (r : SimulationResult.t) (tc_bucket : Z)
  : SimulationResult.t :=
  SimulationResult.Build
    (SimulationResult.hands_played r) (SimulationResult.total_wagered r)
    (SimulationResult.total_won r) (SimulationResult.net_profit r)
    (SimulationResult.ev_percent r) (SimulationResult.win_rate r)
    (SimulationResult.average_bet r) (SimulationResult.max_drawdown r)
    (SimulationResult.final_bankroll r) (SimulationResult.hands_skipped r)
    (SimulationResult.hands_by_action r)
    (<[tc_bucket :=
         default 0 (SimulationResult.true_count_distribution r !! tc_bucket) + 1]>
       (SimulationResult.true_count_distribution r))
    (SimulationResult.ev_by_true_count r)
    (SimulationResult.wins r) (SimulationResult.losses r)
    (SimulationResult.pushes r) (SimulationResult.blackjacks r)
    (SimulationResult.surrenders r) (SimulationResult.busts r).

(** One iteration of [for hand_num in range(num_hands)].  The boolean is
    [true] when the iteration leaves the loop with [break]; a table hop
    ends the iteration with [continue]. *)
Definition run_step (sim : BlackjackSimulator) (st : RunState)
  : result (bool * BlackjackSimulator * RunState) :=
  (* cut card: new shoe *)
  '(sim, hands_this_shoe) ←
    (if shoe_needs_shuffle (sim_shoe sim) (GameRules.penetration (sim_rules sim))
     then sim' ← enter_fresh_shoe sim; Ok (sim', 0)
     else Ok (sim, run_hands_this_shoe st));
  metrics ← agent_get_metrics (sim_agent sim);
  let wong_out :=
    match SimulatorConfig.wong_out_threshold (sim_config sim) with
    | Some threshold =>
        Qlt_bool (GameState.true_count metrics) threshold
        && (SimulatorConfig.min_hands_per_shoe (sim_config sim) <=? hands_this_shoe)
    | None => false
    end in
  if wong_out then
    sim' ← enter_fresh_shoe sim;
    Ok (false, sim',
        BuildRun (run_result st) (run_bankroll st) (run_peak_bankroll st)
                 0 (run_hands_skipped st + 1))
  else
    let true_count :=
      if SimulatorConfig.use_counting (sim_config sim)
      then GameState.true_count metrics else 0%Q in
    let tc_bucket := py_round (GameState.true_count metrics) in
    let res := track_true_count (run_result st) tc_bucket in
    let bankroll := run_bankroll st in
    bet ← determine_bet sim bankroll;
    if Qle_bool bet 0 then
      (* bankrupt *)
      Ok (true, sim,
          BuildRun res bankroll (run_peak_bankroll st)
                   hands_this_shoe (run_hands_skipped st))
    else
      '(hand_result, sim) ← _play_hand sim bet true_count;
      let bankroll := (bankroll + HandResult.net_result hand_result)%Q in
      let ev_pct :=
        if Qlt_bool 0 (HandResult.bet_size hand_result)
        then (HandResult.net_result hand_result / HandResult.bet_size hand_result)%Q
        else 0%Q in
      let peak_bankroll := Qmax (run_peak_bankroll st) bankroll in
      let drawdown := (peak_bankroll - bankroll)%Q in
      let res :=
        record_hand res hand_result tc_bucket ev_pct
                    (Qmax (SimulationResult.max_drawdown res) drawdown) in
      let sim :=
        BuildSim (sim_rules sim) (sim_config sim) (sim_betting_config sim)
                 (sim_agent sim) (sim_shoe sim) (sim_randint_calls sim)
                 (sim_hand_results sim ++ [hand_result])
                 (sim_ev_samples sim ++ [ev_pct]) in
      Ok (false, sim,
          BuildRun res bankroll peak_bankroll (hands_this_shoe + 1)
                   (run_hands_skipped st)).

Fixpoint run_loop (n : nat) (sim : BlackjackSimulator) (st : RunState)
  : result (BlackjackSimulator * RunState) :=
  match n with
  | O => Ok (sim, st)
  | S n' =>
      '(stop, sim, st) ← run_step sim st;
      if (stop : bool) then Ok (sim, st) else run_loop n' sim st
  end.

(** "Calculate final statistics". *)
Definition finalize (st : RunState) (starting_bankroll : Q) : SimulationResult.t :=
  let r := run_result st in
  let bankroll := run_bankroll st in
  let net_profit := (bankroll - starting_bankroll)%Q in
  SimulationResult.Build
    (SimulationResult.hands_played r)
    (SimulationResult.total_wagered r)
    (SimulationResult.total_won r)
    net_profit
    (if Qlt_bool 0 (SimulationResult.total_wagered r)
     then (net_profit / SimulationResult.total_wagered r * 100)%Q else 0%Q)
    (if 0 <? SimulationResult.hands_played r
     then (inject_Z (SimulationResult.wins r)
           / inject_Z (SimulationResult.hands_played r))%Q else 0%Q)
    (if 0 <? SimulationResult.hands_played r
     then (SimulationResult.total_wagered r
           / inject_Z (SimulationResult.hands_played r))%Q else 0%Q)
    (SimulationResult.max_drawdown r)
    bankroll
    (run_hands_skipped st)
    (SimulationResult.hands_by_action r)
    (SimulationResult.true_count_distribution r)
    (SimulationResult.ev_by_true_count r)
    (SimulationResult.wins r) (SimulationResult.losses r)
    (SimulationResult.pushes r) (SimulationResult.blackjacks r)
    (SimulationResult.surrenders r) (SimulationResult.busts r).

Definition run_start (sim : BlackjackSimulator) (starting_bankroll : Q)
  : BlackjackSimulator * RunState :=
  (BuildSim (sim_rules sim) (sim_config sim) (sim_betting_config sim)
            (sim_agent sim) (sim_shoe sim) (sim_randint_calls sim) [] [],
   BuildRun (SimulationResult.init starting_bankroll)
            starting_bankroll starting_bankroll 0 0).

Definition run (sim : BlackjackSimulator) (num_hands : Z) (starting_bankroll : Q)
  : result (SimulationResult.t * BlackjackSimulator) :=
  let '(sim, st) := run_start sim starting_bankroll in
  '(sim, st) ← run_loop (Z.to_nat num_hands) sim st;
  Ok (finalize st starting_bankroll, sim).

End Simulator.

(** * Scenario data

    Concrete inputs used by the examples and witnesses below. *)

(** The algebraic sum of the Hi-Lo tags of a sequence of cards. *)
Definition hilo_sum (cs : list Card.t) : Z :=
  foldr Z.add 0 (Card.hilo_tag <$> cs).

(** The engine of scenarios S6/S7: half Kelly, limits 10..5000, spread 100. *)
Definition s6_config : BettingConfig.t :=
  BettingConfig.Build (1 # 2) 10 5000 100 6 false (85 # 100).

Definition s6_engine : BettingEngine.t :=
  BettingEngine.Build s6_config (Some GameRules.default)
    (BetLimits.Build 10 5000 100)
    (KellyCalculator.Build (1 # 2) KellyCalculator.BLACKJACK_VARIANCE)
    (EVEstimator.make None (Some GameRules.default) true).

(** Whether a character occurs in a string (used for the index keys). *)
Fixpoint has_char (c : Ascii.ascii) (s : string) : bool :=
  match s with
  | EmptyString => false
  | String c' s' => bool_decide (c' = c) || has_char c s'
  end.

(** The triple a deviation is indexed under. *)
Definition trigger_triple (d : Deviation.t) : HandType * Z * Z :=
  (DeviationTrigger.hand_type (Deviation.trigger d),
   DeviationTrigger.value (Deviation.trigger d),
   DeviationTrigger.dealer_up (Deviation.trigger d)).

(** A pair of eights (total 16), a hard 16, and a neutral snapshot. *)
Definition pair_of_eights : Hand.t :=
  Hand.Build [Card.Build EIGHT SPADES; Card.Build EIGHT HEARTS] true false 16.

Definition hard_16 : Hand.t :=
  Hand.Build [Card.Build TEN SPADES; Card.Build SIX HEARTS] false false 16.

Definition snapshot_at (true_count : Q) : GameState.t :=
  GameState.Build true_count 312 0 6 0.

(** [_check_deviation_with_margin] read off the action [act] found by the
    deviation engine: either mode keeps or drops it. *)
Definition margin_result (surrender_only : bool) (deviation_id : string)
    (act : option Action) : option (string * Action) :=
  match act with
  | Some a =>
      if surrender_only then
        (if bool_decide (a = SURRENDER) then Some (deviation_id, a) else None)
      else
        (if bool_decide (a ≠ SURRENDER) then Some (deviation_id, a) else None)
  | None => None
  end.

(** The snapshot handed to the deviation engine: the true count less the margin. *)
Definition adjusted_snapshot (metrics : GameState.t) (margin : Q) : GameState.t :=
  GameState.Build (GameState.true_count metrics - margin)%Q
                  (GameState.cards_remaining metrics)
                  (GameState.running_count metrics)
                  (GameState.decks_remaining metrics) 0%Q.

(** A strategy table holding the S17 entry for hard 11 against an ace. *)
Definition table_11vA : gmap string string := {[ "H_11:11" := "DOUBLE" ]}.

Definition engine_11vA : StrategyEngine.t :=
  StrategyEngine.make RuleConfig.default (Some table_11vA) None.

Definition hard_11 : Hand.t :=
  Hand.Build [Card.Build FIVE SPADES; Card.Build SIX HEARTS] false false 11.

(** The pipeline of [decide_with_context] once its three inputs are known:
    the baseline action, the action [act] the deviation engine finds at
    the adjusted count, and the id string. *)
Definition decide_outcome (baseline : Action) (act : option Action) (id : string)
    (true_count : Q) (use_deviations surrender_step pair : bool) : DecisionResult.t :=
  let base := DecisionResult.Build baseline baseline None true_count in
  let split_or_base :=
    if pair && bool_decide (baseline = SPLIT)
    then DecisionResult.Build SPLIT baseline None true_count else base in
  if negb use_deviations then base
  else
    match act with
    | None => split_or_base
    | Some a =>
        if bool_decide (a = SURRENDER) then
          if surrender_step
          then DecisionResult.Build SURRENDER baseline (Some id) true_count
          else split_or_base
        else if pair && bool_decide (a = SPLIT)
        then DecisionResult.Build a baseline (Some id) true_count
        else if pair && bool_decide (baseline = SPLIT)
        then DecisionResult.Build SPLIT baseline None true_count
        else DecisionResult.Build a baseline (Some id) true_count
    end.

(** The engine built with default rules when no strategy file is found. *)
Definition fallback_engine : StrategyEngine.t :=
  StrategyEngine.make RuleConfig.default None None.

(** The same engine with a confidence margin of 1. *)
Definition margin_one_engine : StrategyEngine.t :=
  StrategyEngine.make (RuleConfig.Build true true true 6 "s17_das" 1) None None.

(** A three-card hard 10 (2, 3, 5) and a two-card hard 12 (10, 2). *)
Definition hard_10_three_cards : Hand.t :=
  Hand.Build [Card.Build TWO SPADES; Card.Build THREE HEARTS; Card.Build FIVE CLUBS]
             false false 10.

Definition hard_12 : Hand.t :=
  Hand.Build [Card.Build TEN SPADES; Card.Build TWO HEARTS] false false 12.

(** A legal action for a hand, as [_validate_action] understands it. *)
Definition valid_action (a : Action) (h : Hand.t) : Prop :=
  (a = DOUBLE → (length (Hand.cards h) <= 2)%nat)
  ∧ (a = SPLIT → Hand.is_pair h = true)
  ∧ (a = SURRENDER → (length (Hand.cards h) <= 2)%nat).

(** A table written with conditional tokens. *)
Definition conditional_table : gmap string string :=
  {[ "S_18:03" := "Ds"; "H_16:10" := "Rh"; "P_09:07" := "Rp" ]}.

Definition conditional_engine : StrategyEngine.t :=
  StrategyEngine.make RuleConfig.default (Some conditional_table) None.

Definition soft_18 : Hand.t :=
  Hand.Build [Card.Build ACE SPADES; Card.Build SEVEN HEARTS] false true 18.

Definition conditional_tokens : list string :=
  ["Ds"; "Dh"; "Rh"; "Rs"; "Rp"; "Ph"; "Pd"].

(** The betting engine with every default ([BettingEngine()]). *)
Definition default_betting_engine : BettingEngine.t :=
  BettingEngine.Build BettingConfig.default None
    (BetLimits.Build 10 1000 12)
    (KellyCalculator.Build (1 # 2) KellyCalculator.BLACKJACK_VARIANCE)
    (EVEstimator.make None None true).

(** Oracles for the examples: a shuffle that leaves the fresh deck order
    (2 to ace of hearts, then diamonds, clubs, spades), [randint] at its
    lower bound, and a data directory without strategy files. *)
Definition unshuffled : nat → list Card.t → list Card.t := fun _ l => l.
Definition randint_low : nat → Z → Z → Z := fun _ a _ => a.
Definition no_strategy_files : string → option (gmap string string) := fun _ => None.

Definition single_deck_rules : GameRules.t :=
  GameRules.Build 1 52 (3 # 4) true true true false false 3 true false
                  true false false (3 # 2) 10 1000.

(** [SimulatorConfig(use_counting=False)]: Kelly betting, deviations on. *)
Definition no_counting_config : SimulatorConfig.t :=
  SimulatorConfig.Build "FULL" false true "KELLY" false None 0 false (1 # 2).

(** The counters of played hands in a result: everything but the
    true-count histogram and the figures derived at the end of [run]. *)
Definition same_play_stats (r r' : SimulationResult.t) : Prop :=
  SimulationResult.hands_played r' = SimulationResult.hands_played r
  ∧ SimulationResult.total_wagered r' = SimulationResult.total_wagered r
  ∧ SimulationResult.total_won r' = SimulationResult.total_won r
  ∧ SimulationResult.max_drawdown r' = SimulationResult.max_drawdown r
  ∧ SimulationResult.hands_by_action r' = SimulationResult.hands_by_action r
  ∧ SimulationResult.ev_by_true_count r' = SimulationResult.ev_by_true_count r
  ∧ SimulationResult.wins r' = SimulationResult.wins r
  ∧ SimulationResult.losses r' = SimulationResult.losses r
  ∧ SimulationResult.pushes r' = SimulationResult.pushes r
  ∧ SimulationResult.blackjacks r' = SimulationResult.blackjacks r
  ∧ SimulationResult.surrenders r' = SimulationResult.surrenders r
  ∧ SimulationResult.busts r' = SimulationResult.busts r.

(** A simulator whose snapshot and shoe entry cannot raise: a non-zero
    deck size, a non-negative late-entry bound, and a positive table
    minimum shared by the driver and the betting engine (as [sim_init]
    sets them up). *)
Definition sim_ready (sim : BlackjackSimulator) : Prop :=
  GameRules.cards_per_deck (StateManager._rules (state_manager (sim_agent sim))) ≠ 0
  ∧ (0 <= SimulatorConfig.late_entry_max_pen (sim_config sim))%Q
  ∧ (0 < BetLimits.table_min (BettingEngine._limits (betting_engine (sim_agent sim))))%Q
  ∧ BetLimits.table_min (BettingEngine._limits (betting_engine (sim_agent sim)))
    = BettingConfig.table_min (sim_betting_config sim).

(** [BlackjackSimulator()] with every default, over the oracles above. *)
Definition default_sim : BlackjackSimulator :=
  BuildSim GameRules.default SimulatorConfig.default BettingConfig.default
    (BuildAgent GameRules.default (StateManager.init GameRules.default)
       fallback_engine
       (BettingEngine.Build BettingConfig.default (Some GameRules.default)
          (BetLimits.Build 10 1000 12)
          (KellyCalculator.Build (1 # 2) KellyCalculator.BLACKJACK_VARIANCE)
          (EVEstimator.make None (Some GameRules.default) true)))
    (shoe_init unshuffled 6) 0 [] [].

(** [BlackjackSimulator(rules=GameRules(num_decks=1),
    config=SimulatorConfig(use_counting=False))]. *)
Definition no_counting_sim : BlackjackSimulator :=
  BuildSim single_deck_rules no_counting_config BettingConfig.default
    (BuildAgent single_deck_rules (StateManager.init single_deck_rules)
       (StrategyEngine.make (RuleConfig.Build true true true 1 "s17_das" 0) None None)
       (BettingEngine.Build BettingConfig.default (Some single_deck_rules)
          (BetLimits.Build 10 1000 12)
          (KellyCalculator.Build (1 # 2) KellyCalculator.BLACKJACK_VARIANCE)
          (EVEstimator.make None (Some single_deck_rules) true)))
    (shoe_init unshuffled 1) 0 [] [].

(** * Further functions of the sources *)

(** ** src/core/primitives.py: [Card.from_string], [Hand.lookup_key] *)

Module CardOps.
Definition rank_map : gmap string Rank :=
  list_to_map
    [ ("2", TWO); ("3", THREE); ("4", FOUR); ("5", FIVE); ("6", SIX);
      ("7", SEVEN); ("8", EIGHT); ("9", NINE); ("T", TEN); ("10", TEN);
      ("J", JACK); ("Q", QUEEN); ("K", KING); ("A", ACE) ].

Definition from_string (s : string) (suit : Suit) : result Card.t :=
  match rank_map !! upper s with
  | Some rank => Ok (Card.Build rank suit)
  | None => Raise ValueError
  end.
End CardOps.

Module HandOps.
Definition lookup_key (h : Hand.t) (dealer_up : Card.t) : result string :=
  let hand_type := HandType_.value (Hand.hand_type h) in
  value ← (if Hand.is_pair h then v ← Hand.pair_value h; Ok (pad2 v)
           else Ok (pretty (Hand.total h)));
  let dealer_value := dealer_value_of dealer_up in
  Ok (hand_type +:+ "_" +:+ value +:+ ":" +:+ pad2 dealer_value).
End HandOps.

(** ** src/state/manager.py: the remaining properties *)

Module StateManagerOps.
Definition cards_remaining (s : StateManager.t) : Z :=
  GameRules.total_cards (StateManager._rules s) - StateManager._cards_seen s.

Definition cut_card_position (rules : GameRules.t) : Z :=
  py_int (inject_Z (GameRules.total_cards rules) * GameRules.penetration rules)%Q.

Definition is_shuffle_due (s : StateManager.t) : bool :=
  StateManager._cards_seen s >=? cut_card_position (StateManager._rules s).

Definition true_count (s : StateManager.t) : result Q :=
  decks ← StateManager._calculate_decks_remaining s;
  StateManager._calculate_true_count s decks.

Definition penetration (s : StateManager.t) : Q :=
  if GameRules.total_cards (StateManager._rules s) =? 0 then 0%Q
  else (inject_Z (StateManager._cards_seen s)
        / inject_Z (GameRules.total_cards (StateManager._rules s)))%Q.

(** [Counter()] filled with [observed_counts[card.value] += 1]. *)
Definition observed_counts (cs : list Card.t) : gmap Z Z :=
  foldl (fun m card => <[Card.value card := default 0 (m !! Card.value card) + 1]> m)
        ∅ cs.

Definition get_remaining_by_rank (s : StateManager.t) : gmap Z Z :=
  let counts := observed_counts (StateManager._observed_cards s) in
  let cards_per_rank := 4 * GameRules.num_decks (StateManager._rules s) in
  let ten_value_cards := 16 * GameRules.num_decks (StateManager._rules s) in
  let remaining :=
    foldl (fun m value => <[value := cards_per_rank - default 0 (counts !! value)]> m)
          ∅ [2; 3; 4; 5; 6; 7; 8; 9] in
  let remaining := <[10 := ten_value_cards - default 0 (counts !! 10)]> remaining in
  <[11 := cards_per_rank - default 0 (counts !! 11)]> remaining.
End StateManagerOps.

(** ** src/betting/estimator.py and engine.py: the remaining queries *)

Module EVEstimatorOps.
Definition estimate_ev_per_hand (e : EVEstimator.t) (true_count bet_size : Q)
    (num_decks : Z) : result Q :=
  advantage ← EVEstimator.estimate_advantage e true_count num_decks;
  Ok (bet_size * advantage)%Q.

Definition wong_out_threshold (e : EVEstimator.t) (min_advantage : Q) : result Q :=
  py_div (min_advantage + AdvantageModel.baseline_edge (EVEstimator._model e))
         (AdvantageModel.slope (EVEstimator._model e)).
End EVEstimatorOps.

Module BettingEngineOps.
Definition breakeven_count (e : BettingEngine.t) : result Q :=
  EVEstimator.breakeven_count (BettingEngine._estimator e).

Definition compute_bet_units (e : BettingEngine.t) (true_count : Q) : result Q :=
  breakeven ← breakeven_count e;
  if Qle_bool true_count breakeven then Ok 1%Q
  else
    let units := (1 + (true_count - breakeven))%Q in
    Ok (Qmin units (BettingConfig.max_spread (BettingEngine._config e))).

Definition get_advantage (e : BettingEngine.t) (true_count : Q) : result Q :=
  EVEstimator.estimate_advantage (BettingEngine._estimator e) true_count
    (BettingConfig.num_decks (BettingEngine._config e)).

Definition get_expected_value (e : BettingEngine.t) (true_count bet : Q) : result Q :=
  EVEstimatorOps.estimate_ev_per_hand (BettingEngine._estimator e) true_count bet
    (BettingConfig.num_decks (BettingEngine._config e)).
End BettingEngineOps.

Module EffectOfRemoval.
Definition EOR_VALUES : gmap Z Q :=
  list_to_map
    [ (2, (38 # 100)%Q); (3, (44 # 100)%Q); (4, (55 # 100)%Q); (5, (69 # 100)%Q);
      (6, (46 # 100)%Q); (7, (28 # 100)%Q); (8, 0%Q); (9, (- (18 # 100))%Q);
      (10, (- (51 # 100))%Q); (11, (- (61 # 100))%Q) ].

Definition get_eor (card_value : Z) : Q := default 0%Q (EOR_VALUES !! card_value).
End EffectOfRemoval.

Module ExactCountEstimator.
Record t : Type := Build {
  _num_decks : Z;
  _rules : option GameRules.t;
  _baseline_edge : Q;
  _expected_per_rank : Z;
  _expected_tens : Z;
  _total_cards : Z
}.

Definition _calculate_baseline_edge (rules : GameRules.t) : Q :=
  let baseline := (4 # 1000)%Q in
  let baseline :=
    if negb (GameRules.dealer_stands_soft_17 rules)
    then (baseline + (22 # 10000))%Q else baseline in
  let baseline :=
    if Qlt_bool (GameRules.blackjack_pays rules) (14 # 10)
    then (baseline + (139 # 10000))%Q else baseline in
  let baseline :=
    if negb (GameRules.double_after_split rules)
    then (baseline + (14 # 10000))%Q else baseline in
  if negb (GameRules.surrender_allowed rules)
  then (baseline + (8 # 10000))%Q else baseline.

Definition make (rules : option GameRules.t) (num_decks : Z) : t :=
  Build num_decks rules
        (match rules with
         | Some r => _calculate_baseline_edge r
         | None => (4 # 1000)%Q
         end)
        (4 * num_decks) (16 * num_decks) (52 * num_decks).

Definition estimate_advantage (e : t) (remaining_by_rank : gmap Z Z)
    (total_remaining : Z) : result Q :=
  if total_remaining <=? 0 then Ok (- _baseline_edge e)%Q
  else
    (* total_remaining / self._total_cards *)
    share ← py_div (inject_Z total_remaining) (inject_Z (_total_cards e));
    let eor_sum :=
      foldl (fun acc value =>
               let actual := default 0 (remaining_by_rank !! value) in
               let expected := (inject_Z (_expected_per_rank e) * share)%Q in
               let deviation := (expected - inject_Z actual)%Q in
               (acc + EffectOfRemoval.get_eor value * deviation)%Q)
            0%Q [2; 3; 4; 5; 6; 7; 8; 9] in
    let actual_tens := default 0 (remaining_by_rank !! 10) in
    let expected_tens := (inject_Z (_expected_tens e) * share)%Q in
    let eor_sum :=
      (eor_sum + EffectOfRemoval.get_eor 10 * (expected_tens - inject_Z actual_tens))%Q in
    let actual_aces := default 0 (remaining_by_rank !! 11) in
    let expected_aces := (inject_Z (_expected_per_rank e) * share)%Q in
    let eor_sum :=
      (eor_sum + EffectOfRemoval.get_eor 11 * (expected_aces - inject_Z actual_aces))%Q in
    Ok ((eor_sum / inject_Z total_remaining) / 100 - _baseline_edge e)%Q.
End ExactCountEstimator.

(** * Vocabulary of the further properties *)

(** A card's value with the ace counted as 1, and the sums over a hand. *)
Definition low_value (c : Card.t) : Z :=
  if Card.is_ace c then 1 else Card.value c.

Definition low_sum (cs : list Card.t) : Z := foldr Z.add 0 (low_value <$> cs).

Definition ace_count (cs : list Card.t) : Z :=
  Z.of_nat (length (filter (fun c => Card.is_ace c = true) cs)).


(** A soft 21 of three cards (ace, ace, nine). *)
Definition ace_ace_nine : list Card.t :=
  [Card.Build ACE SPADES; Card.Build ACE HEARTS; Card.Build NINE CLUBS].


(** The number of cards of blackjack value [v] in a sequence. *)
Definition count_value (v : Z) (cs : list Card.t) : Z :=
  Z.of_nat (length (filter (fun c => Card.value c = v) cs)).

(** The cards a rank table accounts for: the sum of its entries 2..11. *)
Definition rank_table_total (m : gmap Z Z) : Z :=
  foldr Z.add 0 ((fun v => default 0 (m !! v)) <$> [2; 3; 4; 5; 6; 7; 8; 9; 10; 11]).



(** A hard 15 of three cards (seven, five, three). *)
Definition hard_15_three_cards : Hand.t :=
  Hand.Build [Card.Build SEVEN SPADES; Card.Build FIVE HEARTS; Card.Build THREE CLUBS]
             false false 15.


(** A betting configuration with a zero number of decks. *)
Definition zero_deck_config : BettingConfig.t :=
  BettingConfig.Build (1 # 2) 10 1000 12 0 false (85 # 100).


(** ** Vocabulary of the simulator properties *)

(** The simulator [sim] with the agent's state manager and the shoe's
    pointer replaced: dealing and observing change nothing else. *)
Definition sim_at (sim : BlackjackSimulator) (sm : StateManager.t) (idx : Z)
  : BlackjackSimulator :=
  sim_with sim (agent_with_state (sim_agent sim) sm)
           (BuildShoe (shoe_num_decks (sim_shoe sim)) (shoe_shuffles (sim_shoe sim))
                      (shoe_cards (sim_shoe sim)) idx).

(** The cards of a shoe between two positions of its pointer. *)
Definition dealt_between (cards : list Card.t) (i j : Z) : list Card.t :=
  take (Z.to_nat (j - i)) (drop (Z.to_nat i) cards).

(** The amount at stake in a hand record: the bet, or twice the bet after
    a final DOUBLE. *)
Definition stake_of (bet : Q) (hr : HandResult.t) : Prop :=
  HandResult.bet_size hr = bet
  ∨ (HandResult.bet_size hr = (bet * 2)%Q
     ∧ last (HandResult.actions_taken hr) = Some DOUBLE).

(** A dealer hand on which the dealer stops: bust, or 17 and more except
    a soft 17 when the dealer hits soft 17. *)
Definition dealer_done (rules : GameRules.t) (h : Hand.t) : Prop :=
  21 < Hand.total h
  ∨ (17 <= Hand.total h
     ∧ ¬ (Hand.total h = 17 ∧ Hand.is_soft h = true
          ∧ GameRules.dealer_stands_soft_17 rules = false)).

(** The settlement table of [_play_hand]. *)
Definition settled (rules : GameRules.t) (bet : Q) (hr : HandResult.t) : Prop :=
  let p := HandResult.final_player_total hr in
  let d := HandResult.final_dealer_total hr in
  (HandResult.outcome hr = "blackjack"
   ∧ HandResult.bet_size hr = bet
   ∧ HandResult.payout hr = (bet + bet * GameRules.blackjack_pays rules)%Q
   ∧ HandResult.net_result hr = (HandResult.payout hr - bet)%Q
   ∧ Hand.is_blackjack (HandResult.player_hand hr) = true
   ∧ Hand.is_blackjack (HandResult.dealer_hand hr) = false
   ∧ p = 21)
  ∨ (HandResult.outcome hr = "push"
     ∧ HandResult.bet_size hr = bet
     ∧ HandResult.payout hr = bet
     ∧ HandResult.net_result hr = 0%Q
     ∧ Hand.is_blackjack (HandResult.player_hand hr) = true
     ∧ Hand.is_blackjack (HandResult.dealer_hand hr) = true
     ∧ p = 21 ∧ d = 21)
  ∨ (HandResult.outcome hr = "surrender"
     ∧ HandResult.bet_size hr = bet
     ∧ HandResult.payout hr = (bet / 2)%Q
     ∧ HandResult.net_result hr = (- bet / 2)%Q
     ∧ last (HandResult.actions_taken hr) = Some SURRENDER
     ∧ p <= 21)
  ∨ (HandResult.outcome hr = "bust"
     ∧ stake_of bet hr
     ∧ HandResult.payout hr = 0%Q
     ∧ HandResult.net_result hr = (- HandResult.bet_size hr)%Q
     ∧ 21 < p)
  ∨ (stake_of bet hr
     ∧ HandResult.net_result hr = (HandResult.payout hr - HandResult.bet_size hr)%Q
     ∧ p <= 21
     ∧ d = Hand.total (HandResult.dealer_hand hr)
     ∧ dealer_done rules (HandResult.dealer_hand hr)
     ∧ ((HandResult.outcome hr = "win"
         ∧ HandResult.payout hr = (HandResult.bet_size hr * 2)%Q
         ∧ (21 < d ∨ d < p))
        ∨ (HandResult.outcome hr = "push"
           ∧ HandResult.payout hr = HandResult.bet_size hr
           ∧ d = p)
        ∨ (HandResult.outcome hr = "loss"
           ∧ HandResult.payout hr = 0%Q
           ∧ p < d ∧ d <= 21))).

(** The outcomes a hand record can carry. *)
Definition hand_outcomes : list string :=
  ["win"; "loss"; "push"; "blackjack"; "surrender"; "bust"].

(** The hands counted by outcome in a result. *)
Definition outcome_total (r : SimulationResult.t) : Z :=
  SimulationResult.wins r + SimulationResult.losses r + SimulationResult.pushes r
  + SimulationResult.blackjacks r + SimulationResult.surrenders r
  + SimulationResult.busts r.

(** What the loop of [run] maintains about the totals and the counters of
    hands: the totals are the sums, in playing order, over the hand records
    kept so far, starting from zero (from the starting bankroll [b0] for
    the bankroll). *)
Definition books_balance (b0 : Q) (sim : BlackjackSimulator) (st : RunState) : Prop :=
  SimulationResult.total_wagered (run_result st)
  = foldl (fun acc hr => (acc + HandResult.bet_size hr)%Q) 0%Q (sim_hand_results sim)
  ∧ SimulationResult.total_won (run_result st)
    = foldl (fun acc hr => (acc + HandResult.payout hr)%Q) 0%Q (sim_hand_results sim)
  ∧ run_bankroll st
    = foldl (fun acc hr => (acc + HandResult.net_result hr)%Q) b0 (sim_hand_results sim)
  ∧ SimulationResult.hands_played (run_result st) = outcome_total (run_result st)
  ∧ SimulationResult.hands_played (run_result st)
    = Z.of_nat (length (sim_hand_results sim))
  ∧ 0 <= SimulationResult.hands_played (run_result st)
  ∧ 0 <= run_hands_skipped st
  ∧ 0 <= shoe_dealt_index (sim_shoe sim).

(** The agent and the shoe agree on how far the shoe has been dealt. *)
Definition in_step (sim : BlackjackSimulator) : Prop :=
  StateManager._cards_seen (state_manager (sim_agent sim))
  = shoe_dealt_index (sim_shoe sim)
  ∧ 0 <= shoe_dealt_index (sim_shoe sim).


(** What the loop of [run] maintains about the derived figures: the
    drawdown covers the fall from the peak, the peak is at least the
    starting bankroll [b0], and wins are counted among the hands played. *)
Definition stats_sound (b0 : Q) (st : RunState) : Prop :=
  let r := run_result st in
  (0 <= SimulationResult.max_drawdown r)%Q
  ∧ (run_peak_bankroll st - run_bankroll st <= SimulationResult.max_drawdown r)%Q
  ∧ (b0 <= run_peak_bankroll st)%Q
  ∧ 0 <= SimulationResult.wins r <= SimulationResult.hands_played r
  ∧ (SimulationResult.hands_played r = 0 → (SimulationResult.total_wagered r == 0)%Q).

(** ** The loops of [_play_hand], iteration by iteration *)

(** One iteration of the player's loop in [_play_hand].  The left case is
    the way out of the loop (the [return] of a surrender, or a [break]),
    with the value [player_loop] gives; the right case is the state with
    which the next iteration starts. *)
Definition player_iteration (sim : BlackjackSimulator)
    (bet true_count : Q) (dealer_up dealer_hole : Card.t)
    (player_hand : Hand.t) (current_bet : Q) (actions_taken : list Action)
  : result (((HandResult.t + (Hand.t * Q * bool * list Action)) * BlackjackSimulator)
            + (BlackjackSimulator * Hand.t * list Action)) :=
  decision_result ←
    agent_get_decision_with_context (sim_agent sim) player_hand dealer_up
      (SimulatorConfig.use_deviations (sim_config sim));
  let action := DecisionResult.action decision_result in
  let actions_taken := actions_taken ++ [action] in
  match action with
  | SURRENDER =>
      let sim := sim_observe sim dealer_hole in
      dealer_hand ← Hand.from_cards [dealer_up; dealer_hole];
      Ok (inl (inl (HandResult.Build player_hand dealer_hand
                      (Hand.total player_hand) (Hand.total dealer_hand)
                      actions_taken bet (bet / 2)%Q (- bet / 2)%Q
                      true_count "surrender"), sim))
  | STAND => Ok (inl (inr (player_hand, current_bet, false, actions_taken), sim))
  | HIT | SPLIT =>
      '(new_card, sim) ← sim_deal_observed sim;
      player_hand ← Hand.add_card player_hand new_card;
      if 21 <? Hand.total player_hand
      then Ok (inl (inr (player_hand, current_bet, true, actions_taken), sim))
      else Ok (inr (sim, player_hand, actions_taken))
  | DOUBLE =>
      let current_bet := (bet * 2)%Q in
      '(new_card, sim) ← sim_deal_observed sim;
      player_hand ← Hand.add_card player_hand new_card;
      Ok (inl (inr (player_hand, current_bet, 21 <? Hand.total player_hand,
                    actions_taken), sim))
  end.

(** The player's loop as iterations of [player_iteration]; [None] when
    [fuel] iterations did not reach the way out. *)
Fixpoint player_iterations (fuel : nat) (sim : BlackjackSimulator)
    (bet true_count : Q) (dealer_up dealer_hole : Card.t)
    (player_hand : Hand.t) (current_bet : Q) (actions_taken : list Action)
  : option (result ((HandResult.t + (Hand.t * Q * bool * list Action))
                    * BlackjackSimulator)) :=
  match fuel with
  | O => None
  | S fuel' =>
      match player_iteration sim bet true_count dealer_up dealer_hole
                             player_hand current_bet actions_taken with
      | Raise e => Some (Raise e)
      | Ok (inl out) => Some (Ok out)
      | Ok (inr (sim', player_hand', actions_taken')) =>
          player_iterations fuel' sim' bet true_count dealer_up dealer_hole
                            player_hand' current_bet actions_taken'
      end
  end.

(** One iteration of the dealer's loop: the left case is the [break]. *)
Definition dealer_iteration (sim : BlackjackSimulator) (dealer_hand : Hand.t)
  : result ((Hand.t * BlackjackSimulator) + (BlackjackSimulator * Hand.t)) :=
  if 21 <? Hand.total dealer_hand then Ok (inl (dealer_hand, sim))
  else if (17 <=? Hand.total dealer_hand)
          && negb ((Hand.total dealer_hand =? 17) && Hand.is_soft dealer_hand
                   && negb (GameRules.dealer_stands_soft_17 (sim_rules sim)))
  then Ok (inl (dealer_hand, sim))
  else
    '(new_card, sim) ← sim_deal_observed sim;
    dealer_hand ← Hand.add_card dealer_hand new_card;
    Ok (inr (sim, dealer_hand)).

Fixpoint dealer_iterations (fuel : nat) (sim : BlackjackSimulator)
    (dealer_hand : Hand.t) : option (result (Hand.t * BlackjackSimulator)) :=
  match fuel with
  | O => None
  | S fuel' =>
      match dealer_iteration sim dealer_hand with
      | Raise e => Some (Raise e)
      | Ok (inl out) => Some (Ok out)
      | Ok (inr (sim', dealer_hand')) => dealer_iterations fuel' sim' dealer_hand'
      end
  end.

(** What a bounded loop gives for a run of iterations: its result, or the
    [RuntimeError] of [player_loop] and [dealer_loop] when the bound was
    reached. *)
Definition bounded_result {A : Type} (r : option (result A)) : result A :=
  match r with
  | Some r => r
  | None => Raise RuntimeError
  end.

(** * Properties *)

(** ** Rational arithmetic helpers *)

Lemma Qlt_bool_iff (x y : Q) : Qlt_bool x y = true ↔ (x < y)%Q.
Proof.
  unfold Qlt_bool. rewrite negb_true_iff. split.
  - intros H. apply Qnot_le_lt. intros Hle.
    apply Qle_bool_iff in Hle. congruence.
  - intros H. destruct (Qle_bool y x) eqn:E; [|done].
    apply Qle_bool_iff in E. exfalso. exact (Qlt_not_le _ _ H E).
Qed.

Lemma Qlt_bool_false_iff (x y : Q) : Qlt_bool x y = false ↔ (y <= x)%Q.
Proof.
  unfold Qlt_bool. rewrite negb_false_iff. apply Qle_bool_iff.
Qed.

Lemma Qle_bool_false_iff (x y : Q) : Qle_bool x y = false ↔ (y < x)%Q.
Proof.
  split.
  - intros H. apply Qnot_le_lt. intros Hle. apply Qle_bool_iff in Hle. congruence.
  - intros H. destruct (Qle_bool x y) eqn:E; [|done].
    apply Qle_bool_iff in E. exfalso. exact (Qlt_not_le _ _ H E).
Qed.

(** ** State manager *)

Lemma observe_rules s cs :
  StateManager._rules (StateManager.observe s cs) = StateManager._rules s.
Proof.
  revert s. induction cs as [|c cs IH]; intros s; [done|].
  cbn. rewrite IH. done.
Qed.

Lemma observe_running_count s cs :
  StateManager._running_count (StateManager.observe s cs)
  = StateManager._running_count s + hilo_sum cs.
Proof.
  revert s. induction cs as [|c cs IH]; intros s.
  - cbn. lia.
  - cbn. rewrite IH. unfold hilo_sum. cbn. lia.
Qed.

Lemma observe_cards_seen s cs :
  StateManager._cards_seen (StateManager.observe s cs)
  = StateManager._cards_seen s + Z.of_nat (length cs).
Proof.
  revert s. induction cs as [|c cs IH]; intros s.
  - cbn. lia.
  - cbn [StateManager.observe foldl length]. 
    change (foldl StateManager.observe_card (StateManager.observe_card s c) cs)
      with (StateManager.observe (StateManager.observe_card s c) cs).
    rewrite IH. cbn. lia.
Qed.

Lemma hilo_tag_range (c : Card.t) :
  Card.hilo_tag c = 1 ∨ Card.hilo_tag c = 0 ∨ Card.hilo_tag c = -1.
Proof. destruct c as [[] ?]; vm_compute; auto. Qed.

(** C8. After [reset(burn_count=k)] and the observation of any finite
    sequence of cards, the running count is the sum of the Hi-Lo tags,
    [cards_seen] is [k] plus the length of the sequence, and the snapshot
    has [decks_remaining = max(0.5, (total_cards - cards_seen) / cards_per_deck)]
    and [true_count = running_count / decks_remaining]. *)
Theorem C8_reset_observe_counts (s : StateManager.t) (k : Z) (cs : list Card.t) :
  GameRules.cards_per_deck (StateManager._rules s) ≠ 0 →
  let rules := StateManager._rules s in
  let s' := StateManager.observe (StateManager.reset s None k) cs in
  StateManager._running_count s' = hilo_sum cs
  ∧ StateManager._cards_seen s' = k + Z.of_nat (length cs)
  ∧ ∃ m, StateManager.get_metrics s' = Ok m
      ∧ GameState.running_count m = hilo_sum cs
      ∧ GameState.decks_remaining m
        = Qmax (1 # 2)
               (inject_Z (GameRules.total_cards rules - (k + Z.of_nat (length cs)))
                / inject_Z (GameRules.cards_per_deck rules))
      ∧ (1 # 2 <= GameState.decks_remaining m)%Q
      ∧ GameState.true_count m
        = (inject_Z (hilo_sum cs) / GameState.decks_remaining m)%Q.
Proof.
  intros Hcpd rules s'.
  assert (Hrc : StateManager._running_count s' = hilo_sum cs).
  { unfold s'. rewrite observe_running_count. cbn. lia. }
  assert (Hseen : StateManager._cards_seen s' = k + Z.of_nat (length cs)).
  { unfold s'. rewrite observe_cards_seen. done. }
  assert (Hrules : StateManager._rules s' = rules).
  { unfold s'. rewrite observe_rules. done. }
  split; [done|]. split; [done|].
  unfold StateManager.get_metrics, StateManager._calculate_decks_remaining.
  rewrite Hrules, Hseen.
  destruct (GameRules.cards_per_deck rules =? 0) eqn:E; [apply Z.eqb_eq in E; done|].
  cbn [mbind result_bind].
  set (decks := Qmax (1 # 2) _).
  assert (Hdecks : (1 # 2 <= decks)%Q) by apply Q.le_max_l.
  unfold StateManager._calculate_true_count.
  destruct (Qeq_bool decks 0) eqn:E0.
  { apply Qeq_bool_iff in E0. rewrite E0 in Hdecks. done. }
  cbn [mbind result_bind]. eexists. split; [reflexivity|].
  cbn. rewrite Hrc. done.
Qed.

Lemma C8_reset_observe_counts_witness :
  let s := StateManager.init GameRules.default in
  let cs := [Card.Build TWO HEARTS; Card.Build KING CLUBS; Card.Build FIVE SPADES] in
  GameRules.cards_per_deck (StateManager._rules s) ≠ 0
  ∧ StateManager._running_count (StateManager.observe (StateManager.reset s None 26) cs) = 1
  ∧ StateManager._cards_seen (StateManager.observe (StateManager.reset s None 26) cs) = 29.
Proof.
  intros s cs.
  assert (Hcpd : GameRules.cards_per_deck (StateManager._rules s) ≠ 0) by done.
  split; [exact Hcpd|].
  destruct (C8_reset_observe_counts s 26 cs Hcpd) as (Hrc & Hseen & _).
  split; [exact Hrc | exact Hseen].
Defined.

(** ** Betting engine: the defensive cutoff *)


(** An engine built by the constructor. *)
Lemma betting_engine_made cfg rules e :
  BettingEngine.make cfg rules = Ok e →
  e = BettingEngine.Build cfg rules
        (BetLimits.Build (BettingConfig.table_min cfg) (BettingConfig.table_max cfg)
                         (BettingConfig.max_spread cfg))
        (KellyCalculator.Build (BettingConfig.kelly_fraction cfg)
                               KellyCalculator.BLACKJACK_VARIANCE)
        (EVEstimator.make None rules true)
  ∧ (0 < BettingConfig.kelly_fraction cfg <= 1)%Q.
Proof.
  unfold BettingEngine.make, KellyCalculator.make.
  destruct (Qlt_bool 0 _ && Qle_bool _ 1) eqn:E; cbn; [|done].
  intros [= <-]. split; [done|].
  apply andb_true_iff in E as [E1 E2].
  apply Qlt_bool_iff in E1. apply Qle_bool_iff in E2. done.
Qed.

(** Rounding is monotone and stays within half a unit. *)

Lemma py_round_lower (x : Q) : (x - (1 # 2) <= inject_Z (py_round x))%Q.
Proof.
  unfold py_round. pose proof (Qlt_floor x) as Hf.
  rewrite inject_Z_plus in Hf. change (inject_Z 1) with 1%Q in Hf.
  destruct (Qcompare (x - inject_Z (Qfloor x)) (1 # 2)) eqn:E.
  - apply Qeq_alt in E. destruct (Z.even (Qfloor x)); [lra|].
    rewrite inject_Z_plus. change (inject_Z 1) with 1%Q. lra.
  - apply Qlt_alt in E. lra.
  - rewrite inject_Z_plus. change (inject_Z 1) with 1%Q. lra.
Qed.

Lemma py_round2_lower (x : Q) : (x - (1 # 200) <= py_round2 x)%Q.
Proof.
  pose proof (py_round_lower (x * 100)) as H.
  assert (Heq : (py_round2 x == inject_Z (py_round (x * 100)) / 100)%Q)
    by (unfold py_round2; apply Qmake_Qdiv).
  rewrite Heq. apply Qle_shift_div_l; [done|]. lra.
Qed.

Lemma py_round_mono (x y : Q) : (x <= y)%Q → py_round x <= py_round y.
Proof.
  intros Hxy. pose proof (Qfloor_resp_le _ _ Hxy) as Hfl.
  pose proof (Qfloor_le x) as Hx1. pose proof (Qlt_floor x) as Hx2.
  pose proof (Qfloor_le y) as Hy1. pose proof (Qlt_floor y) as Hy2.
  rewrite inject_Z_plus in Hx2, Hy2. change (inject_Z 1) with 1%Q in Hx2, Hy2.
  unfold py_round.
  destruct (Z.eq_dec (Qfloor x) (Qfloor y)) as [Heq | Hne].
  - rewrite <- Heq in *.
    destruct (Qcompare_spec (x - inject_Z (Qfloor x)) (1 # 2)) as [Ex | Ex | Ex],
             (Qcompare_spec (y - inject_Z (Qfloor x)) (1 # 2)) as [Ey | Ey | Ey];
      try (destruct (Z.even (Qfloor x))); try lia; exfalso; lra.
  - assert (Qfloor x + 1 <= Qfloor y) by lia.
    destruct (Qcompare (x - inject_Z (Qfloor x)) (1 # 2)),
             (Qcompare (y - inject_Z (Qfloor y)) (1 # 2));
      try (destruct (Z.even (Qfloor x))); try (destruct (Z.even (Qfloor y))); lia.
Qed.

Lemma py_round2_mono (x y : Q) : (x <= y)%Q → (py_round2 x <= py_round2 y)%Q.
Proof.
  intros Hxy. unfold py_round2.
  assert (H : py_round (x * 100) <= py_round (y * 100)) by (apply py_round_mono; lra).
  unfold Qle. cbn. lia.
Qed.




Lemma s6_engine_made :
  BettingEngine.make s6_config (Some GameRules.default) = Ok s6_engine.
Proof. reflexivity. Qed.

(** Scenario S7: at the boundary 0.85 the bet still follows the count
    (182.54 at +10, 63.49 at +4); at 0.90 it is the table minimum. *)
Lemma s7_boundary_values :
  BettingEngine.compute_bet s6_engine 10 10000 (85 # 100) = Ok (18254 # 100)%Q
  ∧ BettingEngine.compute_bet s6_engine 4 10000 (85 # 100) = Ok (6349 # 100)%Q
  ∧ BettingEngine.compute_bet s6_engine 10 10000 (90 # 100) = Ok 10%Q.
Proof. repeat split; vm_compute; reflexivity. Qed.


(** ** Hands built by [from_cards] *)

Lemma from_cards_cards cs h : Hand.from_cards cs = Ok h → Hand.cards h = cs.
Proof.
  unfold Hand.from_cards. destruct cs as [|c cs]; [done|].
  destruct (Hand.reduce_aces _ _) as [tot aces]. unfold Hand.make.
  destruct (_ || _); [done|]. intros [= <-]. done.
Qed.

Lemma from_cards_pair cs h :
  Hand.from_cards cs = Ok h → Hand.is_pair h = true →
  ∃ c0 c1, cs = [c0; c1] ∧ Card.rank c0 = Card.rank c1.
Proof.
  unfold Hand.from_cards. destruct cs as [|c0 cs]; [done|].
  destruct (Hand.reduce_aces _ _) as [tot aces]. unfold Hand.make.
  destruct (_ || _); [done|]. intros [= <-]. cbn.
  destruct cs as [|c1 [|c2 cs]]; try done.
  intros H. apply bool_decide_eq_true in H. eauto.
Qed.

Lemma from_cards_total_range cs h :
  Hand.from_cards cs = Ok h → 2 <= Hand.total h <= 31.
Proof.
  unfold Hand.from_cards. destruct cs as [|c0 cs]; [done|].
  destruct (Hand.reduce_aces _ _) as [tot aces]. unfold Hand.make.
  destruct (_ || _) eqn:E; [done|]. intros [= <-]. cbn.
  apply orb_false_iff in E as [E1 E2]. lia.
Qed.

Lemma pair_value_ok cs h :
  Hand.from_cards cs = Ok h → Hand.is_pair h = true →
  ∃ v, Hand.pair_value h = Ok v.
Proof.
  intros Hfc Hp. destruct (from_cards_pair _ _ Hfc Hp) as (c0 & c1 & -> & _).
  unfold Hand.pair_value. rewrite Hp, (from_cards_cards _ _ Hfc). cbn.
  destruct (bool_decide _); eauto.
Qed.

Lemma classify_ok cs h :
  Hand.from_cards cs = Ok h →
  ∃ v, DeviationEngine.classify h = Ok (Hand.hand_type h, v).
Proof.
  intros Hfc. unfold DeviationEngine.classify, Hand.hand_type.
  destruct (Hand.is_pair h) eqn:Hp.
  - destruct (pair_value_ok _ _ Hfc Hp) as [v ->]. cbn. eauto.
  - destruct (Hand.is_soft h); eauto.
Qed.

(** ** The deviation index *)

Lemma has_char_pretty_N_go c x s :
  has_char c s = false →
  (∀ n, pretty_N_char n ≠ c) →
  has_char c (pretty_N_go x s) = false.
Proof.
  intros Hs Hc. revert s Hs.
  induction (N.lt_wf_0 x) as [x _ IH]; intros s Hs.
  assert (x = 0 ∨ 0 < x)%N as [->|Hpos] by lia.
  - by rewrite pretty_N_go_0.
  - rewrite pretty_N_go_step by done. apply IH.
    + by apply N.div_lt.
    + cbn. rewrite Hs, orb_false_r. apply bool_decide_eq_false. apply Hc.
Qed.

Lemma pretty_N_char_not_underscore n : pretty_N_char n ≠ "_"%char.
Proof. unfold pretty_N_char. by repeat case_match. Qed.

Lemma has_underscore_pretty_N (x : N) : has_char "_" (pretty x) = false.
Proof.
  unfold pretty, pretty_N. case_decide; [done|].
  apply has_char_pretty_N_go; [done | apply pretty_N_char_not_underscore].
Qed.

Lemma has_underscore_pretty_Z (x : Z) : has_char "_" (pretty x) = false.
Proof.
  unfold pretty, pretty_Z. destruct x as [|p|p]; [done| |].
  - apply (has_underscore_pretty_N (N.pos p)).
  - cbn. apply (has_underscore_pretty_N (N.pos p)).
Qed.

(** Two strings free of [c] followed by [c] and a rest: the split is unique. *)
Lemma append_sep_inj c s1 s2 t1 t2 :
  has_char c s1 = false → has_char c s2 = false →
  s1 +:+ String c t1 = s2 +:+ String c t2 → s1 = s2 ∧ t1 = t2.
Proof.
  revert s2. induction s1 as [|a s1 IH]; intros [|b s2]; cbn.
  - intros _ _ [= ->]. done.
  - intros _ Hb [= <- _]. rewrite bool_decide_eq_true_2 in Hb; done.
  - intros Ha _ [= -> _]. rewrite bool_decide_eq_true_2 in Ha; done.
  - intros Ha Hb [= -> Heq].
    apply orb_false_iff in Ha as [_ Ha]. apply orb_false_iff in Hb as [_ Hb].
    destruct (IH s2 Ha Hb Heq) as [-> ->]. done.
Qed.

Lemma index_key_inj ht v d ht' v' d' :
  DeviationEngine.index_key ht v d = DeviationEngine.index_key ht' v' d' →
  ht = ht' ∧ v = v' ∧ d = d'.
Proof.
  unfold DeviationEngine.index_key. intros H.
  assert (Hty : ht = ht' ∧
    pretty v +:+ String "_" (pretty d) = pretty v' +:+ String "_" (pretty d')).
  { destruct ht, ht'; cbn in H; by simplify_eq. }
  destruct Hty as [-> Hrest]. split; [done|].
  apply append_sep_inj in Hrest as [Hv Hd];
    [| apply has_underscore_pretty_Z | apply has_underscore_pretty_Z].
  split; by apply (inj pretty).
Qed.

Lemma elem_of_insert_desc d x l :
  d ∈ DeviationEngine.insert_desc x l ↔ d = x ∨ d ∈ l.
Proof.
  induction l as [|y l IH]; cbn.
  - rewrite list_elem_of_singleton, elem_of_nil. tauto.
  - destruct (_ <? _).
    + rewrite elem_of_cons. tauto.
    + rewrite !elem_of_cons, IH. tauto.
Qed.

Lemma elem_of_sort_desc d l : d ∈ DeviationEngine.sort_desc l ↔ d ∈ l.
Proof.
  unfold DeviationEngine.sort_desc.
  assert (H : ∀ acc, d ∈ foldl (λ acc x, DeviationEngine.insert_desc x acc) acc l
                     ↔ d ∈ acc ∨ d ∈ l).
  { induction l as [|x l IH]; intros acc; cbn.
    - rewrite elem_of_nil. tauto.
    - rewrite IH, elem_of_insert_desc, elem_of_cons. tauto. }
  rewrite H, elem_of_nil. tauto.
Qed.




Lemma first_triggered_some candidates tc a :
  DeviationEngine.first_triggered candidates tc = Some a →
  ∃ d, d ∈ candidates ∧ Deviation.is_triggered d tc = true
       ∧ Deviation.get_action d = a.
Proof.
  induction candidates as [|x l IH]; cbn; [done|].
  destruct (Deviation.is_triggered x tc) eqn:E.
  - intros [= <-]. exists x. split; [apply elem_of_cons; by left | done].
  - intros H. destruct (IH H) as (d & Hd & Ht & Ha). exists d.
    split; [apply elem_of_cons; by right | done].
Qed.


(** A pair of eights against a ten at a true count of 0: the hard-16
    deviation ILL_16v10 (index 0) is in the standard set and does fire for
    a hard 16, but it is not consulted for the pair. *)
Lemma pair_of_eights_skips_hard_16 :
  Hand.from_cards [Card.Build EIGHT SPADES; Card.Build EIGHT HEARTS] = Ok pair_of_eights
  ∧ Hand.from_cards [Card.Build TEN SPADES; Card.Build SIX HEARTS] = Ok hard_16
  ∧ DeviationEngine.check_deviation create_standard_deviation_engine
      hard_16 (Card.Build TEN DIAMONDS) (snapshot_at 0) = Ok (Some STAND)
  ∧ DeviationEngine.check_deviation create_standard_deviation_engine
      pair_of_eights (Card.Build TEN DIAMONDS) (snapshot_at 0) = Ok None.
Proof. repeat split; vm_compute; reflexivity. Qed.


(** ** The strategy engine returns on every hand built by [from_cards] *)

Lemma lookup_ok l cs h dealer_up :
  Hand.from_cards cs = Ok h → ∃ o, StrategyLookup.lookup l h dealer_up = Ok o.
Proof.
  intros Hfc. unfold StrategyLookup.lookup, StrategyLookup._generate_key,
    StrategyLookup._generate_alt_key.
  destruct (Hand.is_pair h) eqn:Hp.
  - destruct (pair_value_ok _ _ Hfc Hp) as [v ->]. cbn.
    destruct (_ !! _) as [s|]; cbn; [eauto|].
    destruct (_ !! _) as [s|]; cbn; eauto.
  - cbn. destruct (_ !! _) as [s|]; cbn; [eauto|].
    destruct (_ !! _) as [s|]; cbn; eauto.
Qed.

Lemma baseline_ok e cs h dealer_up :
  Hand.from_cards cs = Ok h →
  ∃ b, StrategyEngine._get_baseline_action e h dealer_up = Ok b.
Proof.
  intros Hfc. unfold StrategyEngine._get_baseline_action.
  destruct (lookup_ok (StrategyEngine._lookup e) _ _ dealer_up Hfc) as [o ->].
  cbn. destruct o; eauto.
Qed.

Lemma check_deviation_ok de cs h dealer_up metrics :
  Hand.from_cards cs = Ok h →
  ∃ act, DeviationEngine.check_deviation de h dealer_up metrics = Ok act.
Proof.
  intros Hfc. unfold DeviationEngine.check_deviation.
  destruct (classify_ok _ _ Hfc) as [v ->]. cbn. eauto.
Qed.

Lemma deviation_id_ok cs h dealer_up metrics :
  Hand.from_cards cs = Ok h →
  ∃ id, StrategyEngine._get_triggered_deviation_id h dealer_up metrics = Ok id.
Proof.
  intros Hfc. unfold StrategyEngine._get_triggered_deviation_id.
  destruct (Hand.is_pair h) eqn:Hp.
  - destruct (pair_value_ok _ _ Hfc Hp) as [v ->]. cbn. eauto.
  - destruct (Hand.is_soft h); cbn; eauto.
Qed.

(** Both modes of [_check_deviation_with_margin] come from one call of the
    deviation engine on the adjusted snapshot. *)
Lemma check_with_margin_spec e cs h dealer_up metrics margin :
  Hand.from_cards cs = Ok h →
  ∃ act id,
    DeviationEngine.check_deviation (StrategyEngine._deviation_engine e) h dealer_up
      (adjusted_snapshot metrics margin) = Ok act
    ∧ StrategyEngine._get_triggered_deviation_id h dealer_up metrics = Ok id
    ∧ ∀ surrender_only,
        StrategyEngine._check_deviation_with_margin e h dealer_up metrics margin
          surrender_only
        = Ok (margin_result surrender_only id act).
Proof.
  intros Hfc.
  destruct (check_deviation_ok (StrategyEngine._deviation_engine e) _ _ dealer_up
              (adjusted_snapshot metrics margin) Hfc) as [act Hact].
  destruct (deviation_id_ok _ _ dealer_up metrics Hfc) as [id Hid].
  exists act, id. split; [done|]. split; [done|].
  intros so. unfold StrategyEngine._check_deviation_with_margin,
    DeviationEngine.check_surrender_deviation.
  fold (adjusted_snapshot metrics margin). rewrite Hact.
  destruct so; cbn.
  - destruct act as [a|]; cbn; [|done].
    destruct (decide (a = SURRENDER)) as [->|Hne].
    + cbn. rewrite Hid. done.
    + rewrite bool_decide_eq_false_2 by congruence. cbn.
      rewrite bool_decide_eq_false_2 by done. done.
  - destruct act as [a|]; cbn; [|done].
    destruct (bool_decide (a ≠ SURRENDER)); [|done].
    rewrite Hid. done.
Qed.

Lemma decide_with_context_spec e cs h dealer_up metrics use_deviations :
  Hand.from_cards cs = Ok h →
  ∃ baseline act id,
    StrategyEngine._get_baseline_action e h dealer_up = Ok baseline
    ∧ DeviationEngine.check_deviation (StrategyEngine._deviation_engine e) h dealer_up
        (adjusted_snapshot metrics
           (RuleConfig.deviation_threshold_margin (StrategyEngine._config e)))
      = Ok act
    ∧ StrategyEngine._get_triggered_deviation_id h dealer_up metrics = Ok id
    ∧ StrategyEngine.decide_with_context e h dealer_up metrics use_deviations
      = Ok (decide_outcome baseline act id (GameState.true_count metrics)
              use_deviations
              (RuleConfig.surrender_allowed (StrategyEngine._config e)
               && bool_decide (length (Hand.cards h) = 2%nat))
              (Hand.is_pair h)).
Proof.
  intros Hfc.
  destruct (baseline_ok e _ _ dealer_up Hfc) as [b Hb].
  destruct (check_with_margin_spec e _ _ dealer_up metrics
              (RuleConfig.deviation_threshold_margin (StrategyEngine._config e)) Hfc)
    as (act & id & Hact & Hid & Hcwm).
  exists b, act, id. split; [done|]. split; [done|]. split; [done|].
  unfold StrategyEngine.decide_with_context, StrategyEngine._decide_split_with_context.
  rewrite Hb. cbn [mbind result_bind].
  destruct use_deviations; [|reflexivity].
  rewrite !Hcwm. unfold decide_outcome.
  destruct (RuleConfig.surrender_allowed (StrategyEngine._config e)),
    (bool_decide (length (Hand.cards h) = 2%nat)), (Hand.is_pair h),
    act as [[]|], b; reflexivity.
Qed.

(** C9. [deviated] is true exactly when the chosen action differs from the
    baseline action.  When the deviation check of [decide] fires (in the
    playing step or in the surrender step) with the action the baseline
    would choose, the result carries that deviation's id and
    [deviated = false]. *)
Theorem C9_deviated_iff_action_differs (e : StrategyEngine.t) (cs : list Card.t)
    (h : Hand.t) (dealer_up : Card.t) (metrics : GameState.t) (use_deviations : bool) :
  Hand.from_cards cs = Ok h →
  let margin := RuleConfig.deviation_threshold_margin (StrategyEngine._config e) in
  ∃ r baseline,
    StrategyEngine.decide_with_context e h dealer_up metrics use_deviations = Ok r
    ∧ StrategyEngine._get_baseline_action e h dealer_up = Ok baseline
    ∧ DecisionResult.baseline_action r = baseline
    ∧ (DecisionResult.deviated r = true
       ↔ DecisionResult.action r ≠ DecisionResult.baseline_action r)
    ∧ (∀ id a,
         use_deviations = true →
         StrategyEngine._check_deviation_with_margin e h dealer_up metrics margin false
         = Ok (Some (id, a)) →
         a = baseline →
         DecisionResult.action r = baseline
         ∧ DecisionResult.deviation_id r = Some id
         ∧ DecisionResult.deviated r = false)
    ∧ (∀ id a,
         use_deviations = true →
         RuleConfig.surrender_allowed (StrategyEngine._config e) = true →
         length (Hand.cards h) = 2%nat →
         StrategyEngine._check_deviation_with_margin e h dealer_up metrics margin true
         = Ok (Some (id, a)) →
         a = baseline →
         DecisionResult.action r = baseline
         ∧ DecisionResult.deviation_id r = Some id
         ∧ DecisionResult.deviated r = false).
Proof.
  intros Hfc margin.
  destruct (decide_with_context_spec e _ _ dealer_up metrics use_deviations Hfc)
    as (b & act & id0 & Hb & Hact & Hid & Hdec).
  destruct (check_with_margin_spec e _ _ dealer_up metrics margin Hfc)
    as (act' & id' & Hact' & Hid' & Hcwm).
  assert (act' = act) as -> by (unfold margin in Hact'; congruence).
  assert (id' = id0) as -> by congruence.
  eexists. exists b. split; [exact Hdec|]. split; [done|]. split.
  { unfold decide_outcome. by repeat case_match. }
  split.
  { unfold DecisionResult.deviated. apply bool_decide_eq_true. }
  split.
  - intros id a -> Hfire ->. rewrite Hcwm in Hfire. injection Hfire as Hfire.
    unfold margin_result in Hfire. destruct act as [a|]; [|done].
    destruct (bool_decide (a ≠ SURRENDER)) eqn:Hns; [|done].
    injection Hfire as -> ->. apply bool_decide_eq_true in Hns.
    unfold decide_outcome, DecisionResult.deviated.
    rewrite (bool_decide_eq_false_2 (b = SURRENDER)) by done.
    cbn. destruct (Hand.is_pair h), b; done.
  - intros id a -> Hsur Hlen Hfire ->. rewrite Hcwm in Hfire. injection Hfire as Hfire.
    unfold margin_result in Hfire. destruct act as [a|]; [|done].
    destruct (bool_decide (a = SURRENDER)) eqn:Hs; [|done].
    injection Hfire as -> ->. apply bool_decide_eq_true in Hs. subst b.
    unfold decide_outcome, DecisionResult.deviated.
    rewrite Hsur, (bool_decide_eq_true_2 _ Hlen). done.
Qed.

(** Hard 11 against an ace at a true count of +1, with the S17 table entry
    DOUBLE: the index play ILL_11vA fires and prescribes what the baseline
    already says. *)
Lemma C9_deviated_iff_action_differs_witness :
  Hand.from_cards [Card.Build FIVE SPADES; Card.Build SIX HEARTS] = Ok hard_11
  ∧ ∃ r, StrategyEngine.decide_with_context engine_11vA hard_11
           (Card.Build ACE DIAMONDS) (snapshot_at 1) true = Ok r
         ∧ DecisionResult.action r = DOUBLE
         ∧ DecisionResult.baseline_action r = DOUBLE
         ∧ DecisionResult.deviation_id r = Some "DEV_H11v11"
         ∧ DecisionResult.deviated r = false.
Proof.
  assert (Hfc : Hand.from_cards [Card.Build FIVE SPADES; Card.Build SIX HEARTS]
                = Ok hard_11) by reflexivity.
  split; [exact Hfc|].
  destruct (C9_deviated_iff_action_differs engine_11vA _ hard_11
              (Card.Build ACE DIAMONDS) (snapshot_at 1) true Hfc)
    as (r & baseline & Hdec & Hb & Hbr & _ & Hplay & _).
  assert (Hbase : baseline = DOUBLE).
  { vm_compute in Hb. injection Hb as <-. reflexivity. }
  assert (Hfire : StrategyEngine._check_deviation_with_margin engine_11vA hard_11
                    (Card.Build ACE DIAMONDS) (snapshot_at 1)
                    (RuleConfig.deviation_threshold_margin
                       (StrategyEngine._config engine_11vA)) false
                  = Ok (Some ("DEV_H11v11", DOUBLE))).
  { vm_compute. reflexivity. }
  destruct (Hplay "DEV_H11v11" DOUBLE eq_refl Hfire (eq_sym Hbase))
    as (Hact & Hid & Hdev).
  exists r. rewrite Hbase in Hact, Hbr. repeat split; assumption.
Defined.

(** ** Validation of returned actions *)

Lemma validate_action_valid a h : valid_action (StrategyEngine._validate_action a h) h.
Proof.
  unfold StrategyEngine._validate_action, valid_action.
  destruct (2 <? length (Hand.cards h))%nat eqn:Hlen, (Hand.is_pair h), a; cbn;
    try apply Nat.ltb_ge in Hlen; repeat split; intros; try done; try lia.
Qed.

Lemma fallback_action_valid h dealer_up :
  valid_action (StrategyEngine._calculate_fallback_action h dealer_up) h.
Proof.
  unfold StrategyEngine._calculate_fallback_action, valid_action.
  destruct (bool_decide (length (Hand.cards h) = 2%nat)) eqn:Hlen.
  - apply bool_decide_eq_true in Hlen. rewrite Hlen.
    repeat split; intros; try lia; repeat case_match; done.
  - repeat split; intros; repeat case_match; done.
Qed.

(** The baseline action is always validated; so is every action returned
    with deviations switched off. *)
Lemma baseline_action_valid e h dealer_up a :
  StrategyEngine._get_baseline_action e h dealer_up = Ok a → valid_action a h.
Proof.
  unfold StrategyEngine._get_baseline_action.
  destruct (StrategyLookup.lookup _ _ _) as [[b|]|]; cbn; [| |done].
  - intros [= <-]. apply validate_action_valid.
  - intros [= <-]. apply fallback_action_valid.
Qed.

Lemma decide_without_deviations_valid e h dealer_up metrics a :
  StrategyEngine.decide e h dealer_up metrics false = Ok a → valid_action a h.
Proof.
  unfold StrategyEngine.decide, StrategyEngine.decide_with_context.
  destruct (StrategyEngine._get_baseline_action e h dealer_up) as [b|] eqn:Hb;
    cbn; [|done].
  intros [= <-]. by eapply baseline_action_valid.
Qed.

(** C2. The action of a fired deviation is returned without validation:
    a three-card hard 10 (2, 3, 5) against a ten at a true count of +4
    gets DOUBLE from ILL_10v10, although the hand has more than two cards.
    With deviations off the same call returns the validated baseline HIT. *)
Theorem C2_deviation_action_not_validated :
  Hand.from_cards [Card.Build TWO SPADES; Card.Build THREE HEARTS; Card.Build FIVE CLUBS]
  = Ok hard_10_three_cards
  ∧ length (Hand.cards hard_10_three_cards) = 3%nat
  ∧ StrategyEngine.decide fallback_engine hard_10_three_cards
      (Card.Build TEN DIAMONDS) (snapshot_at 4) true = Ok DOUBLE
  ∧ ¬ valid_action DOUBLE hard_10_three_cards
  ∧ StrategyEngine.decide fallback_engine hard_10_three_cards
      (Card.Build TEN DIAMONDS) (snapshot_at 4) false = Ok HIT.
Proof.
  split; [reflexivity|]. split; [reflexivity|]. split; [vm_compute; reflexivity|].
  split; [|vm_compute; reflexivity].
  intros (Hd & _ & _). specialize (Hd eq_refl). cbn in Hd. lia.
Qed.

(** ** The confidence margin *)

(** What the code does with a margin [m]: the count is lowered by [m]
    before either comparison. *)
Lemma margin_trigger_characterisation (d : Deviation.t) (tc m : Q) :
  Deviation.is_triggered d (tc - m) = true
  ↔ (DeviationRule.direction (Deviation.rule d) = ABOVE_OR_EQUAL
     ∧ (DeviationRule.threshold (Deviation.rule d) + m <= tc)%Q)
    ∨ (DeviationRule.direction (Deviation.rule d) = BELOW
       ∧ (tc < DeviationRule.threshold (Deviation.rule d) + m)%Q).
Proof.
  unfold Deviation.is_triggered.
  destruct (DeviationRule.direction (Deviation.rule d)).
  - rewrite Qle_bool_iff. split.
    + intros H. left. split; [done | lra].
    + intros [[_ H]|[? _]]; [lra | done].
  - rewrite Qlt_bool_iff. split.
    + intros H. right. split; [done | lra].
    + intros [[? _]|[_ H]]; [done | lra].
Qed.

(** C3. With a margin of 1 the BELOW deviation ILL_12v4 (hit hard 12
    against a 4 below a true count of 0) fires at a true count of +0.5:
    the count is not below [threshold - margin = -1], it is not even below
    the threshold.  With a margin of 0 the same call keeps the baseline. *)
Theorem C3_below_deviation_fires_inside_margin :
  Hand.from_cards [Card.Build TEN SPADES; Card.Build TWO HEARTS] = Ok hard_12
  ∧ StrategyEngine.decide_with_context margin_one_engine hard_12
      (Card.Build FOUR DIAMONDS) (snapshot_at (1 # 2)) true
    = Ok (DecisionResult.Build HIT STAND (Some "DEV_H12v4") (1 # 2))
  ∧ ¬ ((1 # 2) < 0 - 1)%Q
  ∧ StrategyEngine.decide_with_context fallback_engine hard_12
      (Card.Build FOUR DIAMONDS) (snapshot_at (1 # 2)) true
    = Ok (DecisionResult.Build STAND STAND None (1 # 2)).
Proof.
  split; [reflexivity|]. split; [vm_compute; reflexivity|].
  split; [|vm_compute; reflexivity].
  intros H. vm_compute in H. discriminate.
Qed.

(** ** Conditional tokens of the strategy table *)

(** C5. The lookup takes no rules and upper-cases the token before it
    consults the action map, whose conditional entries are spelt in mixed
    case: no conditional token is ever found.  With [Ds] for soft 18
    against a 3 (two cards, doubling legal) the lookup yields nothing and
    the engine plays the hand-coded chart (STAND, not DOUBLE); with [Rh]
    for hard 16 against a ten and surrender allowed it plays HIT, not
    SURRENDER. *)
Theorem C5_conditional_tokens_not_resolved :
  (∀ tok, tok ∈ conditional_tokens →
          is_Some (StrategyLookup._action_map !! tok)
          ∧ StrategyLookup._action_map !! upper tok = None)
  ∧ Hand.from_cards [Card.Build ACE SPADES; Card.Build SEVEN HEARTS] = Ok soft_18
  ∧ StrategyLookup.lookup (StrategyEngine._lookup conditional_engine) soft_18
      (Card.Build THREE DIAMONDS) = Ok None
  ∧ StrategyEngine._get_baseline_action conditional_engine soft_18
      (Card.Build THREE DIAMONDS) = Ok STAND
  ∧ RuleConfig.surrender_allowed (StrategyEngine._config conditional_engine) = true
  ∧ StrategyLookup.lookup (StrategyEngine._lookup conditional_engine) hard_16
      (Card.Build TEN DIAMONDS) = Ok None
  ∧ StrategyEngine._get_baseline_action conditional_engine hard_16
      (Card.Build TEN DIAMONDS) = Ok HIT.
Proof.
  split.
  - intros tok Htok. unfold conditional_tokens in Htok.
    repeat (apply elem_of_cons in Htok as [-> | Htok];
            [split; [by eexists | vm_compute; reflexivity]|]).
    by apply elem_of_nil in Htok.
  - repeat split; vm_compute; reflexivity.
Qed.

(** ** Rounding to cents *)

(** C6. With every default (table minimum 10, spread 12, half Kelly) a
    call at a true count of 1000 and a bankroll of 10.006 returns 10.01:
    the Kelly amount is capped at the bankroll and then rounded up to the
    next cent, above the bankroll. *)
Theorem C6_rounded_bet_exceeds_bankroll :
  BettingEngine.make BettingConfig.default None = Ok default_betting_engine
  ∧ BettingEngine.compute_bet default_betting_engine 1000 (10006 # 1000) 0
    = Ok (1001 # 100)%Q
  ∧ ((10006 # 1000) < (1001 # 100))%Q.
Proof.
  split; [reflexivity|]. split; [vm_compute; reflexivity|]. reflexivity.
Qed.

(** ** The simulation driver *)

Lemma same_play_stats_refl r : same_play_stats r r.
Proof. unfold same_play_stats. tauto. Qed.

Lemma same_play_stats_trans r1 r2 r3 :
  same_play_stats r1 r2 → same_play_stats r2 r3 → same_play_stats r1 r3.
Proof.
  unfold same_play_stats.
  intros (?&?&?&?&?&?&?&?&?&?&?&?) (?&?&?&?&?&?&?&?&?&?&?&?).
  repeat split; congruence.
Qed.

Lemma track_true_count_stats r b : same_play_stats r (track_true_count r b).
Proof. unfold same_play_stats, track_true_count. cbn. tauto. Qed.

Lemma get_metrics_ok (s : StateManager.t) :
  GameRules.cards_per_deck (StateManager._rules s) ≠ 0 →
  ∃ m, StateManager.get_metrics s = Ok m.
Proof.
  intros Hcpd.
  unfold StateManager.get_metrics, StateManager._calculate_decks_remaining.
  destruct (_ =? 0) eqn:E; [apply Z.eqb_eq in E; done|].
  cbn [mbind result_bind]. set (decks := Qmax (1 # 2) _).
  assert (Hdecks : (1 # 2 <= decks)%Q) by apply Q.le_max_l.
  unfold StateManager._calculate_true_count.
  destruct (Qeq_bool decks 0) eqn:E0.
  { apply Qeq_bool_iff in E0. rewrite E0 in Hdecks. done. }
  cbn. eauto.
Qed.

Lemma py_int_nonneg (x : Q) : (0 <= x)%Q → 0 <= py_int x.
Proof.
  intros Hx. unfold py_int.
  apply Qle_bool_iff in Hx as Hb. rewrite Hb.
  change 0 with (Qfloor 0). by apply Qfloor_resp_le.
Qed.

Section SimulatorFacts.

Variable rng_shuffle : nat → list Card.t → list Card.t.
Variable rng_randint : nat → Z → Z → Z.

Lemma enter_fresh_shoe_ok sim :
  sim_ready sim →
  ∃ sim', enter_fresh_shoe rng_shuffle rng_randint sim = Ok sim'
          ∧ sim_ready sim'
          ∧ sim_hand_results sim' = sim_hand_results sim.
Proof.
  intros (Hcpd & Hpen & Hmin & Heq). unfold enter_fresh_shoe.
  destruct (SimulatorConfig.simulate_late_entry (sim_config sim)).
  - set (max_burn := py_int _).
    assert (Hmb : 0 <= max_burn).
    { apply py_int_nonneg. apply Qmult_le_0_compat; [|done].
      unfold shoe_total_cards. change 0%Q with (inject_Z 0).
      rewrite <- Zle_Qle. lia. }
    destruct (max_burn <? 0) eqn:E; [apply Z.ltb_lt in E; lia|].
    eexists. split; [reflexivity|]. split; [|done].
    unfold sim_ready. cbn. done.
  - eexists. split; [reflexivity|]. split; [|done].
    unfold sim_ready. cbn. done.
Qed.

(** Below the table minimum the engine's bet is zero, and the driver
    turns it into [min(table_min, bankroll)]. *)
Lemma determine_bet_below_min sim bankroll :
  sim_ready sim →
  (bankroll < BettingConfig.table_min (sim_betting_config sim))%Q →
  agent_get_bet (sim_agent sim) bankroll = Ok 0%Q
  ∧ determine_bet sim bankroll
    = Ok (Qmin (BettingConfig.table_min (sim_betting_config sim)) bankroll).
Proof.
  intros (Hcpd & Hpen & Hmin & Heq) Hb.
  assert (Hget : agent_get_bet (sim_agent sim) bankroll = Ok 0%Q).
  { unfold agent_get_bet.
    destruct (get_metrics_ok _ Hcpd) as [m ->]. cbn [mbind result_bind].
    unfold BettingEngine.compute_bet. rewrite Heq.
    apply Qlt_bool_iff in Hb. by rewrite Hb. }
  split; [done|]. unfold determine_bet. rewrite Hget. cbn. done.
Qed.

Lemma run_step_bankrupt sim st :
  sim_ready sim →
  (run_bankroll st <= 0)%Q →
  ∃ stop sim' st',
    run_step rng_shuffle rng_randint sim st = Ok (stop, sim', st')
    ∧ sim_ready sim'
    ∧ run_bankroll st' = run_bankroll st
    ∧ same_play_stats (run_result st) (run_result st')
    ∧ sim_hand_results sim' = sim_hand_results sim.
Proof.
  intros Hready Hbank. unfold run_step.
  assert (Hfirst : ∃ sim1 hts,
    (if shoe_needs_shuffle (sim_shoe sim) (GameRules.penetration (sim_rules sim))
     then sim' ← enter_fresh_shoe rng_shuffle rng_randint sim; Ok (sim', 0)
     else Ok (sim, run_hands_this_shoe st)) = Ok (sim1, hts)
    ∧ sim_ready sim1 ∧ sim_hand_results sim1 = sim_hand_results sim).
  { destruct (shoe_needs_shuffle _ _).
    - destruct (enter_fresh_shoe_ok sim Hready) as (sim1 & -> & Hr1 & Hh1).
      cbn. eauto.
    - eauto. }
  destruct Hfirst as (sim1 & hts & -> & Hr1 & Hh1). cbn [mbind result_bind].
  unfold agent_get_metrics.
  destruct (get_metrics_ok _ (proj1 Hr1)) as [m ->]. cbn [mbind result_bind].
  match goal with |- context [if ?w then _ else _] => destruct w end.
  - destruct (enter_fresh_shoe_ok sim1 Hr1) as (sim2 & -> & Hr2 & Hh2).
    cbn. eexists _, _, _. split; [reflexivity|]. cbn.
    split; [done|]. split; [done|]. split; [apply same_play_stats_refl|].
    congruence.
  - assert (Hlt : (run_bankroll st
                   < BettingConfig.table_min (sim_betting_config sim1))%Q).
    { destruct Hr1 as (_ & _ & Hmin & Heq). rewrite <- Heq.
      eapply Qle_lt_trans; eassumption. }
    destruct (determine_bet_below_min sim1 _ Hr1 Hlt) as [_ ->].
    cbn [mbind result_bind].
    assert (Hstop : Qle_bool (Qmin (BettingConfig.table_min (sim_betting_config sim1))
                                   (run_bankroll st)) 0 = true).
    { apply Qle_bool_iff. eapply Qle_trans; [apply Q.le_min_r | done]. }
    rewrite Hstop. eexists _, _, _. split; [reflexivity|]. cbn.
    split; [done|]. split; [done|]. split; [apply track_true_count_stats|done].
Qed.

Lemma run_loop_bankrupt n sim st :
  sim_ready sim →
  (run_bankroll st <= 0)%Q →
  ∃ sim' st',
    run_loop rng_shuffle rng_randint n sim st = Ok (sim', st')
    ∧ run_bankroll st' = run_bankroll st
    ∧ same_play_stats (run_result st) (run_result st')
    ∧ sim_hand_results sim' = sim_hand_results sim.
Proof.
  revert sim st. induction n as [|n IH]; intros sim st Hready Hbank; cbn.
  - eexists _, _. split; [reflexivity|].
    split; [done|]. split; [apply same_play_stats_refl | done].
  - destruct (run_step_bankrupt sim st Hready Hbank)
      as (stop & sim1 & st1 & -> & Hr1 & Hb1 & Hs1 & Hh1).
    cbn [mbind result_bind]. destruct stop.
    + eexists _, _. split; [reflexivity|]. done.
    + destruct (IH sim1 st1 Hr1) as (sim2 & st2 & -> & Hb2 & Hs2 & Hh2).
      { by rewrite Hb1. }
      eexists _, _. split; [reflexivity|].
      split; [congruence|]. split; [|congruence].
      by eapply same_play_stats_trans.
Qed.

End SimulatorFacts.

Lemma default_sim_made :
  sim_init unshuffled no_strategy_files None None None = Ok default_sim.
Proof. vm_compute. reflexivity. Qed.

Lemma no_counting_sim_made :
  sim_init unshuffled no_strategy_files (Some single_deck_rules) None
           (Some no_counting_config) = Ok no_counting_sim.
Proof. vm_compute. reflexivity. Qed.

(** [sim_init] sets up a ready simulator from sound rules and limits. *)
Lemma sim_init_ready rng_shuffle strategy_files rules betting_config config sim :
  sim_init rng_shuffle strategy_files rules betting_config config = Ok sim →
  GameRules.cards_per_deck (default GameRules.default rules) ≠ 0 →
  (0 <= SimulatorConfig.late_entry_max_pen (default SimulatorConfig.default config))%Q →
  (∀ bc, betting_config = Some bc → (0 < BettingConfig.table_min bc)%Q) →
  sim_ready sim.
Proof.
  unfold sim_init, agent_init, BettingEngine.make.
  intros Hinit Hcpd Hpen Hmin. cbn [default] in Hinit.
  destruct (KellyCalculator.make _ _) as [k|] eqn:Hk; cbn in Hinit; [|done].
  injection Hinit as <-. unfold sim_ready. cbn.
  split; [done|]. split; [done|]. split; [|done].
  destruct betting_config as [bc|]; cbn; [by apply Hmin | done].
Qed.

(** C1. With [use_counting = false] and Kelly betting the wager still
    follows the real count.  Single deck, cards dealt in fresh-deck order:
    the first hand is bet at the minimum and won, leaving a bankroll of
    10010, a running count of +5 over 45 unseen cards (true count 52/9)
    and a penetration of 7/52.  The second hand is then bet at 98.86, the
    Kelly amount for the real count, while [compute_bet(0.0, 10010, 7/52)]
    is 10.  The zeroed count only labels the hand record; the histogram
    counts the hand in the real bucket 6. *)
Theorem C1_bet_follows_real_count_without_counting :
  SimulatorConfig.use_counting (sim_config no_counting_sim) = false
  ∧ BettingConfig.flat_betting (sim_betting_config no_counting_sim) = false
  ∧ ∃ res1 sim1 m res2 sim2 h1 h2,
      run unshuffled randint_low no_counting_sim 1 10000 = Ok (res1, sim1)
      ∧ (SimulationResult.final_bankroll res1 == 10010)%Q
      ∧ agent_get_metrics (sim_agent sim1) = Ok m
      ∧ GameState.running_count m = 5
      ∧ (GameState.true_count m == 52 # 9)%Q
      ∧ (GameState.penetration m == 7 # 52)%Q
      ∧ BettingEngine.compute_bet (betting_engine (sim_agent sim1)) 0 10010 (7 # 52)
        = Ok (1000 # 100)%Q
      ∧ run unshuffled randint_low no_counting_sim 2 10000 = Ok (res2, sim2)
      ∧ sim_hand_results sim2 = [h1; h2]
      ∧ (HandResult.bet_size h1 == 10)%Q
      ∧ (HandResult.bet_size h2 == 9886 # 100)%Q
      ∧ HandResult.true_count h2 = 0%Q
      ∧ SimulationResult.true_count_distribution res2 !! 6 = Some 1.
Proof.
  split; [reflexivity|]. split; [reflexivity|].
  eexists _, _, _, _, _, _, _.
  split; [vm_compute; reflexivity|].
  split; [vm_compute; reflexivity|].
  split; [vm_compute; reflexivity|].
  split; [reflexivity|].
  split; [vm_compute; reflexivity|].
  split; [vm_compute; reflexivity|].
  split; [vm_compute; reflexivity|].
  split; [vm_compute; reflexivity|].
  split; [vm_compute; reflexivity|].
  split; [vm_compute; reflexivity|].
  split; [vm_compute; reflexivity|].
  split; [reflexivity|].
  vm_compute; reflexivity.
Qed.

Section BankruptcyStop.

Variable rng_shuffle : nat → list Card.t → list Card.t.
Variable rng_randint : nat → Z → Z → Z.

(** The driver's bankruptcy test, for every simulator set up as
    [sim_init] does: the wager (the engine's bet raised to [table_min] when
    it is zero or below it, then capped by the bankroll) is not positive
    exactly when the bankroll is not positive; from then on no hand is
    played and the counters of hands, wagers and outcomes stay as they
    are.  With [0 < bankroll < table_min] the engine's bet is zero, yet
    the wager is the whole bankroll and is positive. *)
Lemma driver_bankruptcy_test
    (sim : BlackjackSimulator) (st : RunState) (n : nat) :
  sim_ready sim →
  (∀ bankroll bet,
     determine_bet sim bankroll = Ok bet →
     ((bet <= 0)%Q ↔ (bankroll <= 0)%Q))
  ∧ ((run_bankroll st <= 0)%Q →
     ∃ sim' st',
       run_loop rng_shuffle rng_randint n sim st = Ok (sim', st')
       ∧ run_bankroll st' = run_bankroll st
       ∧ same_play_stats (run_result st) (run_result st')
       ∧ sim_hand_results sim' = sim_hand_results sim)
  ∧ ((0 < run_bankroll st)%Q →
     (run_bankroll st < BettingConfig.table_min (sim_betting_config sim))%Q →
     agent_get_bet (sim_agent sim) (run_bankroll st) = Ok 0%Q
     ∧ ∃ bet, determine_bet sim (run_bankroll st) = Ok bet
              ∧ (bet == run_bankroll st)%Q
              ∧ Qle_bool bet 0 = false).
Proof.
  intros Hready. split; [|split].
  - intros bankroll bet. unfold determine_bet.
    destruct (agent_get_bet (sim_agent sim) bankroll) as [bet0|]; cbn; [|done].
    intros [= <-].
    destruct Hready as (_ & _ & Hmin & Heq). rewrite Heq in Hmin.
    set (tmin := BettingConfig.table_min (sim_betting_config sim)) in *.
    set (bet1 := if Qle_bool bet0 0 || Qlt_bool bet0 tmin then tmin else bet0).
    assert (Hpos : (0 < bet1)%Q).
    { unfold bet1. destruct (Qle_bool bet0 0 || Qlt_bool bet0 tmin) eqn:E; [done|].
      apply orb_false_iff in E as [_ E]. apply Qlt_bool_false_iff in E.
      eapply Qlt_le_trans; eassumption. }
    rewrite Q.min_le_iff. split; [|tauto].
    intros [H|H]; [|done]. exfalso. exact (Qlt_not_le _ _ Hpos H).
  - intros Hbank. by apply run_loop_bankrupt.
  - intros Hpos Hlt.
    destruct (determine_bet_below_min sim _ Hready Hlt) as [Hget Hdet].
    split; [done|]. eexists. split; [exact Hdet|].
    assert (Hmin : (Qmin (BettingConfig.table_min (sim_betting_config sim))
                         (run_bankroll st) == run_bankroll st)%Q).
    { apply Q.min_r. by apply Qlt_le_weak. }
    split; [done|]. apply Qle_bool_false_iff. by rewrite Hmin.
Qed.

End BankruptcyStop.

(** C4. The engine's zero bet does not stop the run.  With the default
    simulator (table minimum 10) and a bankroll of 5, [compute_bet] returns
    zero because the bankroll is below the table minimum; the driver
    replaces the zero by [table_min], caps it at the bankroll and plays
    the hand with a wager of 5, below the table minimum.  (On the shoe in
    fresh order the hand is won and the run ends with a bankroll of 10.) *)
Theorem C4_zero_bet_does_not_stop_run :
  ∃ res sim' bet h,
    agent_get_bet (sim_agent default_sim) 5 = Ok 0%Q
    ∧ (5 < BettingConfig.table_min (sim_betting_config default_sim))%Q
    ∧ determine_bet default_sim 5 = Ok bet
    ∧ (bet == 5)%Q
    ∧ run unshuffled randint_low default_sim 1 5 = Ok (res, sim')
    ∧ SimulationResult.hands_played res = 1
    ∧ sim_hand_results sim' = [h]
    ∧ (HandResult.bet_size h == 5)%Q
    ∧ (SimulationResult.total_wagered res == 5)%Q
    ∧ (SimulationResult.final_bankroll res == 10)%Q.
Proof.
  eexists _, _, _, _.
  split; [vm_compute; reflexivity|].
  split; [reflexivity|].
  split; [vm_compute; reflexivity|].
  split; [reflexivity|].
  split; [vm_compute; reflexivity|].
  split; [reflexivity|].
  split; [vm_compute; reflexivity|].
  split; [vm_compute; reflexivity|].
  split; vm_compute; reflexivity.
Qed.

(** ** What [compute_bet] does guarantee *)

Lemma py_round_le (x : Q) : (inject_Z (py_round x) <= x + (1 # 2))%Q.
Proof.
  unfold py_round. pose proof (Qfloor_le x) as Hf.
  destruct (Qcompare (x - inject_Z (Qfloor x)) (1 # 2)) eqn:E.
  - apply Qeq_alt in E. destruct (Z.even (Qfloor x)); [lra|].
    rewrite inject_Z_plus. change (inject_Z 1) with 1%Q. lra.
  - lra.
  - apply Qgt_alt in E. rewrite inject_Z_plus. change (inject_Z 1) with 1%Q. lra.
Qed.

(** Rounding to cents raises a value by at most half a cent. *)
Lemma py_round2_le (x : Q) : (py_round2 x <= x + (1 # 200))%Q.
Proof.
  unfold py_round2. rewrite Qmake_Qdiv.
  pose proof (py_round_le (x * 100)) as H.
  change (inject_Z (Z.pos 100)) with 100%Q.
  apply Qle_shift_div_r; [done|]. lra.
Qed.

(** Before the final rounding the bet respects the bankroll, the table
    maximum and the spread cap; the value returned is within half a cent
    of each, and flat betting returns the table minimum itself. *)
Lemma compute_bet_within_half_cent (cfg : BettingConfig.t) (rules : option GameRules.t)
    (e : BettingEngine.t) (true_count bankroll penetration bet : Q) :
  BettingEngine.make cfg rules = Ok e →
  (0 <= BettingConfig.table_min cfg)%Q →
  (BettingConfig.table_min cfg <= BettingConfig.table_max cfg)%Q →
  (1 <= BettingConfig.max_spread cfg)%Q →
  (0 <= bankroll)%Q →
  BettingEngine.compute_bet e true_count bankroll penetration = Ok bet →
  (bet <= bankroll + (1 # 200))%Q
  ∧ (bet <= BettingConfig.table_max cfg + (1 # 200))%Q
  ∧ (bet <= BettingConfig.max_spread cfg * BettingConfig.table_min cfg + (1 # 200))%Q
  ∧ (BettingConfig.flat_betting cfg = true →
     (BettingConfig.table_min cfg <= bankroll)%Q →
     bet = BettingConfig.table_min cfg).
Proof.
  unfold BettingEngine.make. intros Hmake Hmin Hmax Hspread Hbank.
  destruct (KellyCalculator.make _ _) as [k|]; cbn in Hmake; [|done].
  injection Hmake as <-.
  set (tmin := BettingConfig.table_min cfg) in *.
  set (tmax := BettingConfig.table_max cfg) in *.
  set (spread := BettingConfig.max_spread cfg) in *.
  assert (Hsp : (tmin <= spread * tmin)%Q) by nra.
  unfold BettingEngine.compute_bet. cbn.
  fold tmin tmax spread.
  destruct (Qlt_bool bankroll tmin) eqn:Hlow.
  { intros [= <-]. apply Qlt_bool_iff in Hlow.
    repeat split; lra. }
  apply Qlt_bool_false_iff in Hlow.
  assert (Hat_min : (tmin <= bankroll + (1 # 200))%Q
                    ∧ (tmin <= tmax + (1 # 200))%Q
                    ∧ (tmin <= spread * tmin + (1 # 200))%Q) by (repeat split; lra).
  destruct (BettingConfig.flat_betting cfg) eqn:Hflat.
  { intros [= <-]. destruct Hat_min as (?&?&?). repeat split; done. }
  destruct (Qlt_bool _ penetration).
  { intros [= <-]. destruct Hat_min as (?&?&?). repeat split; done. }
  unfold BettingEngine.kelly_sized_bet. cbn. fold tmin tmax spread.
  destruct (py_div 6 _) as [deck_factor|]; cbn; [|done].
  set (adv := (AdvantageModel.calculate_advantage _ _ * _)%Q).
  destruct (KellyCalculator.calculate_bet_amount _ _ _ _) as [kbet|] eqn:Hk; cbn; [|done].
  assert (Hkbet : (kbet <= tmax)%Q).
  { unfold KellyCalculator.calculate_bet_amount in Hk.
    destruct (Qle_bool bankroll 0); [injection Hk as <-; lra|].
    destruct (KellyCalculator.calculate_bet_fraction _ _) as [f|]; cbn in Hk; [|done].
    injection Hk as <-. unfold BetLimits.clamp. cbn. fold tmin tmax.
    eapply Qle_trans; [apply Q.le_min_l|].
    apply Q.max_lub; [done | apply Q.le_min_l]. }
  set (raw := Qmin (Qmin kbet (tmin * spread)) bankroll).
  assert (Hraw : (raw <= bankroll)%Q ∧ (raw <= tmax)%Q ∧ (raw <= spread * tmin)%Q).
  { unfold raw. split; [apply Q.le_min_r|]. split.
    - eapply Qle_trans; [apply Q.le_min_l|].
      eapply Qle_trans; [apply Q.le_min_l | done].
    - eapply Qle_trans; [apply Q.le_min_l|].
      eapply Qle_trans; [apply Q.le_min_r|]. lra. }
  apply Qle_bool_iff in Hlow as Hge. rewrite Hge.
  destruct (Qlt_bool raw tmin).
  - destruct Hat_min as (?&?&?).
    destruct (Qlt_bool 0 adv && true); intros [= <-]; repeat split; done.
  - intros [= <-]. pose proof (py_round2_le raw) as Hr.
    destruct Hraw as (?&?&?). repeat split; try lra.
Qed.

(** Flat betting on and an affordable table: the bet is exactly the
    table minimum, whatever the count and the penetration. *)
Lemma flat_bet_is_table_min (e : BettingEngine.t) (true_count bankroll penetration : Q) :
  BettingConfig.flat_betting (BettingEngine._config e) = true →
  (BetLimits.table_min (BettingEngine._limits e) <= bankroll)%Q →
  BettingEngine.compute_bet e true_count bankroll penetration
  = Ok (BetLimits.table_min (BettingEngine._limits e)).
Proof.
  intros Hflat Hbank. unfold BettingEngine.compute_bet.
  apply Qlt_bool_false_iff in Hbank. by rewrite Hbank, Hflat.
Qed.

(** * Further properties of the sources *)

(** ** Hands *)

Lemma reduce_aces_spec tot n tot' m :
  Hand.reduce_aces tot n = (tot', m) →
  (m <= n)%nat
  ∧ tot' = tot - 10 * (Z.of_nat n - Z.of_nat m)
  ∧ ((0 < m)%nat → tot' <= 21)
  ∧ ((m < n)%nat → 21 < tot' + 10).
Proof.
  revert tot. induction n as [|n IH]; intros tot; cbn.
  - intros [= <- <-]. repeat split; lia.
  - destruct (21 <? tot) eqn:E.
    + intros H. apply IH in H as (H1 & H2 & H3 & H4).
      apply Z.ltb_lt in E. repeat split; lia.
    + intros [= <- <-]. apply Z.ltb_ge in E. repeat split; lia.
Qed.

Lemma value_low_value c :
  Card.value c = low_value c + (if Card.is_ace c then 10 else 0).
Proof. destruct c as [[] ?]; vm_compute; reflexivity. Qed.

Lemma value_sum_low_sum cs :
  foldr Z.add 0 (Card.value <$> cs) = low_sum cs + 10 * ace_count cs.
Proof.
  unfold low_sum, ace_count. induction cs as [|c cs IH]; [done|].
  cbn [fmap list_fmap foldr]. rewrite IH, filter_cons, (value_low_value c).
  destruct (Card.is_ace c); case_decide; try done; cbn [length]; lia.
Qed.

Lemma low_value_range c : 1 <= low_value c <= 10.
Proof. destruct c as [[] ?]; vm_compute; split; discriminate. Qed.

Lemma low_sum_app cs cs' : low_sum (cs ++ cs') = low_sum cs + low_sum cs'.
Proof.
  unfold low_sum. induction cs as [|c cs IH]; cbn; [done|].
  cbn in IH. rewrite IH. lia.
Qed.

Lemma low_sum_lower cs : Z.of_nat (length cs) <= low_sum cs.
Proof.
  unfold low_sum. induction cs as [|c cs IH]; cbn [fmap list_fmap foldr length]; [done|].
  pose proof (low_value_range c). lia.
Qed.

Lemma ace_count_app cs cs' : ace_count (cs ++ cs') = ace_count cs + ace_count cs'.
Proof. unfold ace_count. rewrite filter_app, length_app. lia. Qed.

(** From the constructor to the ace bookkeeping: [k] aces count as 11. *)
Lemma from_cards_spec cs h :
  Hand.from_cards cs = Ok h →
  ∃ k, 0 <= k <= ace_count cs
       ∧ Hand.total h = low_sum cs + 10 * k
       ∧ (0 < k → Hand.total h <= 21)
       ∧ (k < ace_count cs → 21 < Hand.total h + 10)
       ∧ Hand.is_soft h = (0 <? k)
       ∧ 2 <= Hand.total h <= 31.
Proof.
  intros Hfc. pose proof (from_cards_total_range _ _ Hfc) as Hrange.
  unfold Hand.from_cards in Hfc. destruct cs as [|c0 cs0]; [done|].
  set (cs := c0 :: cs0) in *.
  rewrite value_sum_low_sum in Hfc. unfold ace_count in *.
  set (n := length (filter (λ c : Card.t, Card.is_ace c = true) cs)) in *.
  destruct (Hand.reduce_aces _ n) as [tot m] eqn:E.
  apply reduce_aces_spec in E as (H1 & H2 & H3 & H4).
  unfold Hand.make in Hfc. destruct (_ || _); [done|]. injection Hfc as <-.
  cbn [Hand.total Hand.is_soft] in *. exists (Z.of_nat m).
  repeat split; try lia.
  destruct m as [|m]; [done|].
  rewrite bool_decide_eq_true_2 by lia.
  assert (tot <= 21) by lia.
  rewrite (proj2 (Z.leb_le _ _)) by done. symmetry. apply Z.ltb_lt. lia.
Qed.

(** X1. A hand built by [from_cards] keeps its cards, and its total is the
    sum with every ace as 1 plus 10 for each of [k] aces counted as 11,
    where [k] is as large as the hand allows without passing 21 (and 0 when
    the hand is bust); the hand is soft exactly when [k > 0], and it is a
    pair exactly when it has two cards of one rank. *)
Theorem X1_hand_total_counts_aces_high_while_safe (cs : list Card.t) (h : Hand.t) :
  Hand.from_cards cs = Ok h →
  Hand.cards h = cs
  ∧ (∃ k, 0 <= k <= ace_count cs
          ∧ Hand.total h = low_sum cs + 10 * k
          ∧ (0 < k → Hand.total h <= 21)
          ∧ (k < ace_count cs → 21 < Hand.total h + 10)
          ∧ (Hand.is_soft h = true ↔ 0 < k))
  ∧ (Hand.is_pair h = true
     ↔ ∃ c0 c1, cs = [c0; c1] ∧ Card.rank c0 = Card.rank c1).
Proof.
  intros Hfc. split; [by eapply from_cards_cards|]. split.
  - destruct (from_cards_spec _ _ Hfc) as (k & Hk & Ht & Hs & Hm & Hsoft & _).
    exists k. repeat split; try done; try lia.
    + rewrite Hsoft. apply Z.ltb_lt.
    + rewrite Hsoft. apply Z.ltb_lt.
  - split; [by eapply from_cards_pair|].
    intros (c0 & c1 & -> & Hr). unfold Hand.from_cards in Hfc.
    destruct (Hand.reduce_aces _ _) as [tot aces]. unfold Hand.make in Hfc.
    destruct (_ || _); [done|]. injection Hfc as <-. cbn.
    by apply bool_decide_eq_true.
Qed.

Lemma X1_hand_total_counts_aces_high_while_safe_witness :
  ∃ h, Hand.from_cards ace_ace_nine = Ok h
       ∧ Hand.total h = 21
       ∧ Hand.is_pair h = false
       ∧ ∃ k, Hand.total h = low_sum ace_ace_nine + 10 * k
              ∧ (Hand.is_soft h = true ↔ 0 < k).
Proof.
  eexists. split; [reflexivity|]. split; [reflexivity|]. split; [reflexivity|].
  destruct (X1_hand_total_counts_aces_high_while_safe ace_ace_nine _ eq_refl)
    as (_ & (k & _ & Ht & _ & _ & Hsoft) & _).
  exists k. split; [exact Ht | exact Hsoft].
Defined.

(** X2. Hitting a hand that is not bust never raises: [add_card] returns
    the hand of the old cards followed by the new one, and the total grows
    by at most the value of the new card. *)
Theorem X2_add_card_to_live_hand_returns (cs : list Card.t) (h : Hand.t) (c : Card.t) :
  Hand.from_cards cs = Ok h →
  Hand.total h <= 21 →
  ∃ h', Hand.add_card h c = Ok h'
        ∧ Hand.cards h' = cs ++ [c]
        ∧ Hand.total h' <= Hand.total h + Card.value c
        ∧ low_sum cs + low_value c <= Hand.total h'.
Proof.
  intros Hfc Hlive.
  destruct (from_cards_spec _ _ Hfc) as (k & Hk & Ht & Hs & Hm & _ & Hrange).
  pose proof (from_cards_cards _ _ Hfc) as Hcards.
  pose proof (low_value_range c) as Hlv.
  pose proof (low_sum_lower cs) as Hlow.
  assert (Hne : cs ≠ []) by (intros ->; done).
  assert (Hlen : 1 <= Z.of_nat (length cs)) by (destruct cs; [done | cbn; lia]).
  unfold Hand.add_card. rewrite Hcards.
  destruct (Hand.from_cards (cs ++ [c])) as [h'|e] eqn:E.
  - exists h'. split; [done|]. split; [by eapply from_cards_cards|].
    destruct (from_cards_spec _ _ E) as (k' & Hk' & Ht' & Hs' & Hm' & _ & _).
    rewrite low_sum_app, ace_count_app in *.
    assert (Hc1 : low_sum [c] = low_value c) by (unfold low_sum; cbn; lia).
    assert (Hc2 : ace_count [c] = if Card.is_ace c then 1 else 0).
    { unfold ace_count. rewrite filter_cons. destruct (Card.is_ace c); by case_decide. }
    rewrite Hc1, Hc2 in *. rewrite (value_low_value c).
    destruct (Card.is_ace c); lia.
  - exfalso. unfold Hand.from_cards in E.
    destruct (cs ++ [c]) as [|c0 cs0] eqn:Eapp; [by destruct cs|].
    rewrite <- Eapp in E. rewrite value_sum_low_sum in E.
    destruct (Hand.reduce_aces _ _) as [tot m] eqn:Er.
    apply reduce_aces_spec in Er as (H1 & H2 & H3 & H4).
    unfold Hand.make in E. destruct (_ || _) eqn:Eb; [|by destruct cs0].
    fold (ace_count (cs ++ [c])) in H1, H2, H4.
    rewrite low_sum_app in H2.
    assert (Hc1 : low_sum [c] = low_value c) by (unfold low_sum; cbn; lia).
    apply orb_true_iff in Eb as [Eb | Eb]; [apply Z.ltb_lt in Eb | apply Z.ltb_lt in Eb].
    + lia.
    + destruct m as [|m]; [|lia].
      assert (tot = low_sum cs + low_value c) by lia. lia.
Qed.

Lemma X2_add_card_to_live_hand_returns_witness :
  Hand.from_cards [Card.Build TEN SPADES; Card.Build SIX HEARTS] = Ok hard_16
  ∧ Hand.total hard_16 <= 21
  ∧ ∃ h', Hand.add_card hard_16 (Card.Build KING CLUBS) = Ok h'
          ∧ Hand.total h' <= Hand.total hard_16 + 10.
Proof.
  assert (Hfc : Hand.from_cards [Card.Build TEN SPADES; Card.Build SIX HEARTS]
                = Ok hard_16) by reflexivity.
  assert (Hlive : Hand.total hard_16 <= 21) by (vm_compute; discriminate).
  split; [exact Hfc|]. split; [exact Hlive|].
  destruct (X2_add_card_to_live_hand_returns _ hard_16 (Card.Build KING CLUBS) Hfc Hlive)
    as (h' & Hadd & _ & Hle & _).
  exists h'. split; [exact Hadd | exact Hle].
Defined.

(** X3. A hand built by [from_cards] is a natural blackjack exactly when it
    is an ace with a ten-valued card, in either order. *)
Theorem X3_blackjack_is_ace_with_ten_card (cs : list Card.t) (h : Hand.t) :
  Hand.from_cards cs = Ok h →
  (Hand.is_blackjack h = true
   ↔ ∃ c0 c1, cs = [c0; c1]
              ∧ ((Card.is_ace c0 = true ∧ Card.is_ten c1 = true)
                 ∨ (Card.is_ten c0 = true ∧ Card.is_ace c1 = true))).
Proof.
  intros Hfc. pose proof (from_cards_cards _ _ Hfc) as Hcards.
  unfold Hand.is_blackjack. rewrite Hcards. split.
  - intros H. apply andb_true_iff in H as [Hlen Htot].
    apply bool_decide_eq_true in Hlen. apply Z.eqb_eq in Htot.
    destruct cs as [|c0 [|c1 [|c2 cs]]]; try done.
    exists c0, c1. split; [done|].
    destruct c0 as [[] s0], c1 as [[] s1]; vm_compute in Hfc;
      injection Hfc as <-; cbn in Htot; try discriminate Htot;
      vm_compute; auto.
  - intros (c0 & c1 & -> & Hor).
    destruct c0 as [[] s0], c1 as [[] s1];
      vm_compute in Hor; destruct Hor as [[? ?] | [? ?]]; try discriminate;
      vm_compute in Hfc; injection Hfc as <-; reflexivity.
Qed.

Lemma X3_blackjack_is_ace_with_ten_card_witness :
  ∃ h, Hand.from_cards [Card.Build ACE SPADES; Card.Build KING HEARTS] = Ok h
       ∧ Hand.is_blackjack h = true.
Proof.
  eexists. split; [reflexivity|].
  apply (X3_blackjack_is_ace_with_ten_card
           [Card.Build ACE SPADES; Card.Build KING HEARTS] _ eq_refl).
  exists (Card.Build ACE SPADES), (Card.Build KING HEARTS).
  split; [reflexivity|]. left. split; reflexivity.
Defined.

Lemma upper_ascii_idemp c : upper_ascii (upper_ascii c) = upper_ascii c.
Proof. destruct c as [[] [] [] [] [] [] [] []]; reflexivity. Qed.

Lemma upper_idemp s : upper (upper s) = upper s.
Proof. induction s as [|c s IH]; cbn; [done|]. by rewrite upper_ascii_idemp, IH. Qed.

(** X4. [Card.from_string] accepts exactly the rank symbols and the
    two-character spelling of the ten, in either letter case, and raises
    [ValueError] on every other string: it returns the card of rank [r] and
    the given suit exactly when the upper-cased string is the symbol of [r]
    (or "10" for the ten). *)
Theorem X4_card_from_string_reads_rank_symbols (s : string) (suit : Suit) :
  (∀ c, CardOps.from_string s suit = Ok c
        ↔ Card.suit c = suit
          ∧ (upper s = Rank_.symbol (Card.rank c)
             ∨ (upper s = "10" ∧ Card.rank c = TEN)))
  ∧ (∀ e, CardOps.from_string s suit = Raise e → e = ValueError)
  ∧ CardOps.from_string (upper s) suit = CardOps.from_string s suit
  ∧ (∀ r, CardOps.from_string (Rank_.symbol r) suit = Ok (Card.Build r suit)).
Proof.
  split; [|split; [|split]].
  - intros c. unfold CardOps.from_string. split.
    + destruct (CardOps.rank_map !! upper s) as [r|] eqn:E; [|done].
      intros [= <-]. split; [done|]. cbn.
      apply elem_of_list_to_map_2 in E.
      repeat (apply elem_of_cons in E as [E | E];
              [injection E as -> ->; auto|]).
      by apply elem_of_nil in E.
    + intros [<- [Hs | [Hs Hr]]]; rewrite Hs; destruct c as [r su]; cbn in *.
      * by destruct r.
      * by subst r.
  - intros e. unfold CardOps.from_string.
    destruct (CardOps.rank_map !! upper s); [done|]. by intros [= <-].
  - unfold CardOps.from_string. by rewrite upper_idemp.
  - intros r. by destruct r.
Qed.

(** ** Table keys *)

Lemma dealer_value_is_card_value c : dealer_value_of c = Card.value c.
Proof. by destruct c as [[] ?]. Qed.

Lemma card_value_range c : 2 <= Card.value c <= 11.
Proof. destruct c as [[] ?]; vm_compute; split; discriminate. Qed.

Lemma pretty_N_char_not_colon n : pretty_N_char n ≠ ":"%char.
Proof. unfold pretty_N_char. by repeat case_match. Qed.

Lemma has_colon_pretty_Z (x : Z) : has_char ":" (pretty x) = false.
Proof.
  assert (HN : ∀ n : N, has_char ":" (pretty n) = false).
  { intros n. unfold pretty, pretty_N. case_decide; [done|].
    apply has_char_pretty_N_go; [done | apply pretty_N_char_not_colon]. }
  unfold pretty, pretty_Z. destruct x as [|p|p]; [done| |].
  - apply (HN (N.pos p)).
  - cbn. apply (HN (N.pos p)).
Qed.

Lemma has_colon_pad2 (x : Z) : has_char ":" (pad2 x) = false.
Proof.
  unfold pad2. destruct (_ <? _)%nat; [cbn|]; apply has_colon_pretty_Z.
Qed.

Lemma small_value_cases (a : Z) :
  2 <= a <= 11 →
  a = 2 ∨ a = 3 ∨ a = 4 ∨ a = 5 ∨ a = 6 ∨ a = 7 ∨ a = 8 ∨ a = 9 ∨ a = 10 ∨ a = 11.
Proof. lia. Qed.

(** Padded or not, the decimal forms of two card values agree only for
    equal values. *)
Lemma value_forms_inj (a b : Z) :
  2 <= a <= 11 → 2 <= b <= 11 →
  pad2 a = pad2 b ∨ pad2 a = pretty b ∨ pretty a = pad2 b ∨ pretty a = pretty b →
  a = b.
Proof.
  intros Ha Hb H.
  apply small_value_cases in Ha. apply small_value_cases in Hb.
  repeat (destruct Ha as [-> | Ha]); try subst a;
    repeat (destruct Hb as [-> | Hb]); try subst b;
    try reflexivity;
    vm_compute in H; exfalso;
    repeat (destruct H as [H | H]; [discriminate H|]); discriminate H.
Qed.

Lemma key_parts_inj ht V D ht' V' D' :
  has_char ":" V = false → has_char ":" V' = false →
  HandType_.value ht +:+ "_" +:+ V +:+ ":" +:+ D
  = HandType_.value ht' +:+ "_" +:+ V' +:+ ":" +:+ D' →
  ht = ht' ∧ V = V' ∧ D = D'.
Proof.
  intros HV HV' H.
  assert (Hty : ht = ht' ∧ V +:+ String ":" D = V' +:+ String ":" D').
  { destruct ht, ht'; cbn in H; by simplify_eq. }
  destruct Hty as [-> Hrest]. split; [done|].
  by apply append_sep_inj in Hrest.
Qed.

Lemma pair_value_range cs h v :
  Hand.from_cards cs = Ok h → Hand.pair_value h = Ok v → 2 <= v <= 11.
Proof.
  intros Hfc. unfold Hand.pair_value.
  destruct (negb _); [done|]. destruct (Hand.cards h) as [|c ?]; [done|].
  case_bool_decide; intros [= <-]; [lia|]. apply (card_value_range c).
Qed.

(** The two key formats of a hand, read as (type, value form, dealer form). *)
Lemma generate_key_parts cs h d k :
  Hand.from_cards cs = Ok h →
  StrategyLookup._generate_key h d = Ok k
  ∨ StrategyLookup._generate_alt_key h d = Ok k →
  ∃ v V D, DeviationEngine.classify h = Ok (Hand.hand_type h, v)
    ∧ k = HandType_.value (Hand.hand_type h) +:+ "_" +:+ V +:+ ":" +:+ D
    ∧ (V = pretty v ∨ (V = pad2 v ∧ Hand.hand_type h = PAIR))
    ∧ (Hand.hand_type h = PAIR → 2 <= v <= 11)
    ∧ (D = pretty (dealer_value_of d) ∨ D = pad2 (dealer_value_of d)).
Proof.
  intros Hfc Hk.
  unfold StrategyLookup._generate_key, StrategyLookup._generate_alt_key in Hk.
  unfold DeviationEngine.classify, Hand.hand_type in *.
  destruct (Hand.is_pair h) eqn:Hp.
  - destruct (Hand.pair_value h) as [v|e] eqn:Hv; cbn in Hk; [|by destruct Hk].
    pose proof (pair_value_range _ _ _ Hfc Hv) as Hr.
    exists v. destruct Hk as [[= <-] | [= <-]].
    + exists (pad2 v), (pad2 (dealer_value_of d)). cbn. auto 10.
    + exists (pretty v), (pretty (dealer_value_of d)). cbn. auto 10.
  - destruct (Hand.is_soft h); exists (Hand.total h);
      (destruct Hk as [[= <-] | [= <-]];
       [ exists (pretty (Hand.total h)), (pad2 (dealer_value_of d))
       | exists (pretty (Hand.total h)), (pretty (dealer_value_of d)) ]);
      cbn; repeat split; auto; discriminate.
Qed.

(** X5. The keys of the strategy table identify the situation.  Whenever a
    key of one hand (primary or alternative format) equals a key of another,
    the two hands have the same classification (type and value) and face
    the same dealer value; and [Hand.lookup_key] is the primary key the
    lookup queries first. *)
Theorem X5_table_keys_identify_the_situation
    (cs cs' : list Card.t) (h h' : Hand.t) (d d' : Card.t) (k : string) :
  Hand.from_cards cs = Ok h →
  Hand.from_cards cs' = Ok h' →
  StrategyLookup._generate_key h d = Ok k
  ∨ StrategyLookup._generate_alt_key h d = Ok k →
  StrategyLookup._generate_key h' d' = Ok k
  ∨ StrategyLookup._generate_alt_key h' d' = Ok k →
  DeviationEngine.classify h = DeviationEngine.classify h'
  ∧ Card.value d = Card.value d'
  ∧ HandOps.lookup_key h d = StrategyLookup._generate_key h d.
Proof.
  intros Hfc Hfc' Hk Hk'. split; [|split].
  - destruct (generate_key_parts _ _ _ _ Hfc Hk) as (v & V & D & Hcl & -> & HV & Hr & _).
    destruct (generate_key_parts _ _ _ _ Hfc' Hk')
      as (v' & V' & D' & Hcl' & Heq & HV' & Hr' & _).
    rewrite Hcl, Hcl'.
    apply key_parts_inj in Heq as (Hty & HVeq & _).
    + rewrite Hty in *. do 2 f_equal.
      destruct HV as [-> | [-> Hpair]], HV' as [-> | [-> Hpair']].
      * by apply (inj pretty).
      * apply value_forms_inj; auto.
      * apply value_forms_inj; auto.
      * apply value_forms_inj; auto.
    + destruct HV as [-> | [-> _]]; [apply has_colon_pretty_Z | apply has_colon_pad2].
    + destruct HV' as [-> | [-> _]]; [apply has_colon_pretty_Z | apply has_colon_pad2].
  - destruct (generate_key_parts _ _ _ _ Hfc Hk) as (v & V & D & _ & -> & HV & _ & HD).
    destruct (generate_key_parts _ _ _ _ Hfc' Hk')
      as (v' & V' & D' & _ & Heq & HV' & _ & HD').
    apply key_parts_inj in Heq as (_ & _ & HDeq).
    + rewrite <- !dealer_value_is_card_value.
      pose proof (card_value_range d) as Hd. pose proof (card_value_range d') as Hd'.
      rewrite <- dealer_value_is_card_value in Hd, Hd'.
      destruct HD as [-> | ->], HD' as [-> | ->]; apply value_forms_inj; auto.
    + destruct HV as [-> | [-> _]]; [apply has_colon_pretty_Z | apply has_colon_pad2].
    + destruct HV' as [-> | [-> _]]; [apply has_colon_pretty_Z | apply has_colon_pad2].
  - unfold HandOps.lookup_key, StrategyLookup._generate_key.
    destruct (Hand.is_pair h); [|done].
    by destruct (Hand.pair_value h).
Qed.

Lemma X5_table_keys_identify_the_situation_witness :
  DeviationEngine.classify hard_16
  = DeviationEngine.classify
      (Hand.Build [Card.Build NINE CLUBS; Card.Build SEVEN DIAMONDS] false false 16)
  ∧ Card.value (Card.Build KING SPADES) = Card.value (Card.Build TEN HEARTS)
  ∧ HandOps.lookup_key hard_16 (Card.Build KING SPADES) = Ok "H_16:10".
Proof.
  destruct (X5_table_keys_identify_the_situation
              [Card.Build TEN SPADES; Card.Build SIX HEARTS]
              [Card.Build NINE CLUBS; Card.Build SEVEN DIAMONDS]
              hard_16
              (Hand.Build [Card.Build NINE CLUBS; Card.Build SEVEN DIAMONDS] false false 16)
              (Card.Build KING SPADES) (Card.Build TEN HEARTS) "H_16:10"
              eq_refl eq_refl (or_introl eq_refl) (or_intror eq_refl))
    as (Hcl & Hd & Hkey).
  split; [exact Hcl|]. split; [exact Hd|]. rewrite Hkey. reflexivity.
Defined.

(** ** The state manager: order, balance, bounds *)

Lemma observe_observed_cards s cs :
  StateManager._observed_cards (StateManager.observe s cs)
  = StateManager._observed_cards s ++ cs.
Proof.
  revert s. induction cs as [|c cs IH]; intros s.
  - cbn. by rewrite app_nil_r.
  - cbn [StateManager.observe foldl].
    change (foldl StateManager.observe_card (StateManager.observe_card s c) cs)
      with (StateManager.observe (StateManager.observe_card s c) cs).
    rewrite IH. cbn. by rewrite <- app_assoc.
Qed.

Lemma hilo_sum_app cs cs' : hilo_sum (cs ++ cs') = hilo_sum cs + hilo_sum cs'.
Proof.
  unfold hilo_sum. induction cs as [|c cs IH]; cbn; [done|]. rewrite IH. lia.
Qed.

Lemma hilo_sum_perm cs cs' : cs ≡ₚ cs' → hilo_sum cs = hilo_sum cs'.
Proof.
  unfold hilo_sum. induction 1; cbn; lia.
Qed.

Lemma count_value_perm v cs cs' : cs ≡ₚ cs' → count_value v cs = count_value v cs'.
Proof. intros H. unfold count_value. by rewrite H. Qed.

Lemma count_value_app v cs cs' :
  count_value v (cs ++ cs') = count_value v cs + count_value v cs'.
Proof. unfold count_value. rewrite filter_app, length_app. lia. Qed.

Lemma count_value_cons v c cs :
  count_value v (c :: cs) = (if bool_decide (Card.value c = v) then 1 else 0)
                            + count_value v cs.
Proof.
  unfold count_value. rewrite filter_cons.
  case_bool_decide; case_decide; try done; cbn [length]; lia.
Qed.

Lemma count_value_out_of_range v cs : ¬ (2 <= v <= 11) → count_value v cs = 0.
Proof.
  intros Hv. induction cs as [|c cs IH]; [done|].
  rewrite count_value_cons, IH. pose proof (card_value_range c).
  rewrite bool_decide_eq_false_2 by lia. done.
Qed.

(** The [Counter] holds, for each value, the number of cards seen with it. *)
Lemma observed_counts_fold (m : gmap Z Z) cs v :
  default 0
    (foldl (fun m card => <[Card.value card := default 0 (m !! Card.value card) + 1]> m)
           m cs !! v)
  = default 0 (m !! v) + count_value v cs.
Proof.
  revert m. induction cs as [|c cs IH]; intros m.
  - cbn. unfold count_value. cbn. lia.
  - cbn [foldl]. rewrite IH, count_value_cons.
    case_bool_decide as Hv.
    + rewrite Hv, lookup_insert_eq. cbn. lia.
    + rewrite lookup_insert_ne by done. lia.
Qed.

Lemma observed_counts_lookup cs v :
  default 0 (StateManagerOps.observed_counts cs !! v) = count_value v cs.
Proof.
  unfold StateManagerOps.observed_counts. rewrite observed_counts_fold.
  rewrite lookup_empty. cbn. lia.
Qed.

(** The table of remaining cards, entry by entry. *)
Lemma remaining_by_rank_lookup s v :
  StateManagerOps.get_remaining_by_rank s !! v
  = if bool_decide (2 <= v <= 9 ∨ v = 11)
    then Some (4 * GameRules.num_decks (StateManager._rules s)
               - count_value v (StateManager._observed_cards s))
    else if bool_decide (v = 10)
    then Some (16 * GameRules.num_decks (StateManager._rules s)
               - count_value v (StateManager._observed_cards s))
    else None.
Proof.
  unfold StateManagerOps.get_remaining_by_rank. cbn [foldl].
  rewrite !lookup_insert, lookup_empty.
  repeat case_decide; subst;
    repeat (first [ rewrite bool_decide_eq_true_2 by lia
                  | rewrite bool_decide_eq_false_2 by lia ]);
    try (exfalso; lia);
    rewrite ?observed_counts_lookup; reflexivity.
Qed.

(** X6. The count does not depend on the order in which cards were seen:
    observing a permutation of the same cards gives the same snapshot
    ([get_metrics]), the same table of remaining cards and the same
    shuffle signal. *)
Theorem X6_count_ignores_observation_order
    (s : StateManager.t) (cs cs' : list Card.t) :
  cs ≡ₚ cs' →
  StateManager.get_metrics (StateManager.observe s cs)
  = StateManager.get_metrics (StateManager.observe s cs')
  ∧ StateManagerOps.get_remaining_by_rank (StateManager.observe s cs)
    = StateManagerOps.get_remaining_by_rank (StateManager.observe s cs')
  ∧ StateManagerOps.is_shuffle_due (StateManager.observe s cs)
    = StateManagerOps.is_shuffle_due (StateManager.observe s cs').
Proof.
  intros Hperm.
  assert (Hrc : StateManager._running_count (StateManager.observe s cs)
                = StateManager._running_count (StateManager.observe s cs')).
  { by rewrite !observe_running_count, (hilo_sum_perm _ _ Hperm). }
  assert (Hseen : StateManager._cards_seen (StateManager.observe s cs)
                  = StateManager._cards_seen (StateManager.observe s cs')).
  { by rewrite !observe_cards_seen, (Permutation_length Hperm). }
  assert (Hrules : StateManager._rules (StateManager.observe s cs)
                   = StateManager._rules (StateManager.observe s cs')).
  { by rewrite !observe_rules. }
  split; [|split].
  - unfold StateManager.get_metrics, StateManager._calculate_decks_remaining,
      StateManager._calculate_true_count.
    by rewrite Hrc, Hseen, Hrules.
  - apply map_eq. intros v. rewrite !remaining_by_rank_lookup.
    rewrite Hrules, !observe_observed_cards, !count_value_app.
    by rewrite (count_value_perm v _ _ Hperm).
  - unfold StateManagerOps.is_shuffle_due. by rewrite Hseen, Hrules.
Qed.

Lemma X6_count_ignores_observation_order_witness :
  StateManager.get_metrics
    (StateManager.observe (StateManager.init GameRules.default)
       [Card.Build TWO HEARTS; Card.Build KING CLUBS])
  = StateManager.get_metrics
      (StateManager.observe (StateManager.init GameRules.default)
         [Card.Build KING CLUBS; Card.Build TWO HEARTS]).
Proof.
  apply (X6_count_ignores_observation_order (StateManager.init GameRules.default)
           [Card.Build TWO HEARTS; Card.Build KING CLUBS]
           [Card.Build KING CLUBS; Card.Build TWO HEARTS]).
  apply Permutation_swap.
Defined.

Lemma hilo_sum_mjoin_replicate k deck :
  hilo_sum (mjoin (replicate k deck)) = Z.of_nat k * hilo_sum deck.
Proof.
  induction k as [|k IH]; [done|].
  change (mjoin (replicate (S k) deck)) with (deck ++ mjoin (replicate k deck)).
  rewrite hilo_sum_app, IH. lia.
Qed.

Lemma count_value_mjoin_replicate v k deck :
  count_value v (mjoin (replicate k deck)) = Z.of_nat k * count_value v deck.
Proof.
  induction k as [|k IH]; [done|].
  change (mjoin (replicate (S k) deck)) with (deck ++ mjoin (replicate k deck)).
  rewrite count_value_app, IH. lia.
Qed.

Lemma length_mjoin_replicate {A} k (deck : list A) :
  length (mjoin (replicate k deck)) = (k * length deck)%nat.
Proof.
  induction k as [|k IH]; [done|].
  change (mjoin (replicate (S k) deck)) with (deck ++ mjoin (replicate k deck)).
  rewrite length_app, IH. lia.
Qed.

(** X7. Hi-Lo is a balanced count over the shoe the simulator builds: a
    shoe of [n] decks holds [52 n] cards, [4 n] of each value 2..9 and of
    the ace and [16 n] ten-valued ones, and once all of it has been
    observed, in any order, the running count is back at zero and no card
    is left in the table of remaining cards. *)
Theorem X7_whole_shoe_counts_to_zero
    (rules : GameRules.t) (n : Z) (cs : list Card.t) :
  0 <= n →
  cs ≡ₚ fresh_cards n →
  let s := StateManager.observe (StateManager.init rules) cs in
  Z.of_nat (length cs) = 52 * n
  ∧ (∀ v, count_value v cs
          = if bool_decide (2 <= v <= 9 ∨ v = 11) then 4 * n
            else if bool_decide (v = 10) then 16 * n else 0)
  ∧ StateManager._running_count s = 0
  ∧ StateManager._cards_seen s = 52 * n
  ∧ (GameRules.num_decks rules = n →
     ∀ v, 2 <= v <= 11 → StateManagerOps.get_remaining_by_rank s !! v = Some 0).
Proof.
  intros Hn Hperm s.
  assert (Hlen : Z.of_nat (length cs) = 52 * n).
  { rewrite (Permutation_length Hperm). unfold fresh_cards.
    rewrite length_mjoin_replicate. cbn [length]. cbn. lia. }
  assert (Hcount : ∀ v, count_value v cs
            = if bool_decide (2 <= v <= 9 ∨ v = 11) then 4 * n
              else if bool_decide (v = 10) then 16 * n else 0).
  { intros v. rewrite (count_value_perm v _ _ Hperm). unfold fresh_cards.
    rewrite count_value_mjoin_replicate. rewrite Z2Nat.id by done.
    set (deck := _ ≫= _).
    assert (Hdeck : count_value v deck
              = if bool_decide (2 <= v <= 9 ∨ v = 11) then 4
                else if bool_decide (v = 10) then 16 else 0).
    { destruct (decide (2 <= v <= 11)) as [Hv | Hv].
      - assert (v = 2 ∨ v = 3 ∨ v = 4 ∨ v = 5 ∨ v = 6 ∨ v = 7 ∨ v = 8 ∨ v = 9
                ∨ v = 10 ∨ v = 11) as Hc by lia.
        repeat (destruct Hc as [-> | Hc]); try subst v; vm_compute; reflexivity.
      - rewrite bool_decide_eq_false_2 by lia. rewrite bool_decide_eq_false_2 by lia.
        by apply count_value_out_of_range. }
    rewrite Hdeck. repeat case_bool_decide; lia. }
  split; [done|]. split; [done|]. split; [|split].
  - unfold s. rewrite observe_running_count, (hilo_sum_perm _ _ Hperm).
    unfold fresh_cards. rewrite hilo_sum_mjoin_replicate.
    set (deck := _ ≫= _).
    assert (Hdeck : hilo_sum deck = 0) by (vm_compute; reflexivity).
    rewrite Hdeck. cbn. lia.
  - unfold s. rewrite observe_cards_seen. cbn. lia.
  - intros Hdecks v Hv. rewrite remaining_by_rank_lookup.
    unfold s. rewrite observe_rules, observe_observed_cards. cbn [StateManager.init
      StateManager._rules StateManager._observed_cards app].
    rewrite Hdecks, Hcount.
    repeat case_bool_decide; try (f_equal; lia).
Qed.

Lemma X7_whole_shoe_counts_to_zero_witness :
  StateManager._running_count
    (StateManager.observe (StateManager.init single_deck_rules) (fresh_cards 1)) = 0
  ∧ Z.of_nat (length (fresh_cards 1)) = 52.
Proof.
  assert (Hn : 0 <= 1) by lia.
  destruct (X7_whole_shoe_counts_to_zero single_deck_rules 1 (fresh_cards 1) Hn
              (Permutation_refl _)) as (Hlen & _ & Hrc & _).
  split; [exact Hrc | exact Hlen].
Defined.

(** X8. The snapshot raises only for a deck size of zero
    ([ZeroDivisionError]); otherwise it is returned with at least half a
    deck remaining, so the true count has the sign of the running count and
    is at most twice it in absolute value, and at most the running count
    itself while a deck or more remains. *)
Theorem X8_true_count_bounded_by_running_count (s : StateManager.t) :
  (GameRules.cards_per_deck (StateManager._rules s) = 0 →
   StateManager.get_metrics s = Raise ZeroDivisionError)
  ∧ (GameRules.cards_per_deck (StateManager._rules s) ≠ 0 →
     ∃ g, StateManager.get_metrics s = Ok g
          ∧ StateManagerOps.true_count s = Ok (GameState.true_count g)
          ∧ GameState.running_count g = StateManager._running_count s
          ∧ GameState.cards_remaining g = StateManagerOps.cards_remaining s
          ∧ (1 # 2 <= GameState.decks_remaining g)%Q
          ∧ (- inject_Z (2 * Z.abs (StateManager._running_count s))
             <= GameState.true_count g
             <= inject_Z (2 * Z.abs (StateManager._running_count s)))%Q
          ∧ ((1 <= GameState.decks_remaining g)%Q →
             (- inject_Z (Z.abs (StateManager._running_count s))
              <= GameState.true_count g
              <= inject_Z (Z.abs (StateManager._running_count s)))%Q)
          ∧ ((0 < GameState.true_count g)%Q ↔ 0 < StateManager._running_count s)
          ∧ ((GameState.true_count g < 0)%Q ↔ StateManager._running_count s < 0)).
Proof.
  split.
  - intros H0. unfold StateManager.get_metrics, StateManager._calculate_decks_remaining.
    rewrite H0. reflexivity.
  - intros Hcpd.
    unfold StateManager.get_metrics, StateManagerOps.true_count,
      StateManager._calculate_decks_remaining.
    destruct (GameRules.cards_per_deck (StateManager._rules s) =? 0) eqn:E;
      [apply Z.eqb_eq in E; done|].
    cbn [mbind result_bind].
    set (decks := Qmax (1 # 2) _).
    assert (Hdecks : (1 # 2 <= decks)%Q) by apply Q.le_max_l.
    unfold StateManager._calculate_true_count.
    destruct (Qeq_bool decks 0) eqn:E0.
    { apply Qeq_bool_iff in E0. rewrite E0 in Hdecks. done. }
    cbn [mbind result_bind]. eexists. split; [reflexivity|].
    cbn [GameState.true_count GameState.running_count GameState.cards_remaining
         GameState.decks_remaining].
    set (rc := StateManager._running_count s).
    assert (Hmul : (inject_Z rc / decks * decks == inject_Z rc)%Q).
    { field. lra. }
    set (tc := (inject_Z rc / decks)%Q) in *.
    assert (Habs : (inject_Z (2 * Z.abs rc) == 2 * inject_Z (Z.abs rc))%Q).
    { rewrite inject_Z_mult. reflexivity. }
    assert (Hrc : (0 <= rc ∧ Z.abs rc = rc) ∨ (rc < 0 ∧ Z.abs rc = - rc)) by lia.
    assert (Hpos : (0 < tc)%Q ↔ 0 < rc).
    { split.
      - intros Htc. apply Z.lt_nge. intros Hle.
        assert (inject_Z rc <= 0)%Q by (rewrite Zle_Qle in Hle; exact Hle). nra.
      - intros Hlt. assert (0 < inject_Z rc)%Q by (rewrite Zlt_Qlt in Hlt; exact Hlt).
        nra. }
    assert (Hneg : (tc < 0)%Q ↔ rc < 0).
    { split.
      - intros Htc. apply Z.lt_nge. intros Hle.
        assert (0 <= inject_Z rc)%Q by (rewrite Zle_Qle in Hle; exact Hle). nra.
      - intros Hlt. assert (inject_Z rc < 0)%Q by (rewrite Zlt_Qlt in Hlt; exact Hlt).
        nra. }
    assert (Hsgn : (0 <= inject_Z rc ∧ inject_Z (Z.abs rc) == inject_Z rc)%Q
                   ∨ (inject_Z rc < 0 ∧ inject_Z (Z.abs rc) == - inject_Z rc)%Q).
    { destruct Hrc as [[Hge ->] | [Hlt ->]].
      - left. split; [|reflexivity]. rewrite Zle_Qle in Hge. exact Hge.
      - right. split; [|by rewrite inject_Z_opp]. rewrite Zlt_Qlt in Hlt. exact Hlt. }
    split; [done|]. split; [done|]. split; [done|]. split; [done|].
    split; [|split; [|split; [exact Hpos | exact Hneg]]].
    + rewrite Habs. destruct Hsgn as [[Hge ->] | [Hlt ->]]; split; nra.
    + intros Hone. destruct Hsgn as [[Hge ->] | [Hlt ->]]; split; nra.
Qed.

Lemma count_value_sum cs :
  foldr Z.add 0 ((fun v => count_value v cs) <$> [2; 3; 4; 5; 6; 7; 8; 9; 10; 11])
  = Z.of_nat (length cs).
Proof.
  induction cs as [|c cs IH]; [done|].
  cbn [fmap list_fmap foldr] in *. rewrite !count_value_cons.
  pose proof (card_value_range c) as Hc.
  assert (Hcases : Card.value c = 2 ∨ Card.value c = 3 ∨ Card.value c = 4
                   ∨ Card.value c = 5 ∨ Card.value c = 6 ∨ Card.value c = 7
                   ∨ Card.value c = 8 ∨ Card.value c = 9 ∨ Card.value c = 10
                   ∨ Card.value c = 11) by lia.
  cbn [length]. revert Hcases. generalize (Card.value c). intros x Hcases.
  repeat (destruct Hcases as [-> | Hcases]); try subst x;
    repeat (case_bool_decide; try lia).
Qed.

(** X9. The table of remaining cards accounts for a full shoe less the
    cards observed since the last reset: its entries add up to
    [52 * num_decks] minus the number of observed cards.  Cards burned
    unseen at a late entry are not taken out of it, so with 52-card decks
    it exceeds [cards_remaining] by exactly the burn count. *)
Theorem X9_remaining_table_accounts_for_observed_cards
    (s : StateManager.t) (k : Z) (cs : list Card.t) :
  let s' := StateManager.observe (StateManager.reset s None k) cs in
  rank_table_total (StateManagerOps.get_remaining_by_rank s')
  = 52 * GameRules.num_decks (StateManager._rules s) - Z.of_nat (length cs)
  ∧ (GameRules.cards_per_deck (StateManager._rules s) = 52 →
     rank_table_total (StateManagerOps.get_remaining_by_rank s')
     = StateManagerOps.cards_remaining s' + k).
Proof.
  intros s'.
  assert (Hobs : StateManager._observed_cards s' = cs).
  { unfold s'. by rewrite observe_observed_cards. }
  assert (Hrules : StateManager._rules s' = StateManager._rules s).
  { unfold s'. by rewrite observe_rules. }
  assert (Hsum : rank_table_total (StateManagerOps.get_remaining_by_rank s')
    = 52 * GameRules.num_decks (StateManager._rules s) - Z.of_nat (length cs)).
  { rewrite <- (count_value_sum cs). unfold rank_table_total.
    cbn [fmap list_fmap foldr]. rewrite !remaining_by_rank_lookup, Hobs, Hrules.
    repeat (first [ rewrite bool_decide_eq_true_2 by lia
                  | rewrite bool_decide_eq_false_2 by lia ]).
    cbn [default]. unfold id. lia. }
  split; [done|].
  intros Hcpd. rewrite Hsum. unfold StateManagerOps.cards_remaining.
  rewrite Hrules. unfold s'. rewrite observe_cards_seen.
  unfold GameRules.total_cards. rewrite Hcpd. cbn. lia.
Qed.

(** X10. The two cut-card tests agree in one direction: when the shoe's
    penetration test asks for a shuffle, a state manager that has counted
    the same cards of the same shoe reports the shuffle as due.  (The
    manager compares with the truncated cut position, so it may report it
    one card earlier.) *)
Theorem X10_shoe_shuffle_implies_shuffle_due (shoe : Shoe) (s : StateManager.t) :
  0 < shoe_total_cards shoe →
  GameRules.total_cards (StateManager._rules s) = shoe_total_cards shoe →
  StateManager._cards_seen s = shoe_dealt_index shoe →
  shoe_needs_shuffle shoe (GameRules.penetration (StateManager._rules s)) = true →
  StateManagerOps.is_shuffle_due s = true.
Proof.
  intros Hpos Htot Hseen Hneed.
  unfold shoe_needs_shuffle, shoe_penetration in Hneed.
  destruct (shoe_total_cards shoe =? 0) eqn:E; [apply Z.eqb_eq in E; lia|].
  apply Qle_bool_iff in Hneed.
  unfold StateManagerOps.is_shuffle_due, StateManagerOps.cut_card_position.
  rewrite Htot, Hseen. apply Z.geb_le.
  set (p := GameRules.penetration (StateManager._rules s)) in *.
  set (T := shoe_total_cards shoe) in *. set (i := shoe_dealt_index shoe) in *.
  assert (HT : (0 < inject_Z T)%Q) by (rewrite Zlt_Qlt in Hpos; exact Hpos).
  assert (Hx : (inject_Z T * p <= inject_Z i)%Q).
  { assert (Hdiv : (inject_Z i / inject_Z T * inject_Z T == inject_Z i)%Q)
      by (field; lra).
    nra. }
  unfold py_int. destruct (Qle_bool 0 _).
  - apply Qfloor_resp_le in Hx. by rewrite Qfloor_Z in Hx.
  - apply Qceiling_resp_le in Hx. by rewrite Qceiling_Z in Hx.
Qed.

Lemma X10_shoe_shuffle_implies_shuffle_due_witness :
  StateManagerOps.is_shuffle_due
    (StateManager.reset (StateManager.init single_deck_rules) None 39) = true.
Proof.
  apply (X10_shoe_shuffle_implies_shuffle_due
           (shoe_burn_cards (shoe_init unshuffled 1) 39)
           (StateManager.reset (StateManager.init single_deck_rules) None 39)).
  - vm_compute. reflexivity.
  - vm_compute. reflexivity.
  - vm_compute. reflexivity.
  - vm_compute. reflexivity.
Defined.

(** ** The exact (effect-of-removal) estimator *)

(** X11. On a shoe of which nothing has been seen the exact estimator sees
    a neutral composition: fed with the state manager's table of remaining
    cards and its [cards_remaining], it returns minus the baseline edge. *)
Theorem X11_exact_estimate_is_baseline_on_unseen_shoe (rules : GameRules.t) :
  0 < GameRules.num_decks rules →
  GameRules.cards_per_deck rules = 52 →
  let s := StateManager.init rules in
  let e := ExactCountEstimator.make (Some rules) (GameRules.num_decks rules) in
  ∃ a, ExactCountEstimator.estimate_advantage e
         (StateManagerOps.get_remaining_by_rank s) (StateManagerOps.cards_remaining s)
       = Ok a
       ∧ (a == - ExactCountEstimator._calculate_baseline_edge rules)%Q.
Proof.
  intros Hn Hcpd s e.
  set (n := GameRules.num_decks rules) in *.
  assert (Hrem : StateManagerOps.cards_remaining s = 52 * n).
  { unfold StateManagerOps.cards_remaining, GameRules.total_cards. cbn.
    fold n. rewrite Hcpd. lia. }
  assert (HnQ : (0 < inject_Z n)%Q) by (rewrite Zlt_Qlt in Hn; exact Hn).
  assert (H52 : (inject_Z (52 * n) == 52 * inject_Z n)%Q)
    by (rewrite inject_Z_mult; reflexivity).
  unfold ExactCountEstimator.estimate_advantage. rewrite Hrem.
  destruct (52 * n <=? 0) eqn:E; [apply Z.leb_le in E; lia|].
  cbn [ExactCountEstimator.make e ExactCountEstimator._total_cards
       ExactCountEstimator._expected_per_rank ExactCountEstimator._expected_tens
       ExactCountEstimator._baseline_edge].
  unfold py_div.
  destruct (Qeq_bool (inject_Z (52 * n)) 0) eqn:E0.
  { apply Qeq_bool_iff in E0. rewrite H52 in E0. lra. }
  cbn [mbind result_bind foldl]. eexists. split; [reflexivity|].
  rewrite !remaining_by_rank_lookup.
  repeat (first [ rewrite bool_decide_eq_true_2 by lia
                | rewrite bool_decide_eq_false_2 by lia ]).
  cbn [default s StateManager.init StateManager._rules StateManager._observed_cards].
  fold n. unfold count_value. cbn [filter list_filter length Z.of_nat].
  rewrite !Z.sub_0_r.
  assert (H4 : (inject_Z (4 * n) == 4 * inject_Z n)%Q)
    by (rewrite inject_Z_mult; reflexivity).
  assert (H16 : (inject_Z (16 * n) == 16 * inject_Z n)%Q)
    by (rewrite inject_Z_mult; reflexivity).
  change (EffectOfRemoval.get_eor 2) with (38 # 100)%Q.
  change (EffectOfRemoval.get_eor 3) with (44 # 100)%Q.
  change (EffectOfRemoval.get_eor 4) with (55 # 100)%Q.
  change (EffectOfRemoval.get_eor 5) with (69 # 100)%Q.
  change (EffectOfRemoval.get_eor 6) with (46 # 100)%Q.
  change (EffectOfRemoval.get_eor 7) with (28 # 100)%Q.
  change (EffectOfRemoval.get_eor 8) with 0%Q.
  change (EffectOfRemoval.get_eor 9) with (- (18 # 100))%Q.
  change (EffectOfRemoval.get_eor 10) with (- (51 # 100))%Q.
  change (EffectOfRemoval.get_eor 11) with (- (61 # 100))%Q.
  unfold id. rewrite H4, H16, H52. generalize dependent (inject_Z n). intros x Hx _ _ _.
  field. lra.
Qed.

Lemma X11_exact_estimate_is_baseline_on_unseen_shoe_witness :
  ∃ a, ExactCountEstimator.estimate_advantage
         (ExactCountEstimator.make (Some GameRules.default) 6)
         (StateManagerOps.get_remaining_by_rank (StateManager.init GameRules.default))
         312
       = Ok a
       ∧ (a == - (4 # 1000))%Q.
Proof.
  assert (Hn : 0 < GameRules.num_decks GameRules.default) by reflexivity.
  destruct (X11_exact_estimate_is_baseline_on_unseen_shoe GameRules.default Hn eq_refl)
    as (a & Ha & Heq).
  exists a. split; [exact Ha | exact Heq].
Defined.

(** X12. The two baseline-edge computations ([AdvantageModel.from_rules]
    for the linear model, [_calculate_baseline_edge] for the exact one)
    agree exactly when doubling is unrestricted; under a doubling
    restriction the linear model's edge is the larger one, by 0.18 %
    (10-11 only) or 0.09 % (9-11 only). *)
Theorem X12_baseline_edges_differ_by_double_restriction (rules : GameRules.t) :
  (AdvantageModel.baseline_edge (AdvantageModel.from_rules rules)
   == ExactCountEstimator._calculate_baseline_edge rules
      + (if GameRules.double_10_11_only rules then 18 # 10000
         else if GameRules.double_9_10_11_only rules then 9 # 10000
         else 0))%Q
  ∧ (AdvantageModel.slope (AdvantageModel.from_rules rules) == 5 # 1000)%Q
  ∧ (4 # 1000 <= ExactCountEstimator._calculate_baseline_edge rules <= 223 # 10000)%Q
  ∧ (4 # 1000 <= AdvantageModel.baseline_edge (AdvantageModel.from_rules rules)
     <= 241 # 10000)%Q.
Proof.
  unfold AdvantageModel.from_rules, ExactCountEstimator._calculate_baseline_edge.
  cbn [AdvantageModel.baseline_edge AdvantageModel.slope].
  destruct (negb (GameRules.dealer_stands_soft_17 rules)),
    (Qlt_bool (GameRules.blackjack_pays rules) (14 # 10)),
    (negb (GameRules.double_after_split rules)),
    (negb (GameRules.surrender_allowed rules)),
    (GameRules.double_10_11_only rules),
    (GameRules.double_9_10_11_only rules);
    repeat split; lra.
Qed.

(** ** The deviation index: completeness and priority order *)

Lemma index_append_candidates idx x k :
  default [] (DeviationEngine.index_append idx x !! k)
  = default [] (idx !! k)
    ++ (if bool_decide (DeviationEngine.key_of x = k) then [x] else []).
Proof.
  unfold DeviationEngine.index_append. case_bool_decide as Hk.
  - subst k. by rewrite lookup_insert_eq.
  - rewrite lookup_insert_ne by done. by rewrite app_nil_r.
Qed.

Lemma index_fold_candidates devs idx k :
  default [] (foldl DeviationEngine.index_append idx devs !! k)
  = default [] (idx !! k) ++ filter (fun d => DeviationEngine.key_of d = k) devs.
Proof.
  revert idx. induction devs as [|x devs IH]; intros idx; cbn [foldl].
  - by rewrite app_nil_r.
  - rewrite IH, index_append_candidates, filter_cons, <- app_assoc.
    case_bool_decide; case_decide; done.
Qed.

(** The candidates stored under a key: the deviations with that key, in
    the order of the stable descending sort. *)
Lemma rebuild_index_candidates devs k :
  default [] (DeviationEngine._rebuild_index devs !! k)
  = DeviationEngine.sort_desc (filter (fun d => DeviationEngine.key_of d = k) devs).
Proof.
  unfold DeviationEngine._rebuild_index. rewrite lookup_fmap.
  rewrite <- (app_nil_l (filter _ devs)).
  change (@nil Deviation.t)
    with (default [] ((∅ : gmap string (list Deviation.t)) !! k)) at 2.
  rewrite <- index_fold_candidates.
  by destruct (foldl _ _ _ !! k).
Qed.





Lemma key_of_triple d ht v dv :
  DeviationEngine.key_of d = DeviationEngine.index_key ht v dv
  ↔ trigger_triple d = (ht, v, dv).
Proof.
  unfold DeviationEngine.key_of, trigger_triple. split.
  - intros H. apply index_key_inj in H as (-> & -> & ->). done.
  - intros [= -> -> ->]. done.
Qed.



(** ** What [decide] never returns *)

(** X14. SURRENDER is never returned for a hand of more than two cards,
    whatever the table and the deviations say; and the baseline action of
    every result is a legal one for the hand. *)
Theorem X14_no_surrender_beyond_two_cards
    (e : StrategyEngine.t) (cs : list Card.t) (h : Hand.t) (dealer_up : Card.t)
    (metrics : GameState.t) (use_deviations : bool) (r : DecisionResult.t) :
  Hand.from_cards cs = Ok h →
  StrategyEngine.decide_with_context e h dealer_up metrics use_deviations = Ok r →
  valid_action (DecisionResult.baseline_action r) h
  ∧ ((2 < length cs)%nat → DecisionResult.action r ≠ SURRENDER)
  ∧ (use_deviations = false →
     DecisionResult.action r = DecisionResult.baseline_action r
     ∧ DecisionResult.deviation_id r = None).
Proof.
  intros Hfc Hdec.
  destruct (decide_with_context_spec e _ _ dealer_up metrics use_deviations Hfc)
    as (b & act & id & Hb & _ & _ & Hspec).
  rewrite Hspec in Hdec. injection Hdec as <-.
  pose proof (baseline_action_valid _ _ _ _ Hb) as Hvalid.
  pose proof (from_cards_cards _ _ Hfc) as Hcards.
  split; [|split].
  - unfold decide_outcome. by repeat case_match.
  - intros Hlen. destruct Hvalid as (_ & _ & Hsur). rewrite Hcards in *.
    assert (Hb' : b ≠ SURRENDER) by (intros ->; specialize (Hsur eq_refl); lia).
    rewrite (bool_decide_eq_false_2 (length cs = 2%nat)) by lia.
    rewrite andb_false_r. unfold decide_outcome.
    destruct use_deviations; cbn; [|done].
    destruct act as [a|]; [destruct (decide (a = SURRENDER)) as [-> | Ha]|].
    + rewrite bool_decide_eq_true_2 by done.
      destruct (Hand.is_pair h && bool_decide (b = SPLIT)); done.
    + rewrite bool_decide_eq_false_2 by done.
      destruct (Hand.is_pair h && bool_decide (a = SPLIT)); [done|].
      destruct (Hand.is_pair h && bool_decide (b = SPLIT)); done.
    + destruct (Hand.is_pair h && bool_decide (b = SPLIT)); done.
  - intros ->. done.
Qed.

Lemma X14_no_surrender_beyond_two_cards_witness :
  ∃ r, StrategyEngine.decide_with_context fallback_engine hard_15_three_cards
         (Card.Build TEN DIAMONDS) (snapshot_at 2) true = Ok r
       ∧ DecisionResult.action r ≠ SURRENDER.
Proof.
  eexists. split; [vm_compute; reflexivity|].
  assert (Hfc : Hand.from_cards
                  [Card.Build SEVEN SPADES; Card.Build FIVE HEARTS; Card.Build THREE CLUBS]
                = Ok hard_15_three_cards) by reflexivity.
  refine (proj1 (proj2 (X14_no_surrender_beyond_two_cards fallback_engine _
                          hard_15_three_cards (Card.Build TEN DIAMONDS) (snapshot_at 2)
                          true _ Hfc _)) _).
  - vm_compute. reflexivity.
  - cbn. lia.
Defined.

(** A fired deviation is one of the loaded ones, keyed on the hand's type. *)
Lemma check_deviation_fired devs cs h dealer_up metrics a :
  Hand.from_cards cs = Ok h →
  DeviationEngine.check_deviation (DeviationEngine.make devs) h dealer_up metrics
  = Ok (Some a) →
  ∃ d, d ∈ devs ∧ Deviation.get_action d = a
       ∧ DeviationTrigger.hand_type (Deviation.trigger d) = Hand.hand_type h.
Proof.
  intros Hfc. unfold DeviationEngine.check_deviation.
  destruct (classify_ok _ _ Hfc) as [v ->]. cbn [mbind result_bind].
  cbn [DeviationEngine.make DeviationEngine._index].
  rewrite rebuild_index_candidates. intros [= Hft].
  apply first_triggered_some in Hft as (d & Hd & _ & Ha).
  rewrite elem_of_sort_desc, list_elem_of_filter in Hd. destruct Hd as [Hkey Hin].
  apply key_of_triple in Hkey. unfold trigger_triple in Hkey.
  injection Hkey as Hty _ _. eauto.
Qed.

(** X15. When every loaded deviation that prescribes SPLIT is keyed on a
    pair (as in the standard Illustrious 18 and Fab 4), the engine returns
    SPLIT for pair hands only. *)
Theorem X15_split_only_for_pairs
    (e : StrategyEngine.t) (devs : list Deviation.t) (cs : list Card.t) (h : Hand.t)
    (dealer_up : Card.t) (metrics : GameState.t) (use_deviations : bool)
    (r : DecisionResult.t) :
  StrategyEngine._deviation_engine e = DeviationEngine.make devs →
  (∀ d, d ∈ devs → Deviation.get_action d = SPLIT →
        DeviationTrigger.hand_type (Deviation.trigger d) = PAIR) →
  Hand.from_cards cs = Ok h →
  StrategyEngine.decide_with_context e h dealer_up metrics use_deviations = Ok r →
  DecisionResult.action r = SPLIT →
  Hand.is_pair h = true.
Proof.
  intros Heng Hdevs Hfc Hdec Hsplit.
  destruct (decide_with_context_spec e _ _ dealer_up metrics use_deviations Hfc)
    as (b & act & id & Hb & Hact & _ & Hspec).
  rewrite Hspec in Hdec. injection Hdec as <-.
  pose proof (baseline_action_valid _ _ _ _ Hb) as (_ & Hbsplit & _).
  assert (Hdev : act = Some SPLIT → Hand.is_pair h = true).
  { intros ->. rewrite Heng in Hact.
    destruct (check_deviation_fired _ _ _ _ _ _ Hfc Hact) as (d & Hin & Ha & Hty).
    rewrite (Hdevs d Hin Ha) in Hty. unfold Hand.hand_type in Hty.
    destruct (Hand.is_pair h); [done|]. by destruct (Hand.is_soft h). }
  destruct (Hand.is_pair h) eqn:Hp; [done|]. exfalso.
  unfold decide_outcome in Hsplit. cbn [andb] in Hsplit.
  destruct use_deviations; cbn in Hsplit.
  - destruct act as [a|]; cbn in Hsplit.
    + destruct (decide (a = SURRENDER)) as [-> | Ha].
      * rewrite bool_decide_eq_true_2 in Hsplit by done.
        destruct (_ && _); cbn in Hsplit; [done|]. by specialize (Hbsplit Hsplit).
      * rewrite bool_decide_eq_false_2 in Hsplit by done. cbn in Hsplit.
        subst a. by specialize (Hdev eq_refl).
    + by specialize (Hbsplit Hsplit).
  - by specialize (Hbsplit Hsplit).
Qed.

Lemma standard_split_deviations_are_pairs d :
  d ∈ ILLUSTRIOUS_18 ++ FAB_4 → Deviation.get_action d = SPLIT →
  DeviationTrigger.hand_type (Deviation.trigger d) = PAIR.
Proof.
  intros Hd. unfold ILLUSTRIOUS_18, FAB_4 in Hd. cbn [app] in Hd.
  repeat (apply elem_of_cons in Hd as [-> | Hd]; [by vm_compute|]).
  by apply elem_of_nil in Hd.
Qed.

Lemma X15_split_only_for_pairs_witness :
  ∃ r, StrategyEngine.decide_with_context fallback_engine pair_of_eights
         (Card.Build TEN DIAMONDS) (snapshot_at 0) true = Ok r
       ∧ DecisionResult.action r = SPLIT
       ∧ Hand.is_pair pair_of_eights = true.
Proof.
  eexists. split; [vm_compute; reflexivity|]. split; [reflexivity|].
  refine (X15_split_only_for_pairs fallback_engine (ILLUSTRIOUS_18 ++ FAB_4)
            [Card.Build EIGHT SPADES; Card.Build EIGHT HEARTS] pair_of_eights
            (Card.Build TEN DIAMONDS) (snapshot_at 0) true _
            eq_refl standard_split_deviations_are_pairs eq_refl _ _).
  - vm_compute. reflexivity.
  - reflexivity.
Defined.

(** The standard index holds two deviations for a hard 15 against a ten:
    the Fab 4 surrender (threshold 0) ahead of the Illustrious 18 stand
    (threshold +4). *)
Lemma standard_hard_15_v_10 (tc : Q) :
  DeviationEngine.first_triggered
    (default [] (DeviationEngine._index create_standard_deviation_engine
                 !! DeviationEngine.index_key HARD 15 10)) tc
  = if Qle_bool 0 tc then Some SURRENDER else None.
Proof.
  assert (Hidx : default [] (DeviationEngine._index create_standard_deviation_engine
                             !! DeviationEngine.index_key HARD 15 10)
                 = [ mk_dev "FAB_15v10" HARD 15 10 0 ABOVE_OR_EQUAL SURRENDER 100;
                     mk_dev "ILL_15v10" HARD 15 10 4 ABOVE_OR_EQUAL STAND 2 ])
    by (vm_compute; reflexivity).
  rewrite Hidx. cbn [DeviationEngine.first_triggered].
  unfold Deviation.is_triggered, mk_dev. cbn.
  destruct (Qle_bool 0 tc) eqn:E0; [done|].
  destruct (Qle_bool 4 tc) eqn:E4; [|done].
  apply Qle_bool_iff in E4. apply Qle_bool_false_iff in E0. lra.
Qed.

(** X16. With the standard deviations a hard 15 against a ten-valued card
    is never stood on by deviation: the Fab 4 surrender (priority 100,
    threshold 0) always precedes the Illustrious 18 stand (threshold +4) in
    the index, so the engine answers SURRENDER or the baseline action at
    every count. *)
Theorem X16_stand_on_15_v_10_is_shadowed
    (e : StrategyEngine.t) (cs : list Card.t) (h : Hand.t) (dealer_up : Card.t)
    (metrics : GameState.t) (use_deviations : bool) (r : DecisionResult.t) :
  StrategyEngine._deviation_engine e = create_standard_deviation_engine →
  Hand.from_cards cs = Ok h →
  Hand.hand_type h = HARD →
  Hand.total h = 15 →
  Card.value dealer_up = 10 →
  StrategyEngine.decide_with_context e h dealer_up metrics use_deviations = Ok r →
  DecisionResult.action r = SURRENDER
  ∨ DecisionResult.action r = DecisionResult.baseline_action r.
Proof.
  intros Heng Hfc Hty Htot Hdealer Hdec.
  destruct (decide_with_context_spec e _ _ dealer_up metrics use_deviations Hfc)
    as (b & act & id & Hb & Hact & _ & Hspec).
  rewrite Hspec in Hdec. injection Hdec as <-.
  assert (Hp : Hand.is_pair h = false).
  { unfold Hand.hand_type in Hty. by destruct (Hand.is_pair h). }
  assert (Hs : Hand.is_soft h = false).
  { unfold Hand.hand_type in Hty. rewrite Hp in Hty. by destruct (Hand.is_soft h). }
  assert (Hcases : act = Some SURRENDER ∨ act = None).
  { rewrite Heng in Hact. unfold DeviationEngine.check_deviation in Hact.
    unfold DeviationEngine.classify in Hact. rewrite Hp, Hs, Htot in Hact.
    cbn [mbind result_bind] in Hact.
    rewrite dealer_value_is_card_value, Hdealer in Hact.
    rewrite standard_hard_15_v_10 in Hact. injection Hact as <-.
    destruct (Qle_bool 0 _); auto. }
  unfold decide_outcome. rewrite Hp. cbn [andb].
  destruct use_deviations; cbn; [|auto].
  destruct Hcases as [-> | ->]; [|auto].
  rewrite bool_decide_eq_true_2 by done.
  destruct (_ && _); cbn; auto.
Qed.

Lemma X16_stand_on_15_v_10_is_shadowed_witness :
  ∃ r, StrategyEngine.decide_with_context fallback_engine hard_15_three_cards
         (Card.Build TEN DIAMONDS) (snapshot_at 5) true = Ok r
       ∧ DecisionResult.action r = HIT
       ∧ (DecisionResult.action r = SURRENDER
          ∨ DecisionResult.action r = DecisionResult.baseline_action r).
Proof.
  eexists. split; [vm_compute; reflexivity|]. split; [reflexivity|].
  refine (X16_stand_on_15_v_10_is_shadowed fallback_engine
            [Card.Build SEVEN SPADES; Card.Build FIVE HEARTS; Card.Build THREE CLUBS]
            hard_15_three_cards (Card.Build TEN DIAMONDS) (snapshot_at 5) true _
            eq_refl eq_refl eq_refl eq_refl eq_refl _).
  vm_compute. reflexivity.
Defined.

(** ** The betting engine: break-even, monotonicity, errors *)

(** The linear model of a constructed estimator: slope 0.005 and a
    baseline edge between 0.4 % and 2.41 %. *)
Lemma made_model_range rules :
  let m := EVEstimator._model (EVEstimator.make None rules true) in
  AdvantageModel.slope m = (5 # 1000)%Q
  ∧ (4 # 1000 <= AdvantageModel.baseline_edge m <= 241 # 10000)%Q.
Proof.
  destruct rules as [r|]; cbn.
  - split; [done|]. unfold AdvantageModel.from_rules.
    cbn [AdvantageModel.baseline_edge].
    destruct (negb (GameRules.dealer_stands_soft_17 r)),
      (Qlt_bool (GameRules.blackjack_pays r) (14 # 10)),
      (negb (GameRules.double_after_split r)),
      (negb (GameRules.surrender_allowed r)),
      (GameRules.double_10_11_only r),
      (GameRules.double_9_10_11_only r); split; lra.
  - split; [done|]. split; lra.
Qed.

(** The deck adjustment [1 + (6 / n - 1) * 0.1] is positive for every
    non-zero number of decks. *)
Lemma deck_adjustment_positive (n : Z) (deck_factor : Q) :
  py_div 6 (inject_Z n) = Ok deck_factor →
  (3 # 10 <= 1 + (deck_factor - 1) * (1 # 10))%Q.
Proof.
  unfold py_div. destruct (Qeq_bool (inject_Z n) 0) eqn:E; [done|].
  intros [= <-]. apply Qeq_bool_neq in E.
  assert (Hn : n ≠ 0) by (intros ->; apply E; reflexivity).
  assert (Hcases : n <= -1 ∨ 1 <= n) by lia.
  assert (Hmul : (6 / inject_Z n * inject_Z n == 6)%Q) by (field; done).
  destruct Hcases as [Hneg | Hpos].
  - assert (inject_Z n <= -1)%Q by (rewrite Zle_Qle in Hneg; exact Hneg). nra.
  - assert (1 <= inject_Z n)%Q by (rewrite Zle_Qle in Hpos; exact Hpos). nra.
Qed.

Lemma py_div_nonzero (x : Q) (n : Z) :
  n ≠ 0 → ∃ q, py_div x (inject_Z n) = Ok q.
Proof.
  intros Hn. unfold py_div. destruct (Qeq_bool (inject_Z n) 0) eqn:E; [|eauto].
  apply Qeq_bool_iff in E. exfalso. apply Hn.
  unfold Qeq in E. cbn in E. lia.
Qed.

(** The advantage of a constructed engine: an increasing affine function of
    the true count that vanishes at the break-even count. *)
Lemma made_advantage_shape cfg rules e :
  BettingEngine.make cfg rules = Ok e →
  BettingConfig.num_decks cfg ≠ 0 →
  ∃ be adj : Q,
    BettingEngineOps.breakeven_count e = Ok be
    ∧ (3 # 10 <= adj)%Q
    ∧ (4 # 5 <= be <= 241 # 50)%Q
    ∧ ∀ tc, ∃ adv,
        BettingEngineOps.get_advantage e tc = Ok adv
        ∧ (adv == (5 # 1000) * (tc - be) * adj)%Q.
Proof.
  intros Hmake Hn. apply betting_engine_made in Hmake as [-> _].
  pose proof (made_model_range rules) as [Hslope Hedge]. cbn zeta in *.
  unfold BettingEngineOps.breakeven_count, BettingEngineOps.get_advantage,
    EVEstimator.breakeven_count, EVEstimator.estimate_advantage.
  cbn [BettingEngine._estimator BettingEngine._config].
  set (m := EVEstimator._model (EVEstimator.make None rules true)) in *.
  assert (Hadj : EVEstimator._deck_adjustment (EVEstimator.make None rules true) = true)
    by done.
  rewrite Hadj, Hslope.
  destruct (py_div_nonzero 6 _ Hn) as [df Hdf].
  pose proof (deck_adjustment_positive _ _ Hdf) as Hpos.
  exists (AdvantageModel.baseline_edge m / (5 # 1000))%Q,
         (1 + (df - 1) * (1 # 10))%Q.
  split; [reflexivity|]. split; [done|]. split.
  - split.
    + apply Qle_shift_div_l; [done|]. lra.
    + apply Qle_shift_div_r; [done|]. lra.
  - intros tc. rewrite Hdf. cbn [mbind result_bind]. eexists. split; [reflexivity|].
    unfold AdvantageModel.calculate_advantage. rewrite Hslope. field.
Qed.

(** X17. For an engine built by the constructor over a non-zero number of
    decks, the break-even count lies between 0.8 and 4.82 (by the rules'
    baseline edge); [should_bet] says yes exactly when the estimated
    advantage is positive, never at a true count of 0.8 or less and always
    above 4.82; the advantage does not decrease when the count goes up, so
    a yes of [should_bet] stays a yes at every higher count; and
    [compute_bet_units] asks for one unit at 0.8 and below. *)
Theorem X17_should_bet_follows_the_count
    (cfg : BettingConfig.t) (rules : option GameRules.t) (e : BettingEngine.t) :
  BettingEngine.make cfg rules = Ok e →
  BettingConfig.num_decks cfg ≠ 0 →
  ∃ be,
    BettingEngineOps.breakeven_count e = Ok be
    ∧ (4 # 5 <= be <= 241 # 50)%Q
    ∧ ∀ tc, ∃ adv b u,
        BettingEngineOps.get_advantage e tc = Ok adv
        ∧ BettingEngine.should_bet e tc = Ok b
        ∧ BettingEngineOps.compute_bet_units e tc = Ok u
        ∧ (b = true ↔ (0 < adv)%Q)
        ∧ ((tc <= 4 # 5)%Q → b = false ∧ u = 1%Q)
        ∧ ((241 # 50 < tc)%Q → b = true)
        ∧ (∀ tc' adv', BettingEngineOps.get_advantage e tc' = Ok adv' →
                       (tc <= tc')%Q → (adv <= adv')%Q)
        ∧ (∀ tc' b', BettingEngine.should_bet e tc' = Ok b' →
                     (tc <= tc')%Q → b = true → b' = true).
Proof.
  intros Hmake Hn.
  destruct (made_advantage_shape _ _ _ Hmake Hn) as (be & adj & Hbe & Hadj & Hrange & Hadv).
  exists be. split; [done|]. split; [done|]. intros tc.
  destruct (Hadv tc) as (adv & Hget & Heq).
  assert (Hsign : (0 < adv)%Q ↔ (be < tc)%Q).
  { rewrite Heq. split; intros H; nra. }
  assert (Hshould : ∀ t a, BettingEngineOps.get_advantage e t = Ok a →
                           BettingEngine.should_bet e t = Ok (Qlt_bool 0 a)).
  { intros t a Ha. unfold BettingEngine.should_bet.
    unfold BettingEngineOps.get_advantage in Ha. by rewrite Ha. }
  exists adv, (Qlt_bool 0 adv),
    (if Qle_bool tc be then 1%Q
     else Qmin (1 + (tc - be)) (BettingConfig.max_spread (BettingEngine._config e))).
  unfold BettingEngineOps.compute_bet_units. rewrite Hbe. cbn [mbind result_bind].
  split; [done|]. split; [by apply Hshould|].
  split; [by destruct (Qle_bool tc be)|].
  split; [by rewrite Qlt_bool_iff|]. split; [|split; [|split]].
  - intros Hlow. split.
    + apply Qlt_bool_false_iff. rewrite Heq. nra.
    + assert (Hle : (tc <= be)%Q) by lra. apply Qle_bool_iff in Hle. by rewrite Hle.
  - intros Hhigh. apply Qlt_bool_iff. apply Hsign. lra.
  - intros tc' adv' Hget' Hle. destruct (Hadv tc') as (adv2 & Hget2 & Heq2).
    assert (adv2 = adv') as -> by congruence. rewrite Heq, Heq2. nra.
  - intros tc' b' Hb' Hle Hb. destruct (Hadv tc') as (adv2 & Hget2 & Heq2).
    rewrite (Hshould _ _ Hget2) in Hb'. injection Hb' as <-.
    apply Qlt_bool_iff in Hb. apply Qlt_bool_iff. rewrite Heq in Hb. rewrite Heq2. nra.
Qed.

Lemma X17_should_bet_follows_the_count_witness :
  ∃ be b, BettingEngineOps.breakeven_count default_betting_engine = Ok be
          ∧ (4 # 5 <= be <= 241 # 50)%Q
          ∧ BettingEngine.should_bet default_betting_engine 5 = Ok b
          ∧ b = true.
Proof.
  assert (Hn : BettingConfig.num_decks BettingConfig.default ≠ 0) by done.
  destruct (X17_should_bet_follows_the_count BettingConfig.default None
              default_betting_engine eq_refl Hn) as (be & Hbe & Hrange & Hall).
  destruct (Hall 5%Q) as (adv & b & u & _ & Hb & _ & _ & _ & Hhigh & _).
  exists be, b. split; [exact Hbe|]. split; [exact Hrange|]. split; [exact Hb|].
  apply Hhigh. reflexivity.
Defined.

(** *** The sizing pipeline of a constructed engine *)

Lemma kelly_fraction_mono k adv adv' f f' :
  (0 < KellyCalculator._variance k)%Q →
  (0 < KellyCalculator._kelly_fraction k)%Q →
  KellyCalculator.calculate_bet_fraction k adv = Ok f →
  KellyCalculator.calculate_bet_fraction k adv' = Ok f' →
  (adv <= adv')%Q → (0 <= f)%Q ∧ (f <= f')%Q.
Proof.
  intros Hvar Hkf. unfold KellyCalculator.calculate_bet_fraction, py_div.
  destruct (Qeq_bool (KellyCalculator._variance k) 0) eqn:Ev.
  { apply Qeq_bool_iff in Ev. lra. }
  cbn [mbind result_bind].
  assert (Hdiv : ∀ a, (a / KellyCalculator._variance k * KellyCalculator._variance k == a)%Q)
    by (intros a; field; lra).
  pose proof (Hdiv adv) as Ha. pose proof (Hdiv adv') as Ha'.
  destruct (Qle_bool adv 0) eqn:E, (Qle_bool adv' 0) eqn:E';
    intros [= <-] [= <-] Hle;
    try apply Qle_bool_iff in E; try apply Qle_bool_false_iff in E;
    try apply Qle_bool_iff in E'; try apply Qle_bool_false_iff in E'.
  - split; lra.
  - split; [lra|].
    assert (0 < adv' / KellyCalculator._variance k)%Q by nra. nra.
  - lra.
  - assert (0 < adv / KellyCalculator._variance k)%Q by nra.
    assert (adv / KellyCalculator._variance k <= adv' / KellyCalculator._variance k)%Q
      by nra.
    split; nra.
Qed.

Lemma kelly_amount_mono k limits bankroll adv adv' bet bet' :
  (0 < KellyCalculator._variance k)%Q →
  (0 < KellyCalculator._kelly_fraction k)%Q →
  KellyCalculator.calculate_bet_amount k adv bankroll limits = Ok bet →
  KellyCalculator.calculate_bet_amount k adv' bankroll limits = Ok bet' →
  (adv <= adv')%Q → (bet <= bet')%Q.
Proof.
  intros Hvar Hkf. unfold KellyCalculator.calculate_bet_amount.
  destruct (Qle_bool bankroll 0) eqn:Eb.
  { intros [= <-] [= <-] _. lra. }
  apply Qle_bool_false_iff in Eb.
  destruct (KellyCalculator.calculate_bet_fraction k adv) as [f|] eqn:Ef;
    cbn [mbind result_bind]; [|done].
  destruct (KellyCalculator.calculate_bet_fraction k adv') as [f'|] eqn:Ef';
    cbn [mbind result_bind]; [|done].
  intros [= <-] [= <-] Hle.
  destruct (kelly_fraction_mono _ _ _ _ _ Hvar Hkf Ef Ef' Hle) as [Hf Hff].
  apply Q.min_le_compat; [|lra]. unfold BetLimits.clamp.
  apply Q.max_le_compat; [lra|]. apply Q.min_le_compat; [lra|]. nra.
Qed.

Lemma kelly_amount_returns k limits bankroll adv :
  (0 < KellyCalculator._variance k)%Q →
  ∃ bet, KellyCalculator.calculate_bet_amount k adv bankroll limits = Ok bet
         ∧ ((BetLimits.table_min limits <= bankroll)%Q → (0 < bankroll)%Q →
            (BetLimits.table_min limits <= bet)%Q).
Proof.
  intros Hvar. unfold KellyCalculator.calculate_bet_amount,
    KellyCalculator.calculate_bet_fraction, py_div.
  destruct (Qeq_bool (KellyCalculator._variance k) 0) eqn:Ev.
  { apply Qeq_bool_iff in Ev. lra. }
  destruct (Qle_bool bankroll 0) eqn:Eb.
  { eexists. split; [reflexivity|]. apply Qle_bool_iff in Eb. intros; lra. }
  destruct (Qle_bool adv 0); cbn [mbind result_bind];
    (eexists; split; [reflexivity|]; intros Hmin _;
     apply Q.min_glb; [apply Q.le_max_l | done]).
Qed.

Lemma made_kelly_positive cfg rules e :
  BettingEngine.make cfg rules = Ok e →
  (0 < KellyCalculator._variance (BettingEngine._kelly e))%Q
  ∧ (0 < KellyCalculator._kelly_fraction (BettingEngine._kelly e))%Q
  ∧ BettingEngine._config e = cfg
  ∧ BetLimits.table_min (BettingEngine._limits e) = BettingConfig.table_min cfg.
Proof.
  intros Hmake. apply betting_engine_made in Hmake as [-> [Hkf _]]. cbn.
  repeat split; try done.
Qed.

(** The count-driven branch of [compute_bet], for an affordable table:
    the advantage, the Kelly amount, the capped amount [raw], and the final
    choice between the table minimum and the rounded amount. *)
Lemma kelly_sized_bet_cases (e : BettingEngine.t) (tc bankroll : Q) (r : result Q) :
  (0 < KellyCalculator._variance (BettingEngine._kelly e))%Q →
  (BetLimits.table_min (BettingEngine._limits e) <= bankroll)%Q →
  BettingEngine.kelly_sized_bet e tc bankroll = r →
  match BettingEngineOps.get_advantage e tc with
  | Raise err => r = Raise err
  | Ok adv =>
      ∃ kb, KellyCalculator.calculate_bet_amount (BettingEngine._kelly e) adv bankroll
              (BettingEngine._limits e) = Ok kb
            ∧ let raw := Qmin (Qmin kb (BetLimits.table_min (BettingEngine._limits e)
                                        * BettingConfig.max_spread (BettingEngine._config e)))
                              bankroll in
              r = Ok (if Qlt_bool raw (BetLimits.table_min (BettingEngine._limits e))
                      then BetLimits.table_min (BettingEngine._limits e)
                      else py_round2 raw)
  end.
Proof.
  intros Hvar Hmin <-. unfold BettingEngine.kelly_sized_bet, BettingEngineOps.get_advantage.
  destruct (EVEstimator.estimate_advantage _ _ _) as [adv|err]; [|done].
  cbn [mbind result_bind].
  destruct (kelly_amount_returns (BettingEngine._kelly e) (BettingEngine._limits e)
              bankroll adv Hvar) as (kb & Hkb & _).
  rewrite Hkb. cbn [mbind result_bind]. exists kb. split; [done|]. cbn zeta.
  apply Qle_bool_iff in Hmin. rewrite Hmin, andb_true_r.
  destruct (Qlt_bool _ _); [|done]. by destruct (Qlt_bool 0 adv).
Qed.

(** X18. The bet never goes down when the count goes up: for one engine,
    bankroll and penetration, a higher true count gives a bet at least as
    large. *)
Theorem X18_bet_does_not_decrease_with_count
    (cfg : BettingConfig.t) (rules : option GameRules.t) (e : BettingEngine.t)
    (tc tc' bankroll penetration bet bet' : Q) :
  BettingEngine.make cfg rules = Ok e →
  (tc <= tc')%Q →
  BettingEngine.compute_bet e tc bankroll penetration = Ok bet →
  BettingEngine.compute_bet e tc' bankroll penetration = Ok bet' →
  (bet <= bet')%Q.
Proof.
  intros Hmake Htc.
  destruct (made_kelly_positive _ _ _ Hmake) as (Hvar & Hkf & Hcfg & Hmin).
  unfold BettingEngine.compute_bet.
  destruct (Qlt_bool bankroll _) eqn:Hlow; [intros [= <-] [= <-]; lra|].
  destruct (BettingConfig.flat_betting _); [intros [= <-] [= <-]; lra|].
  destruct (Qlt_bool _ penetration); [intros [= <-] [= <-]; lra|].
  apply Qlt_bool_false_iff in Hlow. intros Hbet Hbet'.
  apply (kelly_sized_bet_cases _ _ _ _ Hvar Hlow) in Hbet.
  apply (kelly_sized_bet_cases _ _ _ _ Hvar Hlow) in Hbet'.
  destruct (BettingEngineOps.get_advantage e tc) as [adv|] eqn:Hadv; [|done].
  destruct (BettingEngineOps.get_advantage e tc') as [adv'|] eqn:Hadv'; [|done].
  assert (Hle : (adv <= adv')%Q).
  { assert (Hn : BettingConfig.num_decks cfg ≠ 0).
    { intros H0. unfold BettingEngineOps.get_advantage in Hadv.
      rewrite Hcfg, H0 in Hadv. apply betting_engine_made in Hmake as [-> _].
      cbn in Hadv. done. }
    destruct (made_advantage_shape _ _ _ Hmake Hn) as (be & adj & _ & Hadj & _ & Hshape).
    destruct (Hshape tc) as (a & Ha & Heq). destruct (Hshape tc') as (a' & Ha' & Heq').
    assert (a = adv) as -> by congruence. assert (a' = adv') as -> by congruence.
    rewrite Heq, Heq'. nra. }
  destruct Hbet as (kb & Hkb & Hbet). destruct Hbet' as (kb' & Hkb' & Hbet').
  cbn zeta in *. injection Hbet as ->. injection Hbet' as ->.
  pose proof (kelly_amount_mono _ _ _ _ _ _ _ Hvar Hkf Hkb Hkb' Hle) as Hkle.
  set (tmin := BetLimits.table_min (BettingEngine._limits e)) in *.
  set (maxbet := (tmin * BettingConfig.max_spread (BettingEngine._config e))%Q).
  assert (Hraw : (Qmin (Qmin kb maxbet) bankroll <= Qmin (Qmin kb' maxbet) bankroll)%Q).
  { apply Q.min_le_compat; [|lra]. apply Q.min_le_compat; lra. }
  destruct (Qlt_bool (Qmin (Qmin kb maxbet) bankroll) tmin) eqn:E,
           (Qlt_bool (Qmin (Qmin kb' maxbet) bankroll) tmin) eqn:E';
    try apply Qlt_bool_iff in E; try apply Qlt_bool_false_iff in E;
    try apply Qlt_bool_iff in E'; try apply Qlt_bool_false_iff in E'.
  - lra.
  - exfalso.
    assert (Hkb_min : (tmin <= kb)%Q ∨ kb = kb').
    { unfold KellyCalculator.calculate_bet_amount in Hkb, Hkb'.
      destruct (Qle_bool bankroll 0); [right; congruence|]. left.
      destruct (KellyCalculator.calculate_bet_fraction _ adv);
        cbn [mbind result_bind] in Hkb; [|done].
      injection Hkb as <-. apply Q.min_glb; [apply Q.le_max_l | done]. }
    destruct Hkb_min as [Hkb_min | <-]; [|lra].
    assert (Hmax : (maxbet < tmin)%Q).
    { apply Qnot_le_lt. intros Hge.
      assert (tmin <= Qmin (Qmin kb maxbet) bankroll)%Q; [|lra].
      apply Q.min_glb; [|done]. by apply Q.min_glb. }
    pose proof (Q.le_min_l (Qmin kb' maxbet) bankroll).
    pose proof (Q.le_min_r kb' maxbet). lra.
  - exfalso. lra.
  - by apply py_round2_mono.
Qed.

Lemma X18_bet_does_not_decrease_with_count_witness :
  ∃ bet bet',
    BettingEngine.compute_bet s6_engine 4 10000 (85 # 100) = Ok bet
    ∧ BettingEngine.compute_bet s6_engine 10 10000 (85 # 100) = Ok bet'
    ∧ (bet <= bet')%Q.
Proof.
  assert (Htc : (4 <= 10)%Q) by (vm_compute; discriminate).
  destruct s7_boundary_values as (H10 & H4 & _).
  eexists. eexists. split; [exact H4|]. split; [exact H10|].
  exact (X18_bet_does_not_decrease_with_count s6_config (Some GameRules.default)
           s6_engine 4 10 10000 (85 # 100) _ _ eq_refl Htc H4 H10).
Defined.

(** X19. With a table minimum of at least one cent, [compute_bet] returns
    zero exactly when the bankroll cannot cover the table minimum; an
    affordable table always gets a positive bet, at most half a cent below
    the table minimum. *)
Theorem X19_zero_bet_only_below_table_minimum
    (cfg : BettingConfig.t) (rules : option GameRules.t) (e : BettingEngine.t)
    (tc bankroll penetration bet : Q) :
  BettingEngine.make cfg rules = Ok e →
  (1 # 100 <= BettingConfig.table_min cfg)%Q →
  BettingEngine.compute_bet e tc bankroll penetration = Ok bet →
  ((bet == 0)%Q ↔ (bankroll < BettingConfig.table_min cfg)%Q)
  ∧ ((BettingConfig.table_min cfg <= bankroll)%Q →
     (BettingConfig.table_min cfg - (1 # 200) <= bet)%Q ∧ (1 # 100 <= bet)%Q).
Proof.
  intros Hmake Hcent.
  destruct (made_kelly_positive _ _ _ Hmake) as (Hvar & Hkf & Hcfg & Hmin).
  set (tmin := BettingConfig.table_min cfg) in *.
  assert (Hgoal : (bankroll < tmin)%Q ∧ bet = 0%Q
                  ∨ (tmin <= bankroll)%Q ∧ (tmin - (1 # 200) <= bet)%Q ∧ (1 # 100 <= bet)%Q
          → ((bet == 0)%Q ↔ (bankroll < tmin)%Q)
            ∧ ((tmin <= bankroll)%Q →
               (tmin - (1 # 200) <= bet)%Q ∧ (1 # 100 <= bet)%Q)).
  { intros [[Hlt ->] | (Hge & Hb1 & Hb2)].
    - split; [split; [done | reflexivity]|]. intros; lra.
    - split; [|done]. split; intros H; [rewrite H in Hb2|]; lra. }
  unfold BettingEngine.compute_bet. rewrite Hmin. fold tmin.
  destruct (Qlt_bool bankroll tmin) eqn:Hlow.
  { intros [= <-]. apply Hgoal. left. by apply Qlt_bool_iff in Hlow. }
  apply Qlt_bool_false_iff in Hlow.
  destruct (BettingConfig.flat_betting _).
  { intros [= <-]. apply Hgoal. right. repeat split; lra. }
  destruct (Qlt_bool _ penetration).
  { intros [= <-]. apply Hgoal. right. repeat split; lra. }
  intros Hbet. apply Hgoal. right. split; [done|].
  assert (Hlow' : (BetLimits.table_min (BettingEngine._limits e) <= bankroll)%Q)
    by (rewrite Hmin; done).
  apply (kelly_sized_bet_cases _ _ _ _ Hvar Hlow') in Hbet.
  destruct (BettingEngineOps.get_advantage e tc) as [adv|]; [|done].
  destruct Hbet as (kb & _ & Hbet). cbn zeta in Hbet. rewrite Hmin in Hbet.
  fold tmin in Hbet. injection Hbet as ->.
  destruct (Qlt_bool _ tmin) eqn:E; [split; lra|].
  apply Qlt_bool_false_iff in E. split.
  - pose proof (py_round2_lower
                  (Qmin (Qmin kb (tmin * BettingConfig.max_spread (BettingEngine._config e)))
                        bankroll)). lra.
  - assert (Hc : (py_round2 (1 # 100) == 1 # 100)%Q) by (vm_compute; reflexivity).
    rewrite <- Hc. apply py_round2_mono. lra.
Qed.

Lemma X19_zero_bet_only_below_table_minimum_witness :
  BettingEngine.compute_bet default_betting_engine 3 5 0 = Ok 0%Q
  ∧ (5 < BettingConfig.table_min BettingConfig.default)%Q.
Proof.
  assert (Hbet : BettingEngine.compute_bet default_betting_engine 3 5 0 = Ok 0%Q)
    by reflexivity.
  split; [exact Hbet|].
  assert (Hcent : (1 # 100 <= BettingConfig.table_min BettingConfig.default)%Q)
    by (vm_compute; discriminate).
  apply (X19_zero_bet_only_below_table_minimum BettingConfig.default None
           default_betting_engine 3 5 0 0 eq_refl Hcent Hbet).
  reflexivity.
Defined.

(** X20. The only way [compute_bet] of a constructed engine fails is the
    division by a zero number of decks, and only on the count-driven path
    (affordable table, flat betting off, penetration within the cutoff);
    the constructor itself fails, with [ValueError], exactly when the Kelly
    fraction is outside (0, 1]. *)
Theorem X20_betting_errors
    (cfg : BettingConfig.t) (rules : option GameRules.t) :
  (∀ err, BettingEngine.make cfg rules = Raise err
          ↔ err = ValueError
            ∧ ¬ (0 < BettingConfig.kelly_fraction cfg <= 1)%Q)
  ∧ (∀ e tc bankroll penetration err,
       BettingEngine.make cfg rules = Ok e →
       (BettingEngine.compute_bet e tc bankroll penetration = Raise err
        ↔ err = ZeroDivisionError
          ∧ BettingConfig.num_decks cfg = 0
          ∧ (BettingConfig.table_min cfg <= bankroll)%Q
          ∧ BettingConfig.flat_betting cfg = false
          ∧ (penetration <= BettingConfig.max_betting_penetration cfg)%Q)).
Proof.
  split.
  - intros err. unfold BettingEngine.make, KellyCalculator.make.
    destruct (Qlt_bool 0 _ && Qle_bool _ 1) eqn:E; cbn.
    + apply andb_true_iff in E as [E1 E2].
      apply Qlt_bool_iff in E1. apply Qle_bool_iff in E2.
      split; [done|]. intros [_ H]. exfalso. by apply H.
    + split.
      * intros [= <-]. split; [done|]. intros [H1 H2].
        apply Qlt_bool_iff in H1. apply Qle_bool_iff in H2.
        by rewrite H1, H2 in E.
      * intros [-> _]. done.
  - intros e tc bankroll penetration err Hmake.
    destruct (made_kelly_positive _ _ _ Hmake) as (Hvar & Hkf & Hcfg & Hmin).
    unfold BettingEngine.compute_bet. rewrite Hmin, Hcfg.
    destruct (Qlt_bool bankroll _) eqn:Hlow.
    { apply Qlt_bool_iff in Hlow. split; [done|]. intros (_ & _ & H & _). lra. }
    apply Qlt_bool_false_iff in Hlow.
    destruct (BettingConfig.flat_betting cfg).
    { split; [done|]. intros (_ & _ & _ & H & _). done. }
    destruct (Qlt_bool _ penetration) eqn:Hpen.
    { apply Qlt_bool_iff in Hpen. split; [done|]. intros (_ & _ & _ & _ & H). lra. }
    apply Qlt_bool_false_iff in Hpen.
    assert (Hlow' : (BetLimits.table_min (BettingEngine._limits e) <= bankroll)%Q)
      by (rewrite Hmin; done).
    pose proof (kelly_sized_bet_cases e tc bankroll _ Hvar Hlow' eq_refl) as Hcases.
    destruct (decide (BettingConfig.num_decks cfg = 0)) as [H0 | Hn].
    + unfold BettingEngineOps.get_advantage in Hcases. rewrite Hcfg, H0 in Hcases.
      apply betting_engine_made in Hmake as [Heq _].
      assert (Hraise : EVEstimator.estimate_advantage (BettingEngine._estimator e) tc 0
                       = Raise ZeroDivisionError) by (rewrite Heq; reflexivity).
      rewrite Hraise in Hcases. rewrite Hcases.
      split; [intros [= <-]; done | intros [-> _]; done].
    + destruct (made_advantage_shape _ _ _ Hmake Hn) as (be & adj & _ & _ & _ & Hshape).
      destruct (Hshape tc) as (adv & Hadv & _). rewrite Hadv in Hcases.
      destruct Hcases as (kb & _ & ->). split; [done|]. intros (_ & H & _). done.
Qed.

Lemma X20_betting_errors_witness :
  ∃ e, BettingEngine.make zero_deck_config None = Ok e
       ∧ BettingEngine.compute_bet e 3 1000 0 = Raise ZeroDivisionError.
Proof.
  eexists. split; [reflexivity|].
  apply (proj2 (X20_betting_errors zero_deck_config None) _ 3%Q 1000%Q 0%Q
           ZeroDivisionError eq_refl).
  repeat split; try reflexivity; vm_compute; discriminate.
Defined.


(** ** The simulator: dealing, observing, settling *)

Lemma sim_at_self sim :
  sim_at sim (state_manager (sim_agent sim)) (shoe_dealt_index (sim_shoe sim)) = sim.
Proof. by destruct sim as [? ? ? [] [] ? ? ?]. Qed.

Lemma sim_at_eq sim sm sm' i j : sm = sm' → i = j → sim_at sim sm i = sim_at sim sm' j.
Proof. by intros -> ->. Qed.

Lemma dealt_between_nil cards i : dealt_between cards i i = [].
Proof. unfold dealt_between. by rewrite Z.sub_diag. Qed.

Lemma dealt_between_cons cards i j c :
  0 <= i → i < j → cards !! Z.to_nat i = Some c →
  dealt_between cards i j = c :: dealt_between cards (i + 1) j.
Proof.
  intros Hi Hij Hc. unfold dealt_between.
  replace (Z.to_nat (j - i)) with (S (Z.to_nat (j - (i + 1)))) by lia.
  replace (Z.to_nat (i + 1)) with (S (Z.to_nat i)) by lia.
  by rewrite (drop_S _ _ _ Hc).
Qed.

Lemma dealt_between_app cards i j k :
  0 <= i → i <= j → j <= k →
  dealt_between cards i k = dealt_between cards i j ++ dealt_between cards j k.
Proof.
  intros Hi Hij Hjk. unfold dealt_between.
  replace (Z.to_nat (k - i)) with (Z.to_nat (j - i) + Z.to_nat (k - j))%nat by lia.
  rewrite <- take_take_drop, drop_drop.
  by replace (Z.to_nat i + Z.to_nat (j - i))%nat with (Z.to_nat j) by lia.
Qed.

(** One card off the shoe: the pointer moves by one, nothing else changes. *)
Lemma sim_deal_spec sim c sim' :
  0 <= shoe_dealt_index (sim_shoe sim) →
  sim_deal sim = Ok (c, sim') →
  sim' = sim_at sim (state_manager (sim_agent sim)) (shoe_dealt_index (sim_shoe sim) + 1)
  ∧ shoe_cards (sim_shoe sim) !! Z.to_nat (shoe_dealt_index (sim_shoe sim)) = Some c
  ∧ shoe_dealt_index (sim_shoe sim) < shoe_total_cards (sim_shoe sim).
Proof.
  intros Hidx. unfold sim_deal, shoe_deal.
  destruct (shoe_total_cards _ <=? _) eqn:E; [done|]. apply Z.leb_gt in E.
  destruct (shoe_dealt_index (sim_shoe sim) <? 0) eqn:E0; [apply Z.ltb_lt in E0; lia|].
  rewrite E0.
  destruct (shoe_cards (sim_shoe sim) !! _) as [card|] eqn:Hc; [|done].
  cbn [mbind result_bind]. intros [= <- <-]. split; [|done].
  by destruct sim as [? ? ? [] [] ? ? ?].
Qed.

Lemma sim_observe_spec sim c :
  sim_observe sim c
  = sim_at sim (StateManager.observe (state_manager (sim_agent sim)) [c])
           (shoe_dealt_index (sim_shoe sim)).
Proof. by destruct sim as [? ? ? [] [] ? ? ?]. Qed.

Lemma sim_deal_observed_spec sim c sim' :
  0 <= shoe_dealt_index (sim_shoe sim) →
  sim_deal_observed sim = Ok (c, sim') →
  sim' = sim_at sim (StateManager.observe (state_manager (sim_agent sim)) [c])
                (shoe_dealt_index (sim_shoe sim) + 1)
  ∧ shoe_cards (sim_shoe sim) !! Z.to_nat (shoe_dealt_index (sim_shoe sim)) = Some c
  ∧ shoe_dealt_index (sim_shoe sim) < shoe_total_cards (sim_shoe sim).
Proof.
  intros Hidx. unfold sim_deal_observed.
  destruct (sim_deal sim) as [[c1 sim1]|] eqn:Hd; [|done].
  cbn [mbind result_bind]. intros [= <- <-].
  destruct (sim_deal_spec _ _ _ Hidx Hd) as (-> & Hc & Hlt).
  split; [|done]. by rewrite sim_observe_spec.
Qed.

Lemma sim_deal_at sim sm i c sim' :
  0 <= i →
  sim_deal (sim_at sim sm i) = Ok (c, sim') →
  sim' = sim_at sim sm (i + 1)
  ∧ shoe_cards (sim_shoe sim) !! Z.to_nat i = Some c
  ∧ i < shoe_total_cards (sim_shoe sim).
Proof.
  intros Hi Hd. apply sim_deal_spec in Hd; [|done]. exact Hd.
Qed.

Lemma sim_deal_observed_at sim sm i c sim' :
  0 <= i →
  sim_deal_observed (sim_at sim sm i) = Ok (c, sim') →
  sim' = sim_at sim (StateManager.observe sm [c]) (i + 1)
  ∧ shoe_cards (sim_shoe sim) !! Z.to_nat i = Some c
  ∧ i < shoe_total_cards (sim_shoe sim).
Proof.
  intros Hi Hd. apply sim_deal_observed_spec in Hd; [|done]. exact Hd.
Qed.

(** The player's turn: the cards drawn are the next ones of the shoe, each
    is observed as it is drawn, and the turn ends by surrender, stand,
    double or bust. *)
Lemma player_loop_spec sim bet tc dealer_up dealer_hole fuel :
  ∀ sm i h cb acts turn sim',
    0 <= i <= shoe_total_cards (sim_shoe sim) → Hand.total h <= 21 →
    player_loop fuel (sim_at sim sm i) bet tc dealer_up dealer_hole h cb acts
    = Ok (turn, sim') →
    ∃ ns,
      dealt_between (shoe_cards (sim_shoe sim)) i (i + Z.of_nat (length ns)) = ns
      ∧ i + Z.of_nat (length ns) <= shoe_total_cards (sim_shoe sim)
      ∧ match turn with
        | inl hr =>
            sim' = sim_at sim (StateManager.observe sm (ns ++ [dealer_hole]))
                          (i + Z.of_nat (length ns))
            ∧ HandResult.outcome hr = "surrender"
            ∧ HandResult.bet_size hr = bet
            ∧ HandResult.payout hr = (bet / 2)%Q
            ∧ HandResult.net_result hr = (- bet / 2)%Q
            ∧ HandResult.true_count hr = tc
            ∧ last (HandResult.actions_taken hr) = Some SURRENDER
            ∧ HandResult.final_player_total hr <= 21
        | inr (h', cb', busted, acts') =>
            sim' = sim_at sim (StateManager.observe sm ns) (i + Z.of_nat (length ns))
            ∧ (cb' = cb ∨ (cb' = (bet * 2)%Q ∧ last acts' = Some DOUBLE))
            ∧ busted = (21 <? Hand.total h')
        end.
Proof.
  induction fuel as [|fuel IH]; intros sm i h cb acts turn sim' Hi Hh; [done|].
  cbn [player_loop].
  destruct (agent_get_decision_with_context _ _ _ _) as [dr|]; [|done].
  cbn [mbind result_bind].
  assert (Hhit :
    (x ← sim_deal_observed (sim_at sim sm i);
     (let '(new_card, sim0) := x in
      player_hand ← Hand.add_card h new_card;
      if 21 <? Hand.total player_hand
      then Ok (inr (player_hand, cb, true, acts ++ [DecisionResult.action dr]), sim0)
      else player_loop fuel sim0 bet tc dealer_up dealer_hole player_hand cb
             (acts ++ [DecisionResult.action dr]))) = Ok (turn, sim') →
    ∃ ns,
      dealt_between (shoe_cards (sim_shoe sim)) i (i + Z.of_nat (length ns)) = ns
      ∧ i + Z.of_nat (length ns) <= shoe_total_cards (sim_shoe sim)
      ∧ match turn with
        | inl hr =>
            sim' = sim_at sim (StateManager.observe sm (ns ++ [dealer_hole]))
                          (i + Z.of_nat (length ns))
            ∧ HandResult.outcome hr = "surrender"
            ∧ HandResult.bet_size hr = bet
            ∧ HandResult.payout hr = (bet / 2)%Q
            ∧ HandResult.net_result hr = (- bet / 2)%Q
            ∧ HandResult.true_count hr = tc
            ∧ last (HandResult.actions_taken hr) = Some SURRENDER
            ∧ HandResult.final_player_total hr <= 21
        | inr (h', cb', busted, acts') =>
            sim' = sim_at sim (StateManager.observe sm ns) (i + Z.of_nat (length ns))
            ∧ (cb' = cb ∨ (cb' = (bet * 2)%Q ∧ last acts' = Some DOUBLE))
            ∧ busted = (21 <? Hand.total h')
        end).
  { destruct (sim_deal_observed (sim_at sim sm i)) as [[c sim1]|] eqn:Hd; [|done].
    cbn [mbind result_bind].
    destruct (sim_deal_observed_at _ _ _ _ _ (proj1 Hi) Hd) as (-> & Hc & Hlt).
    destruct (Hand.add_card h c) as [h1|]; [|done]. cbn [mbind result_bind].
    destruct (21 <? Hand.total h1) eqn:E.
    - intros [= <- <-]. exists [c]. cbn [length].
      split; [|split; [lia|]].
      + rewrite (dealt_between_cons _ _ _ c) by (done || lia).
        by rewrite dealt_between_nil.
      + split; [done|]. split; [by left | done].
    - apply Z.ltb_ge in E. intros Hrec.
      apply IH in Hrec as (ns & Hns & Hlen & Hturn); [|lia|done].
      exists (c :: ns). cbn [length].
      replace (i + Z.of_nat (S (length ns))) with (i + 1 + Z.of_nat (length ns)) by lia.
      split; [|split; [done|]].
      + rewrite (dealt_between_cons _ _ _ c) by (done || lia). by rewrite Hns.
      + destruct turn as [hr | [[[h' cb'] busted] acts']]; exact Hturn. }
  destruct (DecisionResult.action dr) eqn:Ha.
  - (* STAND *)
    intros [= <- <-]. exists []. cbn [length]. rewrite Z.add_0_r.
    split; [apply dealt_between_nil|]. split; [lia|].
    split; [done|]. split; [by left|]. symmetry. by apply Z.ltb_ge.
  - (* HIT *) exact Hhit.
  - (* DOUBLE *)
    destruct (sim_deal_observed (sim_at sim sm i)) as [[c sim1]|] eqn:Hd; [|done].
    cbn [mbind result_bind].
    destruct (sim_deal_observed_at _ _ _ _ _ (proj1 Hi) Hd) as (-> & Hc & Hlt).
    destruct (Hand.add_card h c) as [h1|]; [|done]. cbn [mbind result_bind].
    intros [= <- <-]. exists [c]. cbn [length].
    split; [|split; [lia|]].
    + rewrite (dealt_between_cons _ _ _ c) by (done || lia).
      by rewrite dealt_between_nil.
    + split; [done|]. split; [|done]. right. split; [done|]. apply last_snoc.
  - (* SPLIT *) exact Hhit.
  - (* SURRENDER *)
    destruct (Hand.from_cards [dealer_up; dealer_hole]) as [dh|]; [|done].
    cbn [mbind result_bind]. intros [= <- <-]. exists []. cbn [length app].
    rewrite Z.add_0_r. split; [apply dealt_between_nil|]. split; [lia|].
    rewrite sim_observe_spec. cbn.
    repeat split; try done. apply last_snoc.
Qed.

(** The dealer's turn: the dealer draws the next cards of the shoe until
    the hand is bust or stands by the table rule. *)
Lemma dealer_loop_spec sim fuel :
  ∀ sm i dh dh' sim',
    0 <= i <= shoe_total_cards (sim_shoe sim) →
    dealer_loop fuel (sim_at sim sm i) dh = Ok (dh', sim') →
    ∃ ms,
      dealt_between (shoe_cards (sim_shoe sim)) i (i + Z.of_nat (length ms)) = ms
      ∧ i + Z.of_nat (length ms) <= shoe_total_cards (sim_shoe sim)
      ∧ sim' = sim_at sim (StateManager.observe sm ms) (i + Z.of_nat (length ms))
      ∧ dealer_done (sim_rules sim) dh'.
Proof.
  induction fuel as [|fuel IH]; intros sm i dh dh' sim' Hi; [done|].
  cbn [dealer_loop].
  destruct (21 <? Hand.total dh) eqn:Ebust.
  { intros [= <- <-]. exists []. cbn [length]. rewrite Z.add_0_r.
    split; [apply dealt_between_nil|]. split; [lia|]. split; [done|].
    left. by apply Z.ltb_lt. }
  destruct (_ && _) eqn:Estand.
  { intros [= <- <-]. exists []. cbn [length]. rewrite Z.add_0_r.
    split; [apply dealt_between_nil|]. split; [lia|]. split; [done|].
    right. apply andb_true_iff in Estand as [E17 Esoft].
    apply Z.leb_le in E17. split; [done|]. intros (Ht & Hs & Hr).
    cbn in Esoft. rewrite Hs, Hr in Esoft.
    apply Z.eqb_eq in Ht. by rewrite Ht in Esoft. }
  destruct (sim_deal_observed (sim_at sim sm i)) as [[c sim1]|] eqn:Hd; [|done].
  cbn [mbind result_bind].
  destruct (sim_deal_observed_at _ _ _ _ _ (proj1 Hi) Hd) as (-> & Hc & Hlt).
  destruct (Hand.add_card dh c) as [dh1|]; [|done]. cbn [mbind result_bind].
  intros Hrec. apply IH in Hrec as (ms & Hms & Hlen & Hsim & Hdone); [|lia].
  exists (c :: ms). cbn [length].
  replace (i + Z.of_nat (S (length ms))) with (i + 1 + Z.of_nat (length ms)) by lia.
  split; [|done].
  rewrite (dealt_between_cons _ _ _ c) by (done || lia). by rewrite Hms.
Qed.

Lemma observe_app sm a b :
  StateManager.observe (StateManager.observe sm a) b = StateManager.observe sm (a ++ b).
Proof. unfold StateManager.observe. by rewrite foldl_app. Qed.

Lemma is_blackjack_total h : Hand.is_blackjack h = true → Hand.total h = 21.
Proof.
  unfold Hand.is_blackjack. intros H. apply andb_true_iff in H as [_ H].
  by apply Z.eqb_eq.
Qed.

Lemma two_card_total c0 c1 h :
  Hand.from_cards [c0; c1] = Ok h → Hand.total h <= 21.
Proof.
  destruct c0 as [[] ?], c1 as [[] ?]; vm_compute; intros [= <-]; cbn; discriminate.
Qed.

(** One hand, from the deal to the settlement: the cards that left the
    shoe are the ones the agent has observed by the end of the hand (the
    hole card last of the first four), and the record is settled by the
    table. *)
Lemma play_hand_spec sim bet tc hr sim' :
  0 <= shoe_dealt_index (sim_shoe sim) →
  _play_hand sim bet tc = Ok (hr, sim') →
  ∃ obs j,
    sim' = sim_at sim (StateManager.observe (state_manager (sim_agent sim)) obs) j
    ∧ shoe_dealt_index (sim_shoe sim) + 4 <= j <= shoe_total_cards (sim_shoe sim)
    ∧ obs ≡ₚ dealt_between (shoe_cards (sim_shoe sim)) (shoe_dealt_index (sim_shoe sim)) j
    ∧ HandResult.true_count hr = tc
    ∧ settled (sim_rules sim) bet hr.
Proof.
  intros Hidx.
  rewrite <- (sim_at_self sim) at 1.
  set (sm := state_manager (sim_agent sim)). set (i := shoe_dealt_index (sim_shoe sim)) in *.
  set (cards := shoe_cards (sim_shoe sim)).
  unfold _play_hand.
  destruct (sim_deal (sim_at sim sm i)) as [[p1 s1]|] eqn:H1; [|done].
  cbn [mbind result_bind].
  destruct (sim_deal_at _ _ _ _ _ Hidx H1) as (-> & Hc1 & Hl1).
  destruct (sim_deal (sim_at sim sm (i + 1))) as [[p2 s2]|] eqn:H2; [|done].
  cbn [mbind result_bind].
  destruct (sim_deal_at sim sm (i + 1) _ _ ltac:(lia) H2) as (-> & Hc2 & Hl2).
  destruct (sim_deal (sim_at sim sm (i + 1 + 1))) as [[up s3]|] eqn:H3; [|done].
  cbn [mbind result_bind].
  destruct (sim_deal_at sim sm (i + 1 + 1) _ _ ltac:(lia) H3) as (-> & Hc3 & Hl3).
  destruct (sim_deal (sim_at sim sm (i + 1 + 1 + 1))) as [[hole s4]|] eqn:H4; [|done].
  cbn [mbind result_bind].
  destruct (sim_deal_at sim sm (i + 1 + 1 + 1) _ _ ltac:(lia) H4) as (-> & Hc4 & Hl4).
  clear H1 H2 H3 H4.
  set (j0 := i + 1 + 1 + 1 + 1).
  assert (Hfour : dealt_between cards i j0 = [p1; p2; up; hole]).
  { unfold j0.
    rewrite (dealt_between_cons _ i _ p1) by (done || lia).
    rewrite (dealt_between_cons _ (i + 1) _ p2) by (done || lia).
    rewrite (dealt_between_cons _ (i + 1 + 1) _ up) by (done || lia).
    rewrite (dealt_between_cons _ (i + 1 + 1 + 1) _ hole) by (done || lia).
    by rewrite dealt_between_nil. }
  assert (Hsplit : ∀ k ns, j0 <= k →
            dealt_between cards j0 k = ns →
            dealt_between cards i k = [p1; p2; up; hole] ++ ns).
  { intros k ns Hk <-. rewrite <- Hfour. apply dealt_between_app; unfold j0; lia. }
  change (sim_observe
            (sim_with (sim_at sim sm j0)
               (agent_observe_cards (sim_agent (sim_at sim sm j0)) [p1; p2])
               (sim_shoe (sim_at sim sm j0))) up)
    with (sim_at sim (StateManager.observe sm [p1; p2; up]) j0).
  destruct (Hand.from_cards [p1; p2]) as [ph|] eqn:Hph; [|done].
  cbn [mbind result_bind].
  pose proof (two_card_total _ _ _ Hph) as Hph21.
  destruct (Hand.is_blackjack ph) eqn:Hbj.
  - (* player blackjack *)
    destruct (Hand.from_cards [up; hole]) as [dh|] eqn:Hdh; [|done].
    cbn [mbind result_bind].
    assert (Hobs : [p1; p2; up; hole] ≡ₚ dealt_between cards i j0) by by rewrite Hfour.
    destruct (Hand.is_blackjack dh) eqn:Hdbj; intros [= <- <-];
      exists [p1; p2; up; hole], j0;
      (split; [by rewrite sim_observe_spec|]);
      (split; [unfold j0; lia|]); (split; [done|]); (split; [done|]).
    + right. left. cbn. by repeat split.
    + left. cbn. by repeat split.
  - (* player turn *)
    destruct (player_loop _ _ _ _ _ _ _ _ _) as [[turn s5]|] eqn:Hpl; [|done].
    cbn [mbind result_bind].
    apply player_loop_spec in Hpl as (ns & Hns & Hlen & Hturn);
      [|unfold j0; lia|done].
    destruct turn as [sur | [[[h' cb'] busted] acts']].
    + (* surrender *)
      intros [= <- <-].
      destruct Hturn as (-> & Hout & Hbs & Hpay & Hnet & Htc & Hlast & Hp).
      exists ([p1; p2; up] ++ ns ++ [hole]), (j0 + Z.of_nat (length ns)).
      split; [done|]. split; [unfold j0 in *; lia|]. split.
      { rewrite (Hsplit _ ns) by (lia || done). cbn [app].
        do 3 apply perm_skip. by rewrite <- Permutation_cons_append. }
      split; [done|]. right. right. left. by repeat split.
    + destruct Hturn as (-> & Hcb & ->).
      assert (Hstake : ∀ hr0, HandResult.bet_size hr0 = cb' →
                HandResult.actions_taken hr0 = acts' → stake_of bet hr0).
      { intros hr0 Hb Ha. unfold stake_of. rewrite Hb, Ha. tauto. }
      destruct (21 <? Hand.total h') eqn:Ebust.
      * (* bust *)
        destruct (Hand.from_cards [up; hole]) as [dh|] eqn:Hdh; [|done].
        cbn [mbind result_bind]. intros [= <- <-].
        exists ([p1; p2; up] ++ ns ++ [hole]), (j0 + Z.of_nat (length ns)).
        split; [rewrite sim_observe_spec, <- !observe_app; reflexivity|].
        split; [unfold j0 in *; lia|]. split.
        { rewrite (Hsplit _ ns) by (lia || done). cbn [app].
          do 3 apply perm_skip. by rewrite <- Permutation_cons_append. }
        split; [done|]. right. right. right. left. cbn.
        apply Z.ltb_lt in Ebust. repeat split; try done; try (by apply Hstake).
      * (* dealer turn *)
        apply Z.ltb_ge in Ebust.
        destruct (Hand.from_cards [up; hole]) as [dh|] eqn:Hdh; [|done].
        cbn [mbind result_bind].
        destruct (dealer_loop _ _ _) as [[dh' s6]|] eqn:Hdl; [|done].
        cbn [mbind result_bind].
        apply (dealer_loop_spec sim _
                 (StateManager.observe
                    (StateManager.observe sm ([p1; p2; up] ++ ns)) [hole])
                 (j0 + Z.of_nat (length ns))) in Hdl
          as (ms & Hms & Hlen' & -> & Hdone); [|unfold j0 in *; lia].
        set (res := if 21 <? Hand.total dh' then _ else _).
        intros Hret.
        exists ([p1; p2; up] ++ ns ++ [hole] ++ ms),
               (j0 + Z.of_nat (length ns) + Z.of_nat (length ms)).
        assert (Hobs : [p1; p2; up] ++ ns ++ [hole] ++ ms
                       ≡ₚ dealt_between cards i
                            (j0 + Z.of_nat (length ns) + Z.of_nat (length ms))).
        { rewrite (Hsplit _ (ns ++ ms)); [| lia |].
          - cbn [app]. do 3 apply perm_skip.
            rewrite (Permutation_app_comm ns ([hole] ++ ms)). cbn [app].
            apply perm_skip. apply Permutation_app_comm.
          - rewrite (dealt_between_app _ j0 (j0 + Z.of_nat (length ns)))
              by (unfold j0; lia).
            unfold cards. by rewrite Hns, Hms. }
        assert (Hsm : StateManager.observe
                        (StateManager.observe
                           (StateManager.observe sm ([p1; p2; up] ++ ns)) [hole]) ms
                      = StateManager.observe sm ([p1; p2; up] ++ ns ++ [hole] ++ ms)).
        { by rewrite !observe_app, <- !app_assoc. }
        rewrite Hsm in Hret. unfold res in Hret. clear res.
        destruct (21 <? Hand.total dh') eqn:Edb.
        { injection Hret as <- <-. split; [done|]. split; [unfold j0 in *; lia|].
          split; [done|]. split; [done|]. do 4 right. cbn.
          apply Z.ltb_lt in Edb.
          split; [by apply Hstake|]. do 4 (split; [done|]).
          left. repeat split; auto. }
        destruct (Hand.total dh' <? Hand.total h') eqn:Ewin.
        { injection Hret as <- <-. split; [done|]. split; [unfold j0 in *; lia|].
          split; [done|]. split; [done|]. do 4 right. cbn.
          apply Z.ltb_lt in Ewin.
          split; [by apply Hstake|]. do 4 (split; [done|]).
          left. repeat split; auto. }
        destruct (Hand.total h' =? Hand.total dh') eqn:Epush.
        { injection Hret as <- <-. split; [done|]. split; [unfold j0 in *; lia|].
          split; [done|]. split; [done|]. do 4 right. cbn.
          apply Z.eqb_eq in Epush.
          split; [by apply Hstake|]. do 4 (split; [done|]).
          right. left. repeat split; auto. }
        injection Hret as <- <-. split; [done|]. split; [unfold j0 in *; lia|].
        split; [done|]. split; [done|]. do 4 right. cbn.
        apply Z.ltb_ge in Edb, Ewin. apply Z.eqb_neq in Epush.
        split; [by apply Hstake|]. do 4 (split; [done|]).
        right. right. repeat split; auto; lia.
Qed.

Lemma dealt_between_length cards i j :
  0 <= i → i <= j → j <= Z.of_nat (length cards) →
  Z.of_nat (length (dealt_between cards i j)) = j - i.
Proof.
  intros Hi Hij Hj. unfold dealt_between. rewrite length_take, length_drop. lia.
Qed.

(** X22. By the end of a hand the agent has observed exactly the cards that
    left the shoe during it: the shoe's pointer has moved by at least four
    cards, [cards_seen] has grown by the same number, the running count by
    the sum of their Hi-Lo tags, and nothing else of the table (rules,
    shoe contents, recorded hands) has changed. *)
Theorem X22_every_dealt_card_is_observed
    (sim sim' : BlackjackSimulator) (bet tc : Q) (hr : HandResult.t) :
  0 <= shoe_dealt_index (sim_shoe sim) →
  _play_hand sim bet tc = Ok (hr, sim') →
  let sm := state_manager (sim_agent sim) in
  let sm' := state_manager (sim_agent sim') in
  let i := shoe_dealt_index (sim_shoe sim) in
  let j := shoe_dealt_index (sim_shoe sim') in
  let dealt := dealt_between (shoe_cards (sim_shoe sim)) i j in
  shoe_cards (sim_shoe sim') = shoe_cards (sim_shoe sim)
  ∧ i + 4 <= j <= shoe_total_cards (sim_shoe sim)
  ∧ Z.of_nat (length dealt) = j - i
  ∧ StateManager._cards_seen sm' = StateManager._cards_seen sm + (j - i)
  ∧ StateManager._running_count sm' = StateManager._running_count sm + hilo_sum dealt
  ∧ StateManager._observed_cards sm' ≡ₚ StateManager._observed_cards sm ++ dealt
  ∧ StateManager._rules sm' = StateManager._rules sm
  ∧ sim_rules sim' = sim_rules sim
  ∧ sim_hand_results sim' = sim_hand_results sim.
Proof.
  intros Hidx Hplay.
  destruct (play_hand_spec _ _ _ _ _ Hidx Hplay) as (obs & j & -> & Hj & Hobs & _ & _).
  cbn [sim_at sim_with sim_agent sim_shoe agent_with_state state_manager
       shoe_dealt_index shoe_cards sim_rules sim_hand_results].
  assert (Hlen : Z.of_nat (length (dealt_between (shoe_cards (sim_shoe sim))
                                     (shoe_dealt_index (sim_shoe sim)) j))
                 = j - shoe_dealt_index (sim_shoe sim)).
  { apply dealt_between_length; unfold shoe_total_cards in Hj; lia. }
  split; [done|]. split; [done|]. split; [done|]. split; [|split; [|split]].
  - rewrite observe_cards_seen, (Permutation_length Hobs). lia.
  - by rewrite observe_running_count, (hilo_sum_perm _ _ Hobs).
  - rewrite observe_observed_cards. by rewrite Hobs.
  - by rewrite observe_rules.
Qed.

Lemma X22_every_dealt_card_is_observed_witness :
  ∃ hr sim',
    _play_hand default_sim 10 0 = Ok (hr, sim')
    ∧ shoe_dealt_index (sim_shoe default_sim) + 4 <= shoe_dealt_index (sim_shoe sim')
    ∧ StateManager._cards_seen (state_manager (sim_agent sim'))
      = StateManager._cards_seen (state_manager (sim_agent default_sim))
        + (shoe_dealt_index (sim_shoe sim') - shoe_dealt_index (sim_shoe default_sim)).
Proof.
  assert (Hidx : 0 <= shoe_dealt_index (sim_shoe default_sim)) by done.
  destruct (_play_hand default_sim 10 0) as [[hr sim']|e] eqn:Hplay.
  - exists hr, sim'. split; [reflexivity|].
    destruct (X22_every_dealt_card_is_observed default_sim sim' 10 0 hr Hidx Hplay)
      as (_ & [Hfour _] & _ & Hseen & _).
    split; [exact Hfour | exact Hseen].
  - exfalso. vm_compute in Hplay. discriminate Hplay.
Defined.



(** X24. When a hand is played out against the dealer (outcome win or
    loss, or a push that is not a pair of naturals), the dealer has stopped
    by the table rule: on a bust, or on 17 or more, a soft 17 only if the
    dealer stands on soft 17; the player is not bust, and the outcome is
    the comparison of the two totals. *)
Theorem X24_dealer_stops_by_the_table_rule
    (sim sim' : BlackjackSimulator) (bet tc : Q) (hr : HandResult.t) :
  0 <= shoe_dealt_index (sim_shoe sim) →
  _play_hand sim bet tc = Ok (hr, sim') →
  HandResult.outcome hr = "win" ∨ HandResult.outcome hr = "loss"
  ∨ (HandResult.outcome hr = "push"
     ∧ Hand.is_blackjack (HandResult.player_hand hr) = false) →
  let p := HandResult.final_player_total hr in
  let d := HandResult.final_dealer_total hr in
  dealer_done (sim_rules sim) (HandResult.dealer_hand hr)
  ∧ d = Hand.total (HandResult.dealer_hand hr)
  ∧ 17 <= d
  ∧ p <= 21
  ∧ (HandResult.outcome hr = "win" ↔ 21 < d ∨ d < p)
  ∧ (HandResult.outcome hr = "push" ↔ d = p)
  ∧ (HandResult.outcome hr = "loss" ↔ p < d ∧ d <= 21).
Proof.
  intros Hidx Hplay Hout.
  destruct (play_hand_spec _ _ _ _ _ Hidx Hplay) as (obs & j & _ & _ & _ & _ & Hset).
  destruct Hset as
    [ (Ho & _)
    | [ (Ho & _ & _ & _ & Hbj & _)
    | [ (Ho & _)
    | [ (Ho & _)
    | (_ & _ & Hp21 & Hd & Hdone & Hcases) ]]]];
    try (exfalso; rewrite Ho in Hout; destruct Hout as [? | [? | [? ?]]]; congruence).
  cbn zeta. split; [done|]. split; [done|].
  assert (H17 : 17 <= HandResult.final_dealer_total hr).
  { rewrite Hd. destruct Hdone as [? | [? _]]; lia. }
  split; [done|]. split; [done|].
  destruct Hcases as [(Ho & _ & Hc) | [(Ho & _ & Hc) | (Ho & _ & Hc)]]; rewrite Ho;
    repeat split; try done; try lia; intros; try done; lia.
Qed.

Lemma X24_dealer_stops_by_the_table_rule_witness :
  ∃ hr sim',
    _play_hand default_sim 10 0 = Ok (hr, sim')
    ∧ HandResult.outcome hr = "win"
    ∧ dealer_done GameRules.default (HandResult.dealer_hand hr)
    ∧ 17 <= HandResult.final_dealer_total hr.
Proof.
  assert (Hidx : 0 <= shoe_dealt_index (sim_shoe default_sim)) by done.
  assert (Hwin : match _play_hand default_sim 10 0 with
                 | Ok (hr, _) => HandResult.outcome hr
                 | Raise _ => EmptyString
                 end = "win") by (vm_compute; reflexivity).
  destruct (_play_hand default_sim 10 0) as [[hr sim']|e] eqn:Hplay.
  - exists hr, sim'. split; [reflexivity|]. split; [exact Hwin|].
    destruct (X24_dealer_stops_by_the_table_rule default_sim sim' 10 0 hr Hidx Hplay
                (or_introl Hwin)) as (Hdone & _ & H17 & _).
    split; [exact Hdone | exact H17].
  - discriminate Hwin.
Defined.

(** ** The driver's accounts *)

Lemma count_outcome_total outcome r w l p b s u :
  outcome ∈ hand_outcomes →
  count_outcome outcome r = (w, l, p, b, s, u) →
  w + l + p + b + s + u = outcome_total r + 1.
Proof.
  unfold hand_outcomes, outcome_total. intros Hin.
  repeat (apply elem_of_cons in Hin as [-> | Hin];
          [cbn; intros [= <- <- <- <- <- <-]; lia|]).
  by apply elem_of_nil in Hin.
Qed.

(** The bookkeeping of one played hand. *)
Lemma record_hand_fields r hr bucket ev dd :
  HandResult.outcome hr ∈ hand_outcomes →
  let r' := record_hand r hr bucket ev dd in
  SimulationResult.hands_played r' = SimulationResult.hands_played r + 1
  ∧ SimulationResult.total_wagered r'
    = (SimulationResult.total_wagered r + HandResult.bet_size hr)%Q
  ∧ SimulationResult.total_won r'
    = (SimulationResult.total_won r + HandResult.payout hr)%Q
  ∧ outcome_total r' = outcome_total r + 1.
Proof.
  intros Hin. unfold record_hand.
  destruct (default _ _) as [current_ev count].
  destruct (count_outcome _ _) as [[[[[w l] p] b] s] u] eqn:Hc.
  cbn. repeat split. unfold outcome_total at 1. cbn.
  by apply (count_outcome_total _ _ _ _ _ _ _ _ Hin Hc).
Qed.

Lemma settled_books rules bet hr :
  settled rules bet hr →
  (HandResult.net_result hr == HandResult.payout hr - HandResult.bet_size hr)%Q
  ∧ HandResult.outcome hr ∈ hand_outcomes.
Proof.
  unfold hand_outcomes.
  intros [ (Ho & Hb & Hp & Hn & _)
         | [ (Ho & Hb & Hp & Hn & _)
         | [ (Ho & Hb & Hp & Hn & _)
         | [ (Ho & _ & Hp & Hn & _)
         | (_ & Hn & _ & _ & _ & Hcases) ]]]].
  - rewrite Ho, Hn, Hb. split; [lra | set_solver].
  - rewrite Ho, Hn, Hb, Hp. split; [lra | set_solver].
  - rewrite Ho, Hn, Hb, Hp. split; [field | set_solver].
  - rewrite Ho, Hn, Hp. split; [lra | set_solver].
  - rewrite Hn. split; [lra|].
    destruct Hcases as [(Ho & _) | [(Ho & _) | (Ho & _)]]; rewrite Ho; set_solver.
Qed.

Section DriverAccounts.

Variable rng_shuffle : nat → list Card.t → list Card.t.
Variable rng_randint : nat → Z → Z → Z.

(** The contract of [random.randint(a, b)]. *)
Hypothesis randint_in_range :
  ∀ n a b, a <= b → a <= rng_randint n a b <= b.

Lemma enter_fresh_shoe_keeps sim sim' :
  enter_fresh_shoe rng_shuffle rng_randint sim = Ok sim' →
  sim_hand_results sim' = sim_hand_results sim
  ∧ 0 <= shoe_dealt_index (sim_shoe sim').
Proof.
  unfold enter_fresh_shoe.
  destruct (SimulatorConfig.simulate_late_entry _).
  - set (max_burn := py_int _).
    destruct (max_burn <? 0) eqn:E; [done|]. apply Z.ltb_ge in E.
    intros [= <-]. cbn. split; [done|].
    pose proof (randint_in_range (sim_randint_calls sim) 0 max_burn E).
    unfold shoe_total_cards. cbn. lia.
  - intros [= <-]. cbn. split; [done | lia].
Qed.

Lemma run_step_books b0 sim st stop sim' st' :
  books_balance b0 sim st →
  run_step rng_shuffle rng_randint sim st = Ok (stop, sim', st') →
  books_balance b0 sim' st'
  ∧ SimulationResult.hands_played (run_result st') + run_hands_skipped st'
    <= SimulationResult.hands_played (run_result st) + run_hands_skipped st + 1.
Proof.
  intros (Hwag & Hwon & Hbank & Hout & Hlen & Hplayed & Hskip & Hidx) Hstep.
  unfold run_step in Hstep.
  destruct (if shoe_needs_shuffle _ _ then _ else _) as [[sim1 hts]|] eqn:Hfirst;
    [|done].
  cbn [mbind result_bind] in Hstep.
  assert (H1 : sim_hand_results sim1 = sim_hand_results sim
               ∧ 0 <= shoe_dealt_index (sim_shoe sim1)).
  { destruct (shoe_needs_shuffle _ _).
    - destruct (enter_fresh_shoe rng_shuffle rng_randint sim) as [s|] eqn:Hf; [|done].
      cbn in Hfirst. injection Hfirst as <- <-. by apply enter_fresh_shoe_keeps.
    - by injection Hfirst as <- <-. }
  destruct H1 as [Hres1 Hidx1]. clear Hfirst.
  destruct (agent_get_metrics (sim_agent sim1)) as [metrics|]; [|done].
  cbn [mbind result_bind] in Hstep.
  match type of Hstep with context [if ?w then _ else _] => destruct w end.
  - (* table hop *)
    destruct (enter_fresh_shoe rng_shuffle rng_randint sim1) as [sim2|] eqn:Hf2; [|done].
    cbn [mbind result_bind] in Hstep. injection Hstep as <- <- <-.
    destruct (enter_fresh_shoe_keeps _ _ Hf2) as [Hres2 Hidx2].
    unfold books_balance. cbn [run_result run_bankroll run_hands_skipped].
    rewrite Hres2, Hres1. repeat split; try done; lia.
  - destruct (determine_bet sim1 (run_bankroll st)) as [bet|]; [|done].
    cbn [mbind result_bind] in Hstep.
    destruct (Qle_bool bet 0).
    + (* bankrupt *)
      injection Hstep as <- <- <-.
      unfold books_balance. cbn [run_result run_bankroll run_hands_skipped].
      rewrite Hres1. unfold outcome_total in *. cbn. repeat split; try done; lia.
    + (* a hand is played *)
      destruct (_play_hand sim1 bet _) as [[hr sim2]|] eqn:Hplay; [|done].
      cbn [mbind result_bind] in Hstep. injection Hstep as <- <- <-.
      destruct (play_hand_spec _ _ _ _ _ Hidx1 Hplay)
        as (obs & j & -> & Hj & _ & _ & Hset).
      destruct (settled_books _ _ _ Hset) as [Hnet Hin].
      unfold books_balance. cbn [run_result run_bankroll run_hands_skipped].
      match goal with
      | |- context [record_hand ?r ?h ?b ?e ?d] =>
          destruct (record_hand_fields r h b e d Hin) as (Hp' & Hw' & Hwon' & Ho');
          cbn zeta in Hp', Hw', Hwon', Ho';
          rewrite Hp', Hw', Hwon', Ho'
      end.
      cbn [SimulationResult.hands_played SimulationResult.total_wagered
           SimulationResult.total_won track_true_count sim_hand_results sim_shoe
           shoe_dealt_index sim_at sim_with].
      rewrite !foldl_app, length_app, Hres1, <- Hwag, <- Hwon, <- Hbank. cbn [length foldl].
      assert (Hot : ∀ r b, outcome_total (track_true_count r b) = outcome_total r)
        by done.
      rewrite Hot. repeat split; try lia.
Qed.

Lemma run_loop_books b0 n :
  ∀ sim st sim' st',
    books_balance b0 sim st →
    run_loop rng_shuffle rng_randint n sim st = Ok (sim', st') →
    books_balance b0 sim' st'
    ∧ SimulationResult.hands_played (run_result st') + run_hands_skipped st'
      <= SimulationResult.hands_played (run_result st) + run_hands_skipped st
         + Z.of_nat n.
Proof.
  induction n as [|n IH]; intros sim st sim' st' Hbooks; cbn [run_loop].
  - intros [= <- <-]. split; [done | lia].
  - destruct (run_step rng_shuffle rng_randint sim st) as [[[stop sim1] st1]|] eqn:Hstep;
      [|done].
    cbn [mbind result_bind].
    destruct (run_step_books _ _ _ _ _ _ Hbooks Hstep) as [Hbooks1 Hle1].
    destruct stop.
    + intros [= <- <-]. split; [done | lia].
    + intros Hloop. destruct (IH _ _ _ _ Hbooks1 Hloop) as [Hbooks2 Hle2].
      split; [done | lia].
Qed.

(** X25. The totals of a run tally with its hand records: the amount
    wagered, the amount won and the final bankroll are the sums, in
    playing order, of the records' stakes, payouts and net results (the
    bankroll starting from the starting bankroll); every played hand is
    counted under exactly one outcome and kept in the list of hand
    records, and hands played and table hops together do not exceed the
    number of hands asked for. *)
Theorem X25_run_totals_tally_with_hand_records
    (sim sim' : BlackjackSimulator) (num_hands : Z) (starting_bankroll : Q)
    (res : SimulationResult.t) :
  0 <= shoe_dealt_index (sim_shoe sim) →
  run rng_shuffle rng_randint sim num_hands starting_bankroll = Ok (res, sim') →
  SimulationResult.total_wagered res
  = foldl (fun acc hr => (acc + HandResult.bet_size hr)%Q) 0%Q (sim_hand_results sim')
  ∧ SimulationResult.total_won res
    = foldl (fun acc hr => (acc + HandResult.payout hr)%Q) 0%Q (sim_hand_results sim')
  ∧ SimulationResult.final_bankroll res
    = foldl (fun acc hr => (acc + HandResult.net_result hr)%Q) starting_bankroll
            (sim_hand_results sim')
  ∧ SimulationResult.hands_played res = outcome_total res
  ∧ SimulationResult.hands_played res = Z.of_nat (length (sim_hand_results sim'))
  ∧ 0 <= SimulationResult.hands_skipped res
  ∧ SimulationResult.hands_played res + SimulationResult.hands_skipped res
    <= Z.max 0 num_hands.
Proof.
  intros Hidx. unfold run, run_start.
  destruct (run_loop _ _ _ _ _) as [[sim1 st1]|] eqn:Hloop; [|done].
  cbn [mbind result_bind]. intros [= <- <-].
  apply run_loop_books with (b0 := starting_bankroll) in Hloop
    as [(Hwag & Hwon & Hbank & Hout & Hlen & Hplayed & Hskip & _) Hle].
  - unfold finalize, outcome_total in *.
    cbn [SimulationResult.total_won
         SimulationResult.total_wagered SimulationResult.final_bankroll
         SimulationResult.hands_played SimulationResult.hands_skipped
         SimulationResult.wins SimulationResult.losses SimulationResult.pushes
         SimulationResult.blackjacks SimulationResult.surrenders
         SimulationResult.busts].
    cbn in Hle. repeat split; try done; lia.
  - unfold books_balance, outcome_total. cbn. repeat split; try done; lia.
Qed.

End DriverAccounts.

Lemma X25_run_totals_tally_with_hand_records_witness :
  ∃ res sim',
    run unshuffled randint_low default_sim 3 10000 = Ok (res, sim')
    ∧ SimulationResult.total_wagered res
      = foldl (fun acc hr => (acc + HandResult.bet_size hr)%Q) 0%Q
              (sim_hand_results sim')
    ∧ SimulationResult.hands_played res = outcome_total res.
Proof.
  assert (Hidx : 0 <= shoe_dealt_index (sim_shoe default_sim)) by done.
  assert (Hrand : ∀ n a b, a <= b → a <= randint_low n a b <= b)
    by (intros n a b Hab; unfold randint_low; lia).
  destruct (run unshuffled randint_low default_sim 3 10000) as [[res sim']|e] eqn:Hrun.
  - exists res, sim'. split; [reflexivity|].
    destruct (X25_run_totals_tally_with_hand_records unshuffled randint_low Hrand
                default_sim sim' 3 10000 res Hidx Hrun) as (Hwag & _ & _ & Hout & _).
    split; [exact Hwag | exact Hout].
  - exfalso. vm_compute in Hrun. discriminate Hrun.
Defined.

(** ** The loops of a hand are bounded by the shoe *)

Lemma sim_deal_observed_remaining sim c sim1 :
  sim_deal_observed sim = Ok (c, sim1) →
  shoe_cards_remaining (sim_shoe sim1) = shoe_cards_remaining (sim_shoe sim) - 1
  ∧ 0 < shoe_cards_remaining (sim_shoe sim).
Proof.
  unfold sim_deal_observed, sim_deal, shoe_deal, shoe_cards_remaining.
  destruct (shoe_total_cards _ <=? _) eqn:E; [done|]. apply Z.leb_gt in E.
  destruct (_ <? 0); [|destruct (_ !! _); [|done]];
    cbn [mbind result_bind]; intros [= <- <-]; unfold shoe_total_cards in *; cbn; lia.
Qed.

Lemma player_loop_fuel bet tc dealer_up dealer_hole fuel :
  ∀ fuel' sim h cb acts,
    (Z.to_nat (shoe_cards_remaining (sim_shoe sim)) < fuel)%nat →
    (Z.to_nat (shoe_cards_remaining (sim_shoe sim)) < fuel')%nat →
    player_loop fuel sim bet tc dealer_up dealer_hole h cb acts
    = player_loop fuel' sim bet tc dealer_up dealer_hole h cb acts.
Proof.
  induction fuel as [|fuel IH]; intros [|fuel'] sim h cb acts Hf Hf'; try lia.
  cbn [player_loop].
  destruct (agent_get_decision_with_context _ _ _ _) as [dr|]; [|done].
  cbn [mbind result_bind].
  assert (Hhit : ∀ a,
    (x ← sim_deal_observed sim;
     (let '(new_card, sim0) := x in
      player_hand ← Hand.add_card h new_card;
      if 21 <? Hand.total player_hand
      then Ok (inr (player_hand, cb, true, acts ++ [a]), sim0)
      else player_loop fuel sim0 bet tc dealer_up dealer_hole player_hand cb
             (acts ++ [a])))
    = (x ← sim_deal_observed sim;
       (let '(new_card, sim0) := x in
        player_hand ← Hand.add_card h new_card;
        if 21 <? Hand.total player_hand
        then Ok (inr (player_hand, cb, true, acts ++ [a]), sim0)
        else player_loop fuel' sim0 bet tc dealer_up dealer_hole player_hand cb
               (acts ++ [a])))).
  { intros a. destruct (sim_deal_observed sim) as [[c sim1]|] eqn:Hd; [|done].
    cbn [mbind result_bind].
    destruct (sim_deal_observed_remaining _ _ _ Hd) as [Hrem Hpos].
    destruct (Hand.add_card h c) as [h1|]; [|done]. cbn [mbind result_bind].
    destruct (21 <? Hand.total h1); [done|]. apply IH; lia. }
  destruct (DecisionResult.action dr); try done; apply Hhit.
Qed.

Lemma dealer_loop_fuel fuel :
  ∀ fuel' sim dh,
    (Z.to_nat (shoe_cards_remaining (sim_shoe sim)) < fuel)%nat →
    (Z.to_nat (shoe_cards_remaining (sim_shoe sim)) < fuel')%nat →
    dealer_loop fuel sim dh = dealer_loop fuel' sim dh.
Proof.
  induction fuel as [|fuel IH]; intros [|fuel'] sim dh Hf Hf'; try lia.
  cbn [dealer_loop].
  destruct (21 <? Hand.total dh); [done|]. destruct (_ && _); [done|].
  destruct (sim_deal_observed sim) as [[c sim1]|] eqn:Hd; [|done].
  cbn [mbind result_bind].
  destruct (sim_deal_observed_remaining _ _ _ Hd) as [Hrem Hpos].
  destruct (Hand.add_card dh c) as [dh1|]; [|done]. cbn [mbind result_bind].
  apply IH; lia.
Qed.

Lemma player_loop_iterations bet tc dealer_up dealer_hole fuel :
  ∀ sim h cb acts,
    player_loop fuel sim bet tc dealer_up dealer_hole h cb acts
    = bounded_result (player_iterations fuel sim bet tc dealer_up dealer_hole h cb acts).
Proof.
  induction fuel as [|fuel IH]; intros sim h cb acts; [done|].
  cbn [player_loop player_iterations]. unfold player_iteration.
  destruct (agent_get_decision_with_context _ _ _ _) as [dr|]; [|done].
  cbn [mbind result_bind].
  destruct (DecisionResult.action dr).
  - done.
  - destruct (sim_deal_observed sim) as [[c sim1]|]; [|done]. cbn [mbind result_bind].
    destruct (Hand.add_card h c) as [h1|]; [|done]. cbn [mbind result_bind].
    destruct (21 <? Hand.total h1); [done|]. apply IH.
  - destruct (sim_deal_observed sim) as [[c sim1]|]; [|done]. cbn [mbind result_bind].
    by destruct (Hand.add_card h c) as [h1|].
  - destruct (sim_deal_observed sim) as [[c sim1]|]; [|done]. cbn [mbind result_bind].
    destruct (Hand.add_card h c) as [h1|]; [|done]. cbn [mbind result_bind].
    destruct (21 <? Hand.total h1); [done|]. apply IH.
  - by destruct (Hand.from_cards [dealer_up; dealer_hole]).
Qed.

Lemma dealer_loop_iterations fuel :
  ∀ sim dh,
    dealer_loop fuel sim dh = bounded_result (dealer_iterations fuel sim dh).
Proof.
  induction fuel as [|fuel IH]; intros sim dh; [done|].
  cbn [dealer_loop dealer_iterations]. unfold dealer_iteration.
  destruct (21 <? Hand.total dh); [done|]. destruct (_ && _); [done|].
  destruct (sim_deal_observed sim) as [[c sim1]|]; [|done]. cbn [mbind result_bind].
  destruct (Hand.add_card dh c) as [dh1|]; [|done]. cbn [mbind result_bind].
  apply IH.
Qed.

(** An iteration that goes round again has dealt a card. *)
Lemma player_iteration_deals sim bet tc dealer_up dealer_hole h cb acts sim1 h1 acts1 :
  player_iteration sim bet tc dealer_up dealer_hole h cb acts = Ok (inr (sim1, h1, acts1)) →
  shoe_cards_remaining (sim_shoe sim1) = shoe_cards_remaining (sim_shoe sim) - 1
  ∧ 0 < shoe_cards_remaining (sim_shoe sim).
Proof.
  unfold player_iteration.
  destruct (agent_get_decision_with_context _ _ _ _) as [dr|]; [|done].
  cbn [mbind result_bind].
  destruct (DecisionResult.action dr); try done.
  - destruct (sim_deal_observed sim) as [[c sim0]|] eqn:Hd; [|done].
    cbn [mbind result_bind].
    destruct (Hand.add_card h c) as [h0|]; [|done]. cbn [mbind result_bind].
    destruct (21 <? Hand.total h0); [done|]. intros [= <- <- <-].
    by eapply sim_deal_observed_remaining.
  - destruct (sim_deal_observed sim) as [[c sim0]|]; [|done]. cbn [mbind result_bind].
    by destruct (Hand.add_card h c).
  - destruct (sim_deal_observed sim) as [[c sim0]|] eqn:Hd; [|done].
    cbn [mbind result_bind].
    destruct (Hand.add_card h c) as [h0|]; [|done]. cbn [mbind result_bind].
    destruct (21 <? Hand.total h0); [done|]. intros [= <- <- <-].
    by eapply sim_deal_observed_remaining.
  - by destruct (Hand.from_cards [dealer_up; dealer_hole]).
Qed.

Lemma dealer_iteration_deals sim dh sim1 dh1 :
  dealer_iteration sim dh = Ok (inr (sim1, dh1)) →
  shoe_cards_remaining (sim_shoe sim1) = shoe_cards_remaining (sim_shoe sim) - 1
  ∧ 0 < shoe_cards_remaining (sim_shoe sim).
Proof.
  unfold dealer_iteration.
  destruct (21 <? Hand.total dh); [done|]. destruct (_ && _); [done|].
  destruct (sim_deal_observed sim) as [[c sim0]|] eqn:Hd; [|done].
  cbn [mbind result_bind].
  destruct (Hand.add_card dh c) as [dh0|]; [|done]. cbn [mbind result_bind].
  intros [= <- <-]. by eapply sim_deal_observed_remaining.
Qed.

Lemma player_iterations_end bet tc dealer_up dealer_hole fuel :
  ∀ sim h cb acts,
    (Z.to_nat (shoe_cards_remaining (sim_shoe sim)) < fuel)%nat →
    ∃ r, player_iterations fuel sim bet tc dealer_up dealer_hole h cb acts = Some r.
Proof.
  induction fuel as [|fuel IH]; intros sim h cb acts Hf; [lia|].
  cbn [player_iterations].
  destruct (player_iteration sim bet tc dealer_up dealer_hole h cb acts)
    as [[out | [[sim1 h1] acts1]]|e] eqn:Hit; [by eexists | | by eexists].
  destruct (player_iteration_deals _ _ _ _ _ _ _ _ _ _ _ Hit) as [Hrem Hpos].
  apply IH. lia.
Qed.

Lemma dealer_iterations_end fuel :
  ∀ sim dh,
    (Z.to_nat (shoe_cards_remaining (sim_shoe sim)) < fuel)%nat →
    ∃ r, dealer_iterations fuel sim dh = Some r.
Proof.
  induction fuel as [|fuel IH]; intros sim dh Hf; [lia|].
  cbn [dealer_iterations].
  destruct (dealer_iteration sim dh) as [[out | [sim1 dh1]]|e] eqn:Hit;
    [by eexists | | by eexists].
  destruct (dealer_iteration_deals _ _ _ _ Hit) as [Hrem Hpos].
  apply IH. lia.
Qed.

(** X26. The two [while True] loops of a hand end by themselves.  An
    iteration that goes round again has dealt a card, so it needs a card
    in the shoe and leaves one card less; hence the loops, run as
    iterations that tell a reached bound apart from every result, reach
    their way out within one iteration more than there are cards left in
    the shoe, and what [player_loop] and [dealer_loop] give under that
    bound, or any larger one, is the result of the loop itself. *)
Theorem X26_hand_loops_are_bounded_by_the_shoe
    (sim : BlackjackSimulator) (bet tc : Q) (dealer_up dealer_hole : Card.t)
    (h dh : Hand.t) (cb : Q) (acts : list Action) (extra : nat) :
  (∀ sim1 h1 acts1,
     player_iteration sim bet tc dealer_up dealer_hole h cb acts
     = Ok (inr (sim1, h1, acts1)) →
     0 < shoe_cards_remaining (sim_shoe sim)
     ∧ shoe_cards_remaining (sim_shoe sim1) = shoe_cards_remaining (sim_shoe sim) - 1)
  ∧ (∀ sim1 dh1,
       dealer_iteration sim dh = Ok (inr (sim1, dh1)) →
       0 < shoe_cards_remaining (sim_shoe sim)
       ∧ shoe_cards_remaining (sim_shoe sim1) = shoe_cards_remaining (sim_shoe sim) - 1)
  ∧ (∃ r,
       player_iterations (loop_fuel sim + extra) sim bet tc dealer_up dealer_hole
                         h cb acts = Some r
       ∧ player_loop (loop_fuel sim + extra) sim bet tc dealer_up dealer_hole h cb acts
         = r
       ∧ player_loop (loop_fuel sim) sim bet tc dealer_up dealer_hole h cb acts = r)
  ∧ (∃ r,
       dealer_iterations (loop_fuel sim + extra) sim dh = Some r
       ∧ dealer_loop (loop_fuel sim + extra) sim dh = r
       ∧ dealer_loop (loop_fuel sim) sim dh = r).
Proof.
  split; [|split; [|split]].
  - intros sim1 h1 acts1 Hit.
    by destruct (player_iteration_deals _ _ _ _ _ _ _ _ _ _ _ Hit).
  - intros sim1 dh1 Hit. by destruct (dealer_iteration_deals _ _ _ _ Hit).
  - destruct (player_iterations_end bet tc dealer_up dealer_hole
                (loop_fuel sim + extra) sim h cb acts) as [r Hr];
      [unfold loop_fuel; lia|].
    exists r. split; [done|].
    assert (Hloop : player_loop (loop_fuel sim + extra) sim bet tc dealer_up
                      dealer_hole h cb acts = r)
      by (by rewrite player_loop_iterations, Hr).
    split; [done|]. rewrite <- Hloop. symmetry.
    apply player_loop_fuel; unfold loop_fuel; lia.
  - destruct (dealer_iterations_end (loop_fuel sim + extra) sim dh) as [r Hr];
      [unfold loop_fuel; lia|].
    exists r. split; [done|].
    assert (Hloop : dealer_loop (loop_fuel sim + extra) sim dh = r)
      by (by rewrite dealer_loop_iterations, Hr).
    split; [done|]. rewrite <- Hloop. symmetry.
    apply dealer_loop_fuel; unfold loop_fuel; lia.
Qed.

(** ** The agent and the shoe stay in step *)

Lemma py_int_le_of_le (x : Q) (n : Z) : (0 <= x)%Q → (x <= inject_Z n)%Q → py_int x <= n.
Proof.
  intros H0 Hx. unfold py_int. apply Qle_bool_iff in H0. rewrite H0.
  apply Qfloor_resp_le in Hx. by rewrite Qfloor_Z in Hx.
Qed.

Section InStep.

Variable rng_shuffle : nat → list Card.t → list Card.t.
Variable rng_randint : nat → Z → Z → Z.

Hypothesis randint_in_range :
  ∀ n a b, a <= b → a <= rng_randint n a b <= b.

Lemma enter_fresh_shoe_in_step sim sim' :
  (0 <= SimulatorConfig.late_entry_max_pen (sim_config sim) <= 1)%Q →
  enter_fresh_shoe rng_shuffle rng_randint sim = Ok sim' →
  in_step sim'
  ∧ StateManager._running_count (state_manager (sim_agent sim')) = 0
  ∧ sim_config sim' = sim_config sim.
Proof.
  intros [Hp0 Hp1]. unfold enter_fresh_shoe, in_step.
  destruct (SimulatorConfig.simulate_late_entry _).
  - set (shoe := shoe_shuffle rng_shuffle (sim_shoe sim)).
    set (max_burn := py_int _).
    destruct (max_burn <? 0) eqn:E; [done|]. apply Z.ltb_ge in E.
    intros [= <-]. cbn.
    pose proof (randint_in_range (sim_randint_calls sim) 0 max_burn E) as Hr.
    assert (Hlen : 0 <= shoe_total_cards shoe) by (unfold shoe_total_cards; lia).
    assert (Hmax : max_burn <= shoe_total_cards shoe).
    { unfold max_burn. fold shoe.
      assert (0 <= inject_Z (shoe_total_cards shoe))%Q
        by (change 0%Q with (inject_Z 0); by rewrite <- Zle_Qle).
      apply py_int_le_of_le; nra. }
    fold shoe. repeat split; try done; lia.
  - intros [= <-]. cbn. repeat split; try done; lia.
Qed.

Lemma run_step_in_step sim st stop sim' st' :
  (0 <= SimulatorConfig.late_entry_max_pen (sim_config sim) <= 1)%Q →
  in_step sim →
  run_step rng_shuffle rng_randint sim st = Ok (stop, sim', st') →
  in_step sim' ∧ sim_config sim' = sim_config sim.
Proof.
  intros Hpen Hin Hstep. unfold run_step in Hstep.
  destruct (if shoe_needs_shuffle _ _ then _ else _) as [[sim1 hts]|] eqn:Hfirst;
    [|done].
  cbn [mbind result_bind] in Hstep.
  assert (H1 : in_step sim1 ∧ sim_config sim1 = sim_config sim).
  { destruct (shoe_needs_shuffle _ _).
    - destruct (enter_fresh_shoe rng_shuffle rng_randint sim) as [s|] eqn:Hf; [|done].
      cbn in Hfirst. injection Hfirst as <- <-.
      destruct (enter_fresh_shoe_in_step _ _ Hpen Hf) as (? & _ & ?). done.
    - by injection Hfirst as <- <-. }
  destruct H1 as [Hin1 Hcfg1]. clear Hfirst.
  destruct (agent_get_metrics (sim_agent sim1)) as [metrics|]; [|done].
  cbn [mbind result_bind] in Hstep.
  match type of Hstep with context [if ?w then _ else _] => destruct w end.
  - destruct (enter_fresh_shoe rng_shuffle rng_randint sim1) as [sim2|] eqn:Hf2; [|done].
    cbn [mbind result_bind] in Hstep. injection Hstep as <- <- <-.
    rewrite <- Hcfg1 in Hpen.
    destruct (enter_fresh_shoe_in_step _ _ Hpen Hf2) as (? & _ & ?).
    split; [done | congruence].
  - destruct (determine_bet sim1 (run_bankroll st)) as [bet|]; [|done].
    cbn [mbind result_bind] in Hstep.
    destruct (Qle_bool bet 0).
    + by injection Hstep as <- <- <-.
    + destruct (_play_hand sim1 bet _) as [[hr sim2]|] eqn:Hplay; [|done].
      cbn [mbind result_bind] in Hstep. injection Hstep as <- <- <-.
      destruct Hin1 as [Hseen Hidx].
      destruct (play_hand_spec _ _ _ _ _ Hidx Hplay)
        as (obs & j & -> & Hj & Hobs & _ & _).
      split; [|done]. unfold in_step. cbn.
      rewrite observe_cards_seen, (Permutation_length Hobs), Hseen.
      rewrite dealt_between_length by (unfold shoe_total_cards in Hj; lia). lia.
Qed.

Lemma run_loop_in_step n :
  ∀ sim st sim' st',
    (0 <= SimulatorConfig.late_entry_max_pen (sim_config sim) <= 1)%Q →
    in_step sim →
    run_loop rng_shuffle rng_randint n sim st = Ok (sim', st') →
    in_step sim'.
Proof.
  induction n as [|n IH]; intros s t s' t' Hp Hi; cbn [run_loop].
  - by intros [= <- <-].
  - destruct (run_step rng_shuffle rng_randint s t) as [[[stop s1] t1]|] eqn:Hs; [|done].
    cbn [mbind result_bind].
    destruct (run_step_in_step _ _ _ _ _ Hp Hi Hs) as [Hi1 Hc1].
    destruct stop; [by intros [= <- <-]|].
    apply IH; [by rewrite Hc1 | done].
Qed.

(** X27. The agent and the shoe stay in step through a run.  With a
    late-entry bound between 0 and 1 and a [randint] that keeps to its
    range, if the agent's [cards_seen] equals the shoe's pointer before
    [run] it does so after it, whatever shuffles, late entries and table
    hops happened; the two penetrations are then the same number whenever
    the rules' shoe size is the shoe's. *)
Theorem X27_agent_and_shoe_stay_in_step
    (sim sim' : BlackjackSimulator) (num_hands : Z) (starting_bankroll : Q)
    (res : SimulationResult.t) :
  (0 <= SimulatorConfig.late_entry_max_pen (sim_config sim) <= 1)%Q →
  in_step sim →
  run rng_shuffle rng_randint sim num_hands starting_bankroll = Ok (res, sim') →
  in_step sim'
  ∧ (GameRules.total_cards (StateManager._rules (state_manager (sim_agent sim')))
     = shoe_total_cards (sim_shoe sim') →
     StateManagerOps.penetration (state_manager (sim_agent sim'))
     = shoe_penetration (sim_shoe sim')).
Proof.
  intros Hpen Hin. unfold run, run_start.
  destruct (run_loop _ _ _ _ _) as [[sim1 st1]|] eqn:Hloop; [|done].
  cbn [mbind result_bind]. intros [= <- <-].
  assert (Hin1 : in_step sim1).
  { eapply run_loop_in_step; [| |exact Hloop]; [exact Hpen | exact Hin]. }
  split; [done|]. intros Htot.
  unfold StateManagerOps.penetration, shoe_penetration.
  destruct Hin1 as [Hseen _]. by rewrite Htot, Hseen.
Qed.

End InStep.

Lemma X27_agent_and_shoe_stay_in_step_witness :
  ∃ res sim',
    run unshuffled randint_low default_sim 3 10000 = Ok (res, sim')
    ∧ in_step sim'.
Proof.
  assert (Hrand : ∀ n a b, a <= b → a <= randint_low n a b <= b)
    by (intros n a b Hab; unfold randint_low; lia).
  assert (Hpen : (0 <= SimulatorConfig.late_entry_max_pen (sim_config default_sim) <= 1)%Q).
  { split; vm_compute; discriminate. }
  assert (Hin : in_step default_sim) by (split; [reflexivity | done]).
  destruct (run unshuffled randint_low default_sim 3 10000) as [[res sim']|e] eqn:Hrun.
  - exists res, sim'. split; [reflexivity|].
    exact (proj1 (X27_agent_and_shoe_stay_in_step unshuffled randint_low Hrand
                    default_sim sim' 3 10000 res Hpen Hin Hrun)).
  - exfalso. vm_compute in Hrun. discriminate Hrun.
Defined.

(** ** [matches_hand] and the index *)

(** The only soft pair is a pair of aces: a soft 12 with pair value 11. *)
Lemma soft_pair_is_aces cs h :
  Hand.from_cards cs = Ok h → Hand.is_pair h = true → Hand.is_soft h = true →
  Hand.total h = 12 ∧ Hand.pair_value h = Ok 11.
Proof.
  intros Hfc Hp Hs. destruct (from_cards_pair _ _ Hfc Hp) as (c0 & c1 & -> & Hr).
  destruct c0 as [r0 s0], c1 as [r1 s1]. cbn in Hr. subst r1.
  destruct r0; vm_compute in Hfc; injection Hfc as <-; cbn in Hs; try discriminate Hs;
    split; reflexivity.
Qed.

(** X28. [Deviation.matches_hand] and the index of [check_deviation] agree
    on every hand but one: a deviation matches a hand exactly when its
    trigger is the hand's classification, value and dealer value, except
    that a pair of aces (classified PAIR 11 by the index) is also matched
    by deviations written for a soft 12. *)
Theorem X28_matches_hand_agrees_with_index_except_aces
    (d : Deviation.t) (cs : list Card.t) (h : Hand.t) (dealer_up : Card.t) :
  Hand.from_cards cs = Ok h →
  ∃ v b,
    DeviationEngine.classify h = Ok (Hand.hand_type h, v)
    ∧ Deviation.matches_hand d h dealer_up = Ok b
    ∧ (b = true
       ↔ trigger_triple d = (Hand.hand_type h, v, dealer_value_of dealer_up)
         ∨ (Hand.is_pair h = true ∧ Hand.is_soft h = true
            ∧ trigger_triple d = (SOFT, 12, dealer_value_of dealer_up))).
Proof.
  intros Hfc. destruct (classify_ok _ _ Hfc) as [v Hcl].
  destruct d as [id [ht val dup] rule prio].
  unfold Deviation.matches_hand, trigger_triple.
  cbn [Deviation.trigger DeviationTrigger.hand_type DeviationTrigger.value
       DeviationTrigger.dealer_up].
  set (dv := dealer_value_of dealer_up).
  assert (Hsp : Hand.is_pair h = true → Hand.is_soft h = true →
                Hand.total h = 12 ∧ v = 11).
  { intros Hp Hs. destruct (soft_pair_is_aces _ _ Hfc Hp Hs) as [Ht Hpv].
    split; [done|]. unfold DeviationEngine.classify in Hcl. rewrite Hp, Hpv in Hcl.
    cbn in Hcl. congruence. }
  assert (Hpv : Hand.is_pair h = true → Hand.pair_value h = Ok v).
  { intros Hp. unfold DeviationEngine.classify in Hcl. rewrite Hp in Hcl.
    destruct (Hand.pair_value h); cbn in Hcl; congruence. }
  assert (Hnp : Hand.is_pair h = false → v = Hand.total h).
  { intros Hp. unfold DeviationEngine.classify in Hcl. rewrite Hp in Hcl.
    destruct (Hand.is_soft h); congruence. }
  exists v. unfold Hand.hand_type in *.
  destruct (Z.eqb_spec dv dup) as [Hd | Hd]; cbn [negb].
  2: { exists false. split; [done|]. split; [done|]. split; [done|].
       intros [[= _ _ ?] | (_ & _ & [= _ _ ?])]; congruence. }
  destruct (Hand.is_pair h) eqn:Hp, (Hand.is_soft h) eqn:Hs, ht;
    rewrite ?(Hpv eq_refl); cbn [mbind result_bind negb andb];
    (eexists; split; [done|]; split; [reflexivity|]).
  all: try (destruct (Hsp eq_refl eq_refl) as [Ht ->]).
  all: try (rewrite (Hnp eq_refl)).
  all: rewrite ?Ht, ?Z.eqb_eq.
  all: split;
    [ intros H; first [congruence | left; congruence | right; repeat split; congruence]
    | intros [H | (H1 & H2 & H)]; congruence ].
Qed.

Lemma X28_matches_hand_agrees_with_index_except_aces_witness :
  ∃ h, Hand.from_cards [Card.Build ACE SPADES; Card.Build ACE HEARTS] = Ok h
       ∧ DeviationEngine.classify h = Ok (PAIR, 11)
       ∧ Deviation.matches_hand (mk_dev "SOFT_12v6" SOFT 12 6 1 ABOVE_OR_EQUAL DOUBLE 0)
           h (Card.Build SIX CLUBS) = Ok true.
Proof.
  eexists. split; [reflexivity|]. split; [reflexivity|].
  destruct (X28_matches_hand_agrees_with_index_except_aces
              (mk_dev "SOFT_12v6" SOFT 12 6 1 ABOVE_OR_EQUAL DOUBLE 0)
              [Card.Build ACE SPADES; Card.Build ACE HEARTS] _ (Card.Build SIX CLUBS)
              eq_refl) as (v & b & _ & Hm & Hiff).
  rewrite Hm. f_equal. apply Hiff. right. repeat split; reflexivity.
Defined.

(** ** The derived figures of a run *)

Lemma record_hand_stats r hr bucket ev dd :
  let r' := record_hand r hr bucket ev dd in
  SimulationResult.max_drawdown r' = dd
  ∧ SimulationResult.hands_played r' = SimulationResult.hands_played r + 1
  ∧ SimulationResult.wins r <= SimulationResult.wins r' <= SimulationResult.wins r + 1.
Proof.
  unfold record_hand. destruct (default _ _) as [current_ev count].
  destruct (count_outcome _ _) as [[[[[w l] p] b] s] u] eqn:Hc.
  cbn. split; [done|]. split; [done|].
  unfold count_outcome in Hc. repeat case_bool_decide; injection Hc as <- <- <- <- <- <-; lia.
Qed.

Section DerivedFigures.

Variable rng_shuffle : nat → list Card.t → list Card.t.
Variable rng_randint : nat → Z → Z → Z.

Lemma run_step_stats b0 sim st stop sim' st' :
  stats_sound b0 st →
  run_step rng_shuffle rng_randint sim st = Ok (stop, sim', st') →
  stats_sound b0 st'.
Proof.
  intros (Hdd0 & Hdd & Hpeak & Hwins & Hwag) Hstep. unfold run_step in Hstep.
  destruct (if shoe_needs_shuffle _ _ then _ else _) as [[sim1 hts]|]; [|done].
  cbn [mbind result_bind] in Hstep.
  destruct (agent_get_metrics (sim_agent sim1)) as [metrics|]; [|done].
  cbn [mbind result_bind] in Hstep.
  match type of Hstep with context [if ?w then _ else _] => destruct w end.
  - destruct (enter_fresh_shoe rng_shuffle rng_randint sim1) as [sim2|]; [|done].
    cbn [mbind result_bind] in Hstep. injection Hstep as <- <- <-.
    unfold stats_sound. cbn. done.
  - destruct (determine_bet sim1 (run_bankroll st)) as [bet|]; [|done].
    cbn [mbind result_bind] in Hstep.
    destruct (Qle_bool bet 0).
    + injection Hstep as <- <- <-. unfold stats_sound. cbn. done.
    + destruct (_play_hand sim1 bet _) as [[hr sim2]|]; [|done].
      cbn [mbind result_bind] in Hstep. injection Hstep as <- <- <-.
      unfold stats_sound. cbn [run_result run_bankroll run_peak_bankroll]. cbn zeta.
      match goal with
      | |- context [record_hand ?r ?h ?b ?e ?d] =>
          destruct (record_hand_stats r h b e d) as (Hd' & Hp' & Hw');
          cbn zeta in Hd', Hp', Hw'; rewrite Hd', Hp';
          set (r' := record_hand r h b e d) in *
      end.
      cbn [SimulationResult.hands_played SimulationResult.max_drawdown
           SimulationResult.wins track_true_count] in *.
      set (bankroll' := (run_bankroll st + HandResult.net_result hr)%Q).
      pose proof (Q.le_max_l (run_peak_bankroll st) bankroll') as Hm1.
      pose proof (Q.le_max_r (run_peak_bankroll st) bankroll') as Hm2.
      pose proof (Q.le_max_l (SimulationResult.max_drawdown (run_result st))
                    (Qmax (run_peak_bankroll st) bankroll' - bankroll')) as Hm3.
      pose proof (Q.le_max_r (SimulationResult.max_drawdown (run_result st))
                    (Qmax (run_peak_bankroll st) bankroll' - bankroll')) as Hm4.
      repeat split; try lia; try lra.
Qed.

Lemma run_loop_stats b0 n :
  ∀ sim st sim' st',
    stats_sound b0 st →
    run_loop rng_shuffle rng_randint n sim st = Ok (sim', st') →
    stats_sound b0 st'.
Proof.
  induction n as [|n IH]; intros sim st sim' st' Hs; cbn [run_loop].
  - by intros [= <- <-].
  - destruct (run_step rng_shuffle rng_randint sim st) as [[[stop sim1] st1]|] eqn:Hstep;
      [|done].
    cbn [mbind result_bind].
    pose proof (run_step_stats _ _ _ _ _ _ Hs Hstep) as Hs1.
    destruct stop; [by intros [= <- <-]|]. by apply IH.
Qed.

(** X29. The derived figures of a result are consistent with the run: the
    maximum drawdown is not negative and is at least the overall loss
    (starting bankroll less final bankroll), and the win rate lies between
    0 and 1. *)
Theorem X29_derived_figures_are_consistent
    (sim sim' : BlackjackSimulator) (num_hands : Z) (starting_bankroll : Q)
    (res : SimulationResult.t) :
  run rng_shuffle rng_randint sim num_hands starting_bankroll = Ok (res, sim') →
  (0 <= SimulationResult.max_drawdown res)%Q
  ∧ (starting_bankroll - SimulationResult.final_bankroll res
     <= SimulationResult.max_drawdown res)%Q
  ∧ (0 <= SimulationResult.win_rate res <= 1)%Q.
Proof.
  unfold run, run_start.
  destruct (run_loop _ _ _ _ _) as [[sim1 st1]|] eqn:Hloop; [|done].
  cbn [mbind result_bind]. intros [= <- <-].
  apply run_loop_stats with (b0 := starting_bankroll) in Hloop
    as (Hdd0 & Hdd & Hpeak & Hwins & Hwag).
  - unfold finalize.
    cbn [SimulationResult.max_drawdown SimulationResult.final_bankroll
         SimulationResult.win_rate SimulationResult.hands_played].
    split; [done|]. split; [lra|].
    set (hp := SimulationResult.hands_played (run_result st1)) in *.
    set (w := SimulationResult.wins (run_result st1)) in *.
    destruct (0 <? hp) eqn:E.
    + apply Z.ltb_lt in E.
      assert (Hhp : (0 < inject_Z hp)%Q) by (rewrite Zlt_Qlt in E; exact E).
      assert (Hw0 : (0 <= inject_Z w)%Q) by (rewrite Zle_Qle in Hwins; tauto).
      assert (Hw1 : (inject_Z w <= inject_Z hp)%Q) by (rewrite <- Zle_Qle; tauto).
      split.
      * apply Qle_shift_div_l; [done|]. lra.
      * apply Qle_shift_div_r; [done|]. lra.
    + split; lra.
  - unfold stats_sound. cbn. repeat split; try done; try lra; try lia.
Qed.

End DerivedFigures.

Lemma X29_derived_figures_are_consistent_witness :
  ∃ res sim',
    run unshuffled randint_low default_sim 3 10000 = Ok (res, sim')
    ∧ (0 <= SimulationResult.win_rate res <= 1)%Q.
Proof.
  destruct (run unshuffled randint_low default_sim 3 10000) as [[res sim']|e] eqn:Hrun.
  - exists res, sim'. split; [reflexivity|].
    destruct (X29_derived_figures_are_consistent unshuffled randint_low default_sim
                sim' 3 10000 res Hrun) as (_ & _ & Hrate).
    exact Hrate.
  - exfalso. vm_compute in Hrun. discriminate Hrun.
Defined.

(** ** The Kelly calculator *)

(** X30. A Kelly calculator accepted by the constructor (fraction in
    (0, 1]) with a positive variance never fails: the bet fraction is not
    negative, zero for a non-positive advantage, monotone in the
    advantage and never more than the fraction of the full-Kelly
    calculator of the same variance; the amount is zero for a non-positive
    bankroll, and otherwise at most the bankroll and at least the smaller
    of the table minimum and the bankroll (and at most the table maximum
    when the limits are ordered). *)
Theorem X30_kelly_amount_within_limits
    (kelly_fraction variance : Q) (k : KellyCalculator.t) (limits : BetLimits.t)
    (advantage bankroll : Q) :
  KellyCalculator.make kelly_fraction variance = Ok k →
  (0 < variance)%Q →
  ∃ f bet,
    KellyCalculator.calculate_bet_fraction k advantage = Ok f
    ∧ KellyCalculator.calculate_bet_amount k advantage bankroll limits = Ok bet
    ∧ (0 <= f)%Q
    ∧ ((advantage <= 0)%Q → f = 0%Q)
    ∧ (∀ full f1, KellyCalculator.make 1 variance = Ok full →
                  KellyCalculator.calculate_bet_fraction full advantage = Ok f1 →
                  (f <= f1)%Q)
    ∧ (∀ advantage' f', (advantage <= advantage')%Q →
                        KellyCalculator.calculate_bet_fraction k advantage' = Ok f' →
                        (f <= f')%Q)
    ∧ ((bankroll <= 0)%Q → bet = 0%Q)
    ∧ ((0 < bankroll)%Q →
       (bet <= bankroll)%Q
       ∧ (Qmin (BetLimits.table_min limits) bankroll <= bet)%Q
       ∧ ((BetLimits.table_min limits <= BetLimits.table_max limits)%Q →
          (bet <= BetLimits.table_max limits)%Q)).
Proof.
  unfold KellyCalculator.make.
  destruct (Qlt_bool 0 _ && Qle_bool _ 1) eqn:E; cbn [negb]; [|done].
  intros [= <-] Hvar. apply andb_true_iff in E as [E1 E2].
  apply Qlt_bool_iff in E1. apply Qle_bool_iff in E2.
  assert (Hmono : ∀ adv adv' f f',
            KellyCalculator.calculate_bet_fraction
              (KellyCalculator.Build kelly_fraction variance) adv = Ok f →
            KellyCalculator.calculate_bet_fraction
              (KellyCalculator.Build kelly_fraction variance) adv' = Ok f' →
            (adv <= adv')%Q → (0 <= f)%Q ∧ (f <= f')%Q).
  { intros adv adv' f f'. by apply kelly_fraction_mono. }
  unfold KellyCalculator.calculate_bet_amount.
  destruct (KellyCalculator.calculate_bet_fraction
              (KellyCalculator.Build kelly_fraction variance) advantage) as [f|] eqn:Hfr.
  2:{ exfalso. revert Hfr. unfold KellyCalculator.calculate_bet_fraction, py_div.
      cbn [KellyCalculator._variance].
      destruct (Qeq_bool variance 0) eqn:Ev; [apply Qeq_bool_iff in Ev; lra|].
      by destruct (Qle_bool advantage 0). }
  assert (Hf0 : (0 <= f)%Q) by (by destruct (Hmono _ _ _ _ Hfr Hfr (Qle_refl _))).
  assert (Hfz : (advantage <= 0)%Q → f = 0%Q).
  { intros Ha. revert Hfr. unfold KellyCalculator.calculate_bet_fraction.
    apply Qle_bool_iff in Ha. rewrite Ha. by intros [= <-]. }
  assert (Hfull : ∀ full f1,
            (if negb (Qlt_bool 0 1 && Qle_bool 1 1) then Raise ValueError
             else Ok (KellyCalculator.Build 1 variance)) = Ok full →
            KellyCalculator.calculate_bet_fraction full advantage = Ok f1 →
            (f <= f1)%Q).
  { intros full f1 [= <-]. revert Hfr.
    unfold KellyCalculator.calculate_bet_fraction, py_div.
    cbn [KellyCalculator._variance KellyCalculator._kelly_fraction].
    destruct (Qeq_bool variance 0) eqn:Ev; [apply Qeq_bool_iff in Ev; lra|].
    destruct (Qle_bool advantage 0) eqn:Ea.
    - intros [= <-] [= <-]. lra.
    - apply Qle_bool_false_iff in Ea. cbn [mbind result_bind].
      intros [= <-] [= <-].
      assert (Hdiv : (advantage / variance * variance == advantage)%Q) by (field; lra).
      assert (0 < advantage / variance)%Q by nra. nra. }
  exists f. cbn [mbind result_bind].
  destruct (Qle_bool bankroll 0) eqn:Eb.
  - apply Qle_bool_iff in Eb. exists 0%Q.
    split; [done|]. split; [done|]. split; [done|]. split; [done|].
    split; [done|]. split; [intros a' f' Ha Hf'; by destruct (Hmono _ _ _ _ Hfr Hf' Ha)|].
    split; [done|]. intros; lra.
  - apply Qle_bool_false_iff in Eb. eexists. split; [reflexivity|].
    split; [reflexivity|]. split; [done|]. split; [done|]. split; [done|].
    split; [intros a' f' Ha Hf'; by destruct (Hmono _ _ _ _ Hfr Hf' Ha)|].
    split; [intros; lra|]. intros _. unfold BetLimits.clamp.
    split; [apply Q.le_min_r|]. split.
    + apply Q.min_le_compat; [apply Q.le_max_l | lra].
    + intros Hlim. eapply Qle_trans; [apply Q.le_min_l|].
      apply Q.max_lub; [done | apply Q.le_min_l].
Qed.

Lemma X30_kelly_amount_within_limits_witness :
  ∃ f bet,
    KellyCalculator.calculate_bet_fraction
      (KellyCalculator.Build (1 # 2) KellyCalculator.BLACKJACK_VARIANCE) (1 # 100) = Ok f
    ∧ KellyCalculator.calculate_bet_amount
        (KellyCalculator.Build (1 # 2) KellyCalculator.BLACKJACK_VARIANCE) (1 # 100)
        10000 (BetLimits.Build 10 1000 12) = Ok bet
    ∧ (bet <= 10000)%Q.
Proof.
  assert (Hvar : (0 < KellyCalculator.BLACKJACK_VARIANCE)%Q) by reflexivity.
  assert (Hbank : (0 < 10000)%Q) by reflexivity.
  destruct (X30_kelly_amount_within_limits (1 # 2) KellyCalculator.BLACKJACK_VARIANCE
              _ (BetLimits.Build 10 1000 12) (1 # 100) 10000 eq_refl Hvar)
    as (f & bet & Hfr & Hbet & _ & _ & _ & _ & _ & Hpos).
  exists f, bet. split; [exact Hfr|]. split; [exact Hbet|].
  exact (proj1 (Hpos Hbank)).
Defined.
